(** * JSON classification and deduplicated storage (app/utils/json_analyzer.py)

    A shallow embedding of [JSONAnalyzer] and of the upload route that drives
    it (app/routers/json_routes.py), together with the properties the design
    document states about them.

    Conventions of the embedding:
    - Python [str] and [bytes] are [string] (a sequence of 8-bit characters);
    - a parsed JSON object is an association list in insertion order, a
      parsed JSON array a list;
    - the directory tree under [app/storage] is a finite list of
      (path, content) pairs in creation order;
    - the standard-library behaviour the program relies on but does not
      define ([json.load], [json.dump], the iteration order of a [set]) is
      gathered in the record [runtime];
    - the clock readings and the I/O faults of one call are gathered in the
      record [io_env]. *)

From Stdlib Require Import List String Ascii Bool Arith ZArith NArith Lia.
From Stdlib Require Import Permutation DecimalString.
Import ListNotations.

Set Warnings "-register-all".

Local Open Scope list_scope.
Local Open Scope string_scope.

(* ===================================================================== *)
(** ** Python string operations used by the program *)
(* ===================================================================== *)

Module Str.
Local Open Scope nat_scope.

(** [s.startswith(p)] *)
Fixpoint startswith (p s : string) : bool :=
  match p, s with
  | EmptyString, _ => true
  | String a p', String b s' => Ascii.eqb a b && startswith p' s'
  | String _ _, EmptyString => false
  end.

(** [sub in s] *)
Fixpoint contains (sub s : string) : bool :=
  startswith sub s ||
  match s with
  | EmptyString => false
  | String _ s' => contains sub s'
  end.

(** [s.endswith(suf)] *)
Fixpoint endswith (suf s : string) : bool :=
  String.eqb s suf ||
  match s with
  | EmptyString => false
  | String _ s' => endswith suf s'
  end.

(** [s.rfind(c)] for a one-character needle; [None] stands for [-1]. *)
Fixpoint rfind (c : ascii) (s : string) : option nat :=
  match s with
  | EmptyString => None
  | String a s' =>
      match rfind c s' with
      | Some i => Some (S i)
      | None => if Ascii.eqb a c then Some 0 else None
      end
  end.

Definition lower_ascii (c : ascii) : ascii :=
  let n := nat_of_ascii c in
  if (65 <=? n) && (n <=? 90) then ascii_of_nat (n + 32) else c.

Definition upper_ascii (c : ascii) : ascii :=
  let n := nat_of_ascii c in
  if (97 <=? n) && (n <=? 122) then ascii_of_nat (n - 32) else c.

Fixpoint map (f : ascii -> ascii) (s : string) : string :=
  match s with
  | EmptyString => EmptyString
  | String a s' => String (f a) (map f s')
  end.

(** [s.lower()] and [s.upper()].  Only the characters A-Z and a-z are
    folded; every code point outside ASCII is encoded with bytes above 127,
    which this leaves alone, and no such code point folds to one of the
    ASCII letters the program compares against. *)
Definition lower : string -> string := map lower_ascii.
Definition upper : string -> string := map upper_ascii.

(** [s[:n]] and [s[n:]] *)
Fixpoint take (n : nat) (s : string) : string :=
  match n, s with
  | S n', String a s' => String a (take n' s')
  | _, _ => EmptyString
  end.

Fixpoint drop (n : nat) (s : string) : string :=
  match n, s with
  | S n', String _ s' => drop n' s'
  | _, _ => s
  end.

(** [s.split(c)] for a one-character separator. *)
Fixpoint split (c : ascii) (s : string) : list string :=
  match s with
  | EmptyString => [EmptyString]
  | String a s' =>
      if Ascii.eqb a c then EmptyString :: split c s'
      else match split c s' with
           | [] => [String a EmptyString]
           | w :: ws => String a w :: ws
           end
  end.

(** [len(s)] as a binary number (file sizes are large). *)
Fixpoint size (s : string) : N :=
  match s with
  | EmptyString => 0%N
  | String _ s' => N.succ (size s')
  end.

(** [str(n)] for a non-negative integer. *)
Definition of_nat (n : nat) : string :=
  NilEmpty.string_of_uint (Nat.to_uint n).

(** [f"{n:0{w}d}"]: decimal, left-padded with zeros to width [w]. *)
Fixpoint zeros (k : nat) : string :=
  match k with
  | O => EmptyString
  | S k' => String "0" (zeros k')
  end.

Definition zfill (w : nat) (n : N) : string :=
  let d := NilEmpty.string_of_uint (N.to_uint n) in
  zeros (w - String.length d) ++ d.

Definition is_digit (c : ascii) : bool :=
  let n := nat_of_ascii c in (48 <=? n) && (n <=? 57).

Definition is_hex_digit (c : ascii) : bool :=
  let n := nat_of_ascii c in
  ((48 <=? n) && (n <=? 57)) || ((97 <=? n) && (n <=? 102)).

Fixpoint all (p : ascii -> bool) (s : string) : bool :=
  match s with
  | EmptyString => true
  | String a s' => p a && all p s'
  end.

End Str.

(* ===================================================================== *)
(** ** hashlib.md5 (RFC 1321) *)
(* ===================================================================== *)

Module MD5.
Local Open Scope Z_scope.
Local Open Scope list_scope.

Definition w32 (x : Z) : Z := x mod 4294967296.
Definition add32 (x y : Z) : Z := w32 (x + y).
Definition not32 (x : Z) : Z := Z.lxor x 4294967295.
Definition rotl32 (x c : Z) : Z :=
  Z.lor (w32 (Z.shiftl x c)) (Z.shiftr x (32 - c)).

Definition shifts : list Z :=
  [ 7; 12; 17; 22;  7; 12; 17; 22;  7; 12; 17; 22;  7; 12; 17; 22;
    5;  9; 14; 20;  5;  9; 14; 20;  5;  9; 14; 20;  5;  9; 14; 20;
    4; 11; 16; 23;  4; 11; 16; 23;  4; 11; 16; 23;  4; 11; 16; 23;
    6; 10; 15; 21;  6; 10; 15; 21;  6; 10; 15; 21;  6; 10; 15; 21 ].

Definition sines : list Z :=
  [ 0xd76aa478; 0xe8c7b756; 0x242070db; 0xc1bdceee;
    0xf57c0faf; 0x4787c62a; 0xa8304613; 0xfd469501;
    0x698098d8; 0x8b44f7af; 0xffff5bb1; 0x895cd7be;
    0x6b901122; 0xfd987193; 0xa679438e; 0x49b40821;
    0xf61e2562; 0xc040b340; 0x265e5a51; 0xe9b6c7aa;
    0xd62f105d; 0x02441453; 0xd8a1e681; 0xe7d3fbc8;
    0x21e1cde6; 0xc33707d6; 0xf4d50d87; 0x455a14ed;
    0xa9e3e905; 0xfcefa3f8; 0x676f02d9; 0x8d2a4c8a;
    0xfffa3942; 0x8771f681; 0x6d9d6122; 0xfde5380c;
    0xa4beea44; 0x4bdecfa9; 0xf6bb4b60; 0xbebfbc70;
    0x289b7ec6; 0xeaa127fa; 0xd4ef3085; 0x04881d05;
    0xd9d4d039; 0xe6db99e5; 0x1fa27cf8; 0xc4ac5665;
    0xf4292244; 0x432aff97; 0xab9423a7; 0xfc93a039;
    0x655b59c3; 0x8f0ccc92; 0xffeff47d; 0x85845dd1;
    0x6fa87e4f; 0xfe2ce6e0; 0xa3014314; 0x4e0811a1;
    0xf7537e82; 0xbd3af235; 0x2ad7d2bb; 0xeb86d391 ].

Definition state : Type := (Z * Z * Z * Z)%type.

Definition init : state := (0x67452301, 0xefcdab89, 0x98badcfe, 0x10325476).

(** One of the 64 operations on a block [M] of sixteen words. *)
Definition round (M : list Z) (st : state) (i : nat) : state :=
  let '(A, B, C, D) := st in
  let zi := Z.of_nat i in
  let '(F, g) :=
    if (i <? 16)%nat then (Z.lor (Z.land B C) (Z.land (not32 B) D), zi)
    else if (i <? 32)%nat then
      (Z.lor (Z.land D B) (Z.land (not32 D) C), (5 * zi + 1) mod 16)
    else if (i <? 48)%nat then
      (Z.lxor (Z.lxor B C) D, (3 * zi + 5) mod 16)
    else (Z.lxor C (Z.lor B (not32 D)), (7 * zi) mod 16) in
  let F' := add32 (add32 (add32 F A) (nth i sines 0)) (nth (Z.to_nat g) M 0) in
  (D, add32 B (rotl32 F' (nth i shifts 0)), B, C).

Definition compress (st : state) (M : list Z) : state :=
  let '(a0, b0, c0, d0) := st in
  let '(A, B, C, D) := fold_left (round M) (seq 0 64) st in
  (add32 a0 A, add32 b0 B, add32 c0 C, add32 d0 D).

(** Little-endian bytes of a number, [n] of them. *)
Fixpoint le_bytes (n : nat) (x : Z) : list Z :=
  match n with
  | O => []
  | S n' => (x mod 256) :: le_bytes n' (x / 256)
  end.

Fixpoint le_word (bs : list Z) : Z :=
  match bs with
  | [] => 0
  | b :: bs' => b + 256 * le_word bs'
  end.

Definition pad (msg : list Z) : list Z :=
  let len := Z.of_nat (List.length msg) in
  msg ++ [128] ++ repeat 0 (Z.to_nat ((55 - len) mod 64))
      ++ le_bytes 8 ((8 * len) mod 18446744073709551616).

(** Cuts a list into pieces of [k] elements; [fuel] bounds the number of
    pieces. *)
Fixpoint chunks {A} (k : nat) (fuel : nat) (l : list A) : list (list A) :=
  match fuel, l with
  | _, [] => []
  | O, _ => []
  | S fuel', _ => firstn k l :: chunks k fuel' (skipn k l)
  end.

Definition words_of_block (block : list Z) : list Z :=
  List.map le_word (chunks 4 16 block).

Definition bytes_of_string (s : string) : list Z :=
  List.map (fun c => Z.of_nat (nat_of_ascii c)) (list_ascii_of_string s).

Definition digest_state (s : string) : state :=
  let padded := pad (bytes_of_string s) in
  fold_left compress
    (List.map words_of_block (chunks 64 (List.length padded) padded)) init.

Definition digest (s : string) : list Z :=
  let '(a, b, c, d) := digest_state s in
  le_bytes 4 a ++ le_bytes 4 b ++ le_bytes 4 c ++ le_bytes 4 d.

Definition hex_char (n : Z) : ascii :=
  nth (Z.to_nat (n mod 16))
      (list_ascii_of_string "0123456789abcdef") "0"%char.

Fixpoint hex_of_bytes (bs : list Z) : string :=
  match bs with
  | [] => EmptyString
  | b :: bs' => String (hex_char (b / 16)) (String (hex_char b) (hex_of_bytes bs'))
  end.

(** [hashlib.md5(s).hexdigest()] *)
Definition hexdigest (s : string) : string := hex_of_bytes (digest s).

End MD5.

(* ===================================================================== *)
(** ** pathlib.PurePosixPath: the name of a path and its parts *)
(* ===================================================================== *)

Module PurePath.
Local Open Scope nat_scope.

(** The components of a path given as text: empty components and [.]
    are dropped when a path is parsed. *)
Definition components (s : string) : list string :=
  filter (fun c => negb (String.eqb c "") && negb (String.eqb c "."))
         (Str.split "/" s).

(** [Path(s).name] *)
Definition name (s : string) : string := last (components s) "".

(** [Path(..).suffix] and [Path(..).stem], as functions of the name:
    [i = name.rfind('.')], and the name is cut at [i] when
    [0 < i < len(name) - 1]. *)
Definition suffix (nm : string) : string :=
  match Str.rfind "." nm with
  | Some i => if (0 <? i) && (i <? String.length nm - 1) then Str.drop i nm else ""
  | None => ""
  end.

Definition stem (nm : string) : string :=
  match Str.rfind "." nm with
  | Some i => if (0 <? i) && (i <? String.length nm - 1) then Str.take i nm else nm
  | None => nm
  end.

(** [Path(..).with_suffix(suf)], as a function of the name; [None] is the
    [ValueError] raised for an empty name. *)
Definition with_suffix (nm suf : string) : option string :=
  if String.eqb nm "" then None
  else Some (stem nm ++ suf).

End PurePath.

(* ===================================================================== *)
(** ** datetime *)
(* ===================================================================== *)

Record datetime : Type := mkDatetime {
  year : N; month : N; day : N;
  hour : N; minute : N; second : N; microsecond : N
}.

(** [dt.strftime("%Y%m%d_%H%M%S")] *)
Definition strftime_stamp (dt : datetime) : string :=
  Str.zfill 4 (year dt) ++ Str.zfill 2 (month dt) ++ Str.zfill 2 (day dt)
  ++ "_" ++ Str.zfill 2 (hour dt) ++ Str.zfill 2 (minute dt)
  ++ Str.zfill 2 (second dt).

(** [dt.isoformat()] *)
Definition isoformat (dt : datetime) : string :=
  Str.zfill 4 (year dt) ++ "-" ++ Str.zfill 2 (month dt) ++ "-"
  ++ Str.zfill 2 (day dt) ++ "T" ++ Str.zfill 2 (hour dt) ++ ":"
  ++ Str.zfill 2 (minute dt) ++ ":" ++ Str.zfill 2 (second dt)
  ++ (if N.eqb (microsecond dt) 0 then ""
      else "." ++ Str.zfill 6 (microsecond dt)).

(** The values [datetime.now()] can return. *)
Definition valid_datetime (dt : datetime) : bool :=
  ((1000 <=? year dt) && (year dt <=? 9999) &&
   (1 <=? month dt) && (month dt <=? 12) &&
   (1 <=? day dt) && (day dt <=? 31) &&
   (hour dt <=? 23) && (minute dt <=? 59) && (second dt <=? 59) &&
   (microsecond dt <=? 999999))%N.

(** The shape [YYYYMMDD_HHMMSS]. *)
Definition is_stamp (s : string) : bool :=
  (String.length s =? 15)%nat
  && Str.all Str.is_digit (Str.take 8 s)
  && String.eqb (Str.take 1 (Str.drop 8 s)) "_"
  && Str.all Str.is_digit (Str.drop 9 s).

(* ===================================================================== *)
(** ** Parsed documents and verdicts *)
(* ===================================================================== *)

(** What [json.load] returns.  A float keeps its literal: no function of the
    program looks inside a number. *)
Inductive json : Type :=
| JNull
| JBool (b : bool)
| JInt (n : Z)
| JFloat (literal : string)
| JStr (s : string)
| JList (items : list json)
| JDict (fields : list (string * json)).

Definition is_dict (v : json) : bool :=
  match v with JDict _ => true | _ => false end.

Definition is_list (v : json) : bool :=
  match v with JList _ => true | _ => false end.

(** [bool(v)] for a container. *)
Definition truthy (v : json) : bool :=
  match v with
  | JDict [] | JList [] => false
  | _ => true
  end.

(** [list(d.keys())] and [list(d.values())] *)
Definition dict_keys (v : json) : list string :=
  match v with JDict fields => map fst fields | _ => [] end.

Definition dict_values (v : json) : list json :=
  match v with JDict fields => map snd fields | _ => [] end.

(** Induction over documents that reaches below sequences and mappings. *)
Fixpoint json_nested_ind (P : json -> Prop)
         (Hnull : P JNull) (Hbool : forall b, P (JBool b))
         (Hint : forall n, P (JInt n)) (Hfloat : forall l, P (JFloat l))
         (Hstr : forall s, P (JStr s))
         (Hlist : forall items, Forall P items -> P (JList items))
         (Hdict : forall fields,
             Forall (fun item => P (snd item)) fields -> P (JDict fields))
         (j : json) {struct j} : P j :=
  match j with
  | JNull => Hnull
  | JBool b => Hbool b
  | JInt n => Hint n
  | JFloat l => Hfloat l
  | JStr s => Hstr s
  | JList items =>
      Hlist items
        ((fix all (l : list json) : Forall P l :=
            match l with
            | [] => Forall_nil P
            | x :: l' =>
                Forall_cons x
                  (json_nested_ind P Hnull Hbool Hint Hfloat Hstr Hlist Hdict x)
                  (all l')
            end) items)
  | JDict fields =>
      Hdict fields
        ((fix all (l : list (string * json))
            : Forall (fun item => P (snd item)) l :=
            match l with
            | [] => Forall_nil _
            | item :: l' =>
                Forall_cons item
                  (json_nested_ind P Hnull Hbool Hint Hfloat Hstr Hlist Hdict
                                   (snd item))
                  (all l')
            end) fields)
  end.

(** The two storage classes, written ["sql"] and ["nosql"] in the program. *)
Inductive storage_class : Type := Sql | Nosql.

Definition class_str (c : storage_class) : string :=
  match c with Sql => "sql" | Nosql => "nosql" end.

Definition class_eqb (a b : storage_class) : bool :=
  match a, b with Sql, Sql | Nosql, Nosql => true | _, _ => false end.

(** The dictionary the analysis returns: [recommendation] and [reason] are
    always present, the other keys depend on the branch taken. *)
Record analysis : Type := mkAnalysis {
  recommendation : storage_class;
  reason : string;
  estimated_rows : option nat;
  columns : option (list string);
  nesting_level : option nat;
  keys : option (list string)
}.

Definition verdict (c : storage_class) (why : string) : analysis :=
  mkAnalysis c why None None None None.

(** A Python [set] of strings, held as the list of its distinct elements. *)
Definition pyset : Type := list string.

Definition set_of (l : list string) : pyset := nodup string_dec l.

Definition set_mem (x : string) (s : pyset) : bool :=
  existsb (String.eqb x) s.

(** [a == b] on sets *)
Definition set_eqb (a b : pyset) : bool :=
  forallb (fun x => set_mem x b) a && forallb (fun x => set_mem x a) b.

(* ===================================================================== *)
(** ** Exceptions and the standard library the program calls *)
(* ===================================================================== *)

(** The two handlers of [analyze_json_file] tell [json.JSONDecodeError] from
    every other [Exception]; each carries [str(e)]. *)
Inductive exn : Type :=
| JSONDecodeError (msg : string)
| Exception (msg : string).

Inductive outcome (A : Type) : Type :=
| Return (a : A)
| Raise (e : exn).
Arguments Return {A} a.
Arguments Raise {A} e.

Record metadata_record : Type := mkMetadata {
  m_original_filename : string;
  m_analysis : analysis;
  m_analyzed_at : string;
  m_file_size : N
}.

Record schema_record : Type := mkSchema {
  s_original_filename : string;
  s_storage_type : string;
  s_columns : list string;
  s_reason : string;
  s_analyzed_at : string
}.

(** Library behaviour the program depends on without defining it:
    - [json_load]: [json.load] on the text of a file, which returns a value
      or raises;
    - [list_of_set]: [list(s)] for a set [s], whose order the language leaves
      open; it is some arrangement of the elements;
    - [dump_metadata], [dump_schema]: the text [json.dump(.., indent=2)]
      writes. *)
Record runtime : Type := mkRuntime {
  json_load : string -> outcome json;
  list_of_set : pyset -> list string;
  list_of_set_perm : forall s, Permutation (list_of_set s) s;
  dump_metadata : metadata_record -> string;
  dump_schema : schema_record -> string
}.

(* ===================================================================== *)
(** ** The structural classifier *)
(* ===================================================================== *)

Section Classifier.

Variable rt : runtime.

(** [_is_sql_optimized(sample, keys)] *)
Definition is_sql_optimized (sample : list json) (keys : pyset) : bool :=
  if (50 <? List.length keys)%nat then false
  else
    let has_id :=
      existsb (fun key => existsb (String.eqb (Str.lower key)) ["id"; "_id"]) keys in
    let has_foreign_keys :=
      existsb (fun key => Str.endswith "_id" key) keys in
    has_id || has_foreign_keys || (List.length keys <=? 20)%nat.

(** [_analyze_array(data, file_path)] *)
Definition analyze_array (data : list json) : analysis :=
  match data with
  | [] => verdict Nosql "Empty array"
  | _ =>
      let sample_size := Nat.min 10 (List.length data) in
      let sample := firstn sample_size data in
      if negb (forallb is_dict sample) then
        verdict Nosql "Array contains non-object items, lacks uniform structure"
      else
        let first_keys := set_of (dict_keys (nth 0 sample JNull)) in
        let consistent_structure :=
          forallb (fun item => set_eqb (set_of (dict_keys item)) first_keys) sample in
        if consistent_structure && is_sql_optimized sample first_keys then
          mkAnalysis Sql "Uniform structured data optimized for SQL"
                     (Some (List.length data))
                     (Some (list_of_set rt first_keys))
                     None None
        else
          verdict Nosql
            "Variable structure or complex data, better for NoSQL batch insertion"
  end.

(** [_calculate_depth(obj, current_depth)] *)
Fixpoint calculate_depth (obj : json) (current_depth : nat) : nat :=
  match obj with
  | JDict fields =>
      (fix loop (items : list (string * json)) (max_depth : nat) : nat :=
         match items with
         | [] => max_depth
         | (_, value) :: rest =>
             match value with
             | JDict _ =>
                 loop rest
                   (Nat.max max_depth (calculate_depth value (S current_depth)))
             | JList ((JDict _ as first) :: _) =>
                 loop rest
                   (Nat.max max_depth (calculate_depth first (S current_depth)))
             | _ => loop rest max_depth
             end
         end) fields current_depth
  | _ => current_depth
  end.

(** The loop of [_analyze_object] that sets [has_immediate_nesting] and
    leaves at the first value that qualifies. *)
Fixpoint nesting_loop (values : list json) : bool :=
  match values with
  | [] => false
  | value :: rest =>
      if is_dict value && truthy value then true
      else if is_list value && truthy value &&
              existsb (fun item => is_dict item || is_list item)
                      (match value with JList items => items | _ => [] end)
      then true
      else nesting_loop rest
  end.

(** [_analyze_object(data, file_path)] *)
Definition analyze_object (data : list (string * json)) : analysis :=
  let has_immediate_nesting := nesting_loop (map snd data) in
  let max_depth := calculate_depth (JDict data) 0 in
  if has_immediate_nesting then
    mkAnalysis Nosql
      ("Contains nested dictionary or list (depth: " ++ Str.of_nat max_depth
       ++ "), ideal for document storage.")
      None None (Some max_depth) None
  else
    mkAnalysis Sql "Flat structure, ideal for relational querying."
      None None None (Some (map fst data)).

End Classifier.

(* ===================================================================== *)
(** ** The storage tree and the operations on it *)
(* ===================================================================== *)

(** The four directories [JSONAnalyzer.__init__] creates under
    [app/storage]. *)
Inductive dir : Type := SqlDir | NosqlDir | TempDir | SchemaDir.

Definition dir_str (d : dir) : string :=
  match d with
  | SqlDir => "app/storage/databases/sql"
  | NosqlDir => "app/storage/databases/nosql"
  | TempDir => "app/storage/temp"
  | SchemaDir => "app/storage/internal_databases/schemas"
  end.

Definition dir_eqb (a b : dir) : bool :=
  match a, b with
  | SqlDir, SqlDir | NosqlDir, NosqlDir | TempDir, TempDir
  | SchemaDir, SchemaDir => true
  | _, _ => false
  end.

(** A file of the tree: its directory and its name. *)
Record path : Type := mkPath { parent : dir; name : string }.

Definition path_eqb (p q : path) : bool :=
  dir_eqb (parent p) (parent q) && String.eqb (name p) (name q).

(** [str(p)] *)
Definition path_str (p : path) : string := dir_str (parent p) ++ "/" ++ name p.

(** The files of the tree with their bytes, oldest entry first. *)
Definition filesystem : Type := list (path * string).

Fixpoint lookup (fs : filesystem) (p : path) : option string :=
  match fs with
  | [] => None
  | (q, data) :: fs' => if path_eqb q p then Some data else lookup fs' p
  end.

Definition remove (p : path) (fs : filesystem) : filesystem :=
  filter (fun entry => negb (path_eqb (fst entry) p)) fs.

(** Creating a file adds an entry; writing an existing file replaces its
    bytes where it stands. *)
Fixpoint write (p : path) (data : string) (fs : filesystem) : filesystem :=
  match fs with
  | [] => [(p, data)]
  | (q, old) :: fs' =>
      if path_eqb q p then (q, data) :: fs' else (q, old) :: write p data fs'
  end.

(** The entries of one directory. *)
Definition listdir (d : dir) (fs : filesystem) : list path :=
  filter (fun p => dir_eqb (parent p) d) (map fst fs).

(** Computations that read and change the tree and may raise. *)
Definition io (A : Type) : Type := filesystem -> outcome A * filesystem.

Definition ret {A} (a : A) : io A := fun fs => (Return a, fs).

Definition raise {A} (e : exn) : io A := fun fs => (Raise e, fs).

Definition bind {A B} (c : io A) (k : A -> io B) : io B :=
  fun fs =>
    match c fs with
    | (Return a, fs') => k a fs'
    | (Raise e, fs') => (Raise e, fs')
    end.

(** [try: body / except Exception as e: handler(e)] *)
Definition try_except {A} (body : io A) (handler : exn -> io A) : io A :=
  fun fs =>
    match body fs with
    | (Return a, fs') => (Return a, fs')
    | (Raise e, fs') => handler e fs'
    end.

Notation "x <- c ;; k" := (bind c (fun x => k))
  (at level 61, c at next level, right associativity).
Notation "c ;;; k" := (bind c (fun _ => k))
  (at level 61, right associativity).

Definition exn_msg (e : exn) : string :=
  match e with JSONDecodeError msg => msg | Exception msg => msg end.

Definition file_not_found (p : path) : exn :=
  Exception ("[Errno 2] No such file or directory: '" ++ path_str p ++ "'").

(** [open(p, 'rb').read()] *)
Definition read_bytes (p : path) : io string :=
  fun fs =>
    match lookup fs p with
    | Some data => (Return data, fs)
    | None => (Raise (file_not_found p), fs)
    end.

(** [os.path.getsize(p)] and [p.stat().st_size] *)
Definition getsize (p : path) : io N :=
  data <- read_bytes p ;; ret (Str.size data).

(** [Path(p).unlink(missing_ok=True)] *)
Definition unlink_missing_ok (p : path) : io unit :=
  fun fs => (Return tt, remove p fs).

(** An error of the operating system in an operation that writes a file:
    the text of the exception and, when the target had been opened for
    writing before the error, the number of bytes that had reached it.
    Opening a file for writing creates it or empties it, so a write that
    fails after the opening leaves the first bytes of what was to be
    written, possibly none and possibly all. *)
Record os_fault : Type := mkFault {
  fault_msg : string;
  fault_written : option nat
}.

(** What a failed write of [data] leaves at its target. *)
Definition partial_write (f : os_fault) (target : path) (data : string)
           (fs : filesystem) : filesystem :=
  match fault_written f with
  | None => fs
  | Some n => write target (Str.take n data) fs
  end.

(** [shutil.move(src, dst)] for a file: [os.rename], and when that raises an
    [OSError], a copy of the source to the destination followed by the
    removal of the source.  Either way a successful move leaves the bytes at
    the destination and no source.  A move that fails raises with the
    source still in place; the copy opens the destination for writing
    first, so the destination may then hold the first bytes of the
    source. *)
Definition shutil_move (fault : option os_fault) (src dst : path) : io unit :=
  fun fs =>
    match lookup fs src with
    | None => (Raise (file_not_found src), fs)
    | Some data =>
        match fault with
        | Some f => (Raise (Exception (fault_msg f)), partial_write f dst data fs)
        | None => (Return tt, write dst data (remove src fs))
        end
    end.

(** [with open(p, 'w') as f: f.write(text)], and [json.dump(obj, f)] for
    the text of [obj]. *)
Definition write_text (fault : option os_fault) (p : path) (text : string)
  : io unit :=
  fun fs =>
    match fault with
    | Some f => (Raise (Exception (fault_msg f)), partial_write f p text fs)
    | None => (Return tt, write p text fs)
    end.

(** [d.glob("*")] *)
Definition glob_star (d : dir) : io (list path) :=
  fun fs => (Return (listdir d fs), fs).

(** What one call meets outside the program: the readings of the clock, in
    the order [datetime.now()] is called, and the error, if any, of each
    operation on a file that can fail: the move into the bucket, the two
    records, the writing of the temporary file by a route (which the
    operating system also refuses for a name it does not accept: one that
    is too long, or holds a NUL), and the look at the temporary file in the
    handler of [upload_json]. *)
Record io_env : Type := mkEnv {
  now_name : datetime;
  now_meta : datetime;
  now_schema : datetime;
  move_fault : option os_fault;
  meta_fault : option os_fault;
  schema_fault : option os_fault;
  temp_fault : option os_fault;
  cleanup_fault : option string
}.

(* ===================================================================== *)
(** ** JSONAnalyzer: analysis and placement *)
(* ===================================================================== *)

(** The dictionary [store_json_file] returns, one constructor for each of
    its three [return] statements. *)
Record stored_info : Type := mkStored {
  original_name : string;
  stored_name : string;
  storage_type : string;
  final_path : string;
  stored_reason : string;
  file_hash : string;
  timestamp : string
}.

Record duplicate_info : Type := mkDuplicate {
  dup_original_name : string;
  dup_stored_name : string;
  dup_storage_type : string;
  dup_final_path : string;
  dup_reason : string;
  dup_message : string
}.

Inductive store_result : Type :=
| Stored (r : stored_info)
| DuplicateFound (r : duplicate_info)
| Failed (error : string).

(** [result["success"]] and [result.get("duplicate")] *)
Definition success (r : store_result) : bool :=
  match r with Failed _ => false | _ => true end.

Definition is_duplicate (r : store_result) : bool :=
  match r with DuplicateFound _ => true | _ => false end.

(** What the route [POST /json/upload] answers: the dictionary it returns,
    an [HTTPException] it raises, or another exception that leaves it, to
    which the server answers 500 without a detail. *)
Inductive http_response : Type :=
| Ok200 (details : store_result) (a : analysis)
| HttpError (status : nat) (detail : string)
| Unhandled (e : exn).

Definition ten_megabytes : N := 10 * 1024 * 1024.
Definition fifty_megabytes : N := 50 * 1024 * 1024.

(** The handler of [upload_json]: it looks whether the temporary file
    exists, removes it, and raises the [HTTPException] with the text of the
    error.  An error of the look or of the removal leaves the route
    instead, with the tree as it is. *)
Definition upload_failed (env : io_env) (temp_file : path) (e : exn)
  : filesystem -> http_response * filesystem :=
  fun fs =>
    match cleanup_fault env with
    | Some msg => (Unhandled (Exception msg), fs)
    | None =>
        (HttpError 500 ("Processing failed: " ++ exn_msg e),
         remove temp_file fs)
    end.

Section Analyzer.

Variable rt : runtime.

(** The body of the [try] of [analyze_json_file]. *)
Definition analyze_body (file_path : path) : io analysis :=
  file_size <- getsize file_path ;;
  if (ten_megabytes <? file_size)%N then
    ret (verdict Nosql "File too large for SQL optimization")
  else
    text <- read_bytes file_path ;;
    match json_load rt text with
    | Raise e => raise e
    | Return (JList data) => ret (analyze_array rt data)
    | Return (JDict data) => ret (analyze_object data)
    | Return _ =>
        ret (verdict Nosql
               "Simple scalar data type, best handled as NoSQL document")
    end.

(** [analyze_json_file(file_path)] *)
Definition analyze_json_file (file_path : path) : io analysis :=
  try_except (analyze_body file_path)
    (fun e =>
       match e with
       | JSONDecodeError msg => ret (verdict Nosql ("Invalid JSON: " ++ msg))
       | Exception msg => ret (verdict Nosql ("Analysis error: " ++ msg))
       end).

(** [_get_file_hash(file_path)]: the digest of the whole file, fed to the
    hasher in pieces of 4096 bytes. *)
Definition get_file_hash (file_path : path) : io string :=
  data <- read_bytes file_path ;; ret (MD5.hexdigest data).

(** The loop of [_check_duplicate] over the entries of the bucket. *)
Fixpoint scan_duplicates (file_hash : string) (files : list path) : string :=
  match files with
  | [] => ""
  | existing_file :: rest =>
      if Str.endswith ".json" (name existing_file)
         && negb (Str.endswith ".meta.json" (name existing_file)
                  || Str.endswith ".schema.json" (name existing_file))
      then
        if Str.contains file_hash (name existing_file)
        then path_str existing_file
        else scan_duplicates file_hash rest
      else scan_duplicates file_hash rest
  end.

(** [_check_duplicate(file_hash, storage_type)] *)
Definition check_duplicate (file_hash : string) (storage_type : storage_class)
  : io string :=
  let storage_path := if class_eqb storage_type Sql then SqlDir else NosqlDir in
  files <- glob_star storage_path ;;
  ret (scan_duplicates file_hash files).

(** [analysis.get("columns", analysis.get("keys", []))] *)
Definition schema_columns (a : analysis) : list string :=
  match columns a with
  | Some cols => cols
  | None => match keys a with Some ks => ks | None => [] end
  end.

(** [_save_metadata(file_path, analysis, original_name)] *)
Definition save_metadata (env : io_env) (file_path : path) (a : analysis)
           (original : string) : io unit :=
  size <- getsize file_path ;;
  let metadata :=
    mkMetadata original a (isoformat (now_meta env)) size in
  match PurePath.with_suffix (name file_path) ".meta.json" with
  | None => raise (Exception (path_str file_path ++ " has an empty name"))
  | Some meta_name =>
      let metadata_path := mkPath (parent file_path) meta_name in
      write_text (meta_fault env) metadata_path (dump_metadata rt metadata) ;;;
      let schema_info :=
        mkSchema original (class_str (recommendation a)) (schema_columns a)
                 (reason a) (isoformat (now_schema env)) in
      let schema_file_name := PurePath.stem (name file_path) ++ ".schema.json" in
      let schema_path := mkPath SchemaDir schema_file_name in
      write_text (schema_fault env) schema_path (dump_schema rt schema_info)
  end.

(** The name under which a new document is stored. *)
Definition new_name_of (original stamp digest : string) : string :=
  let name_stem := PurePath.stem (PurePath.name original) in
  let extension := PurePath.suffix (PurePath.name original) in
  name_stem ++ "_" ++ stamp ++ "_" ++ Str.take 8 digest ++ extension.

(** [store_json_file(file_path, original_name, analysis)] *)
Definition store_json_file (env : io_env) (file_path : path)
           (original : string) (a : analysis) : io store_result :=
  try_except
    (digest <- get_file_hash file_path ;;
     duplicate <- check_duplicate digest (recommendation a) ;;
     if negb (String.eqb duplicate "") then
       unlink_missing_ok file_path ;;;
       ret (DuplicateFound
              (mkDuplicate original (PurePath.name duplicate)
                 (Str.upper (class_str (recommendation a)))
                 duplicate (reason a)
                 "File already exists (duplicate detected)"))
     else
       let stamp := strftime_stamp (now_name env) in
       let new_name := new_name_of original stamp digest in
       let '(final, kind) :=
         if class_eqb (recommendation a) Sql
         then (mkPath SqlDir new_name, "SQL")
         else (mkPath NosqlDir new_name, "NoSQL") in
       shutil_move (move_fault env) file_path final ;;;
       save_metadata env final a original ;;;
       ret (Stored (mkStored original new_name kind (path_str final)
                      (reason a) digest stamp)))
    (fun e =>
       unlink_missing_ok file_path ;;;
       ret (Failed (exn_msg e))).

(** [upload_json(file)] of app/routers/json_routes.py: the payload is
    written to the temporary directory, analysed and placed.  A name with
    a separator points below a directory that does not exist, so the
    temporary file cannot be created. *)
Definition upload_json (env : io_env) (filename content : string)
  : filesystem -> http_response * filesystem :=
  fun fs =>
    if negb (Str.endswith ".json" (Str.lower filename)) then
      (HttpError 400 "Only JSON files are allowed", fs)
    else if (fifty_megabytes <? Str.size content)%N then
      (HttpError 413 "File too large. Maximum size is 50MB", fs)
    else
      let temp_file := mkPath TempDir ("temp_" ++ filename) in
      let body : io http_response :=
        (if Str.contains "/" filename
         then raise (file_not_found temp_file)
         else write_text (temp_fault env) temp_file content) ;;;
        a <- analyze_json_file temp_file ;;
        result <- store_json_file env temp_file filename a ;;
        match result with
        | Failed error => raise (Exception ("500: " ++ error))
        | _ => ret (Ok200 result a)
        end in
      match body fs with
      | (Return response, fs') => (response, fs')
      | (Raise e, fs') => upload_failed env temp_file e fs'
      end.

End Analyzer.

(* ===================================================================== *)
(** ** The specification's reading of the classifier *)
(* ===================================================================== *)

(** A first-level value that makes a mapping a nested document: a non-empty
    mapping, or a sequence with a mapping or a sequence among its
    elements. *)
Definition immediately_nested (value : json) : Prop :=
  (exists fields, value = JDict fields /\ fields <> [])
  \/ (exists items,
        value = JList items
        /\ Exists (fun item => is_dict item = true \/ is_list item = true) items).

(** The sample of a sequence: its first [min(10, length)] elements. *)
Definition sample_of (data : list json) : list json :=
  firstn (Nat.min 10 (List.length data)) data.

(** The key set of the first sampled element. *)
Definition first_key_set (data : list json) : pyset :=
  set_of (dict_keys (nth 0 (sample_of data) JNull)).

(** Two key collections hold the same keys. *)
Definition same_keys (a b : list string) : Prop :=
  forall k, In k a <-> In k b.

(** An identifier-like key as the design document words it: the key is [id]
    up to case, or it ends in [_id]. *)
Definition spec_identifier_like (key : string) : bool :=
  String.eqb (Str.lower key) "id" || Str.endswith "_id" key.

(** The same with the ending compared up to case as well. *)
Definition spec_identifier_like_nocase (key : string) : bool :=
  String.eqb (Str.lower key) "id" || Str.endswith "_id" (Str.lower key).

(** An identifier-like key as the program tests it: the key is [id] or
    [_id] up to case, or it ends in [_id] as written. *)
Definition identifier_like (key : string) : bool :=
  existsb (String.eqb (Str.lower key)) ["id"; "_id"] || Str.endswith "_id" key.

(** The SQL-suitability rule over a notion of identifier-like key: at most
    50 keys, and an identifier-like key or at most 20 keys. *)
Definition sql_suitable (id_like : string -> bool) (ks : pyset) : bool :=
  (List.length ks <=? 50)%nat
  && (existsb id_like ks || (List.length ks <=? 20)%nat).

(** The sequence rule of the decision policy over a notion of
    identifier-like key: Relational exactly for a non-empty sequence whose
    sampled elements are all mappings with the key set of the first, when
    that key set is SQL-suitable. *)
Definition relational_sequence (id_like : string -> bool) (data : list json)
  : Prop :=
  data <> []
  /\ Forall (fun item => is_dict item = true) (sample_of data)
  /\ Forall (fun item => same_keys (dict_keys item) (first_key_set data))
            (sample_of data)
  /\ sql_suitable id_like (first_key_set data) = true.

(** The class the sequence rule gives, as a function. *)
Definition spec_sequence_class (id_like : string -> bool) (data : list json)
  : storage_class :=
  match data with
  | [] => Nosql
  | _ =>
      if forallb is_dict (sample_of data)
         && forallb (fun item => set_eqb (set_of (dict_keys item))
                                         (first_key_set data))
                    (sample_of data)
         && sql_suitable id_like (first_key_set data)
      then Sql else Nosql
  end.

(** One step down the tree as the depth routine takes it: from a mapping to
    a value of it that is a mapping, or to the first element of a value of
    it that is a sequence, when that element is a mapping. *)
Inductive descends : json -> json -> Prop :=
| descend_value : forall fields k sub,
    In (k, JDict sub) fields -> descends (JDict fields) (JDict sub)
| descend_first : forall fields k sub others,
    In (k, JList (JDict sub :: others)) fields ->
    descends (JDict fields) (JDict sub).

(** What one value of a mapping contributes to the depth computed at
    [current_depth]: the depth below the node the routine descends into, or
    nothing when it does not descend. *)
Definition child_depth (value : json) (current_depth : nat) : option nat :=
  match value with
  | JDict _ => Some (calculate_depth value (S current_depth))
  | JList ((JDict _ as first) :: _) =>
      Some (calculate_depth first (S current_depth))
  | _ => None
  end.

(** The running maximum of the loop of the depth routine. *)
Definition deepen (current_depth : nat) (max_depth : nat) (item : string * json)
  : nat :=
  match child_depth (snd item) current_depth with
  | Some n => Nat.max max_depth n
  | None => max_depth
  end.

(** A chain of [n] such steps starting at a node. *)
Inductive descent : json -> nat -> Prop :=
| descent_here : forall node, descent node 0
| descent_step : forall node child n,
    descends node child -> descent child n -> descent node (S n).

(** The field names of a document seen from the top: the keys of a mapping,
    the keys of the elements of a sequence, each once, in the order of
    first appearance. *)
Definition first_seen (l : list string) : list string :=
  rev (nodup string_dec (rev l)).

Definition field_names (doc : json) : list string :=
  match doc with
  | JDict fields => first_seen (map fst fields)
  | JList items => first_seen (flat_map dict_keys items)
  | _ => []
  end.

(** The bucket of a storage class. *)
Definition bucket_dir (c : storage_class) : dir :=
  match c with Sql => SqlDir | Nosql => NosqlDir end.

(** The side-records of a stored name: the metadata record stands beside the
    document, the schema record in the schema directory, both under the stem
    of the stored name. *)
Definition metadata_path_of (bucket : dir) (stored : string) : path :=
  mkPath bucket (PurePath.stem stored ++ ".meta.json").

Definition schema_path_of (stored : string) : path :=
  mkPath SchemaDir (PurePath.stem stored ++ ".schema.json").

(** The two records written beside a new document. *)
Definition metadata_of (env : io_env) (a : analysis) (original data : string)
  : metadata_record :=
  mkMetadata original a (isoformat (now_meta env)) (Str.size data).

Definition schema_of (env : io_env) (a : analysis) (original : string)
  : schema_record :=
  mkSchema original (class_str (recommendation a)) (schema_columns a)
           (reason a) (isoformat (now_schema env)).

(** The label of a storage class in the result of a new placement. *)
Definition kind_label (c : storage_class) : string :=
  match c with Sql => "SQL" | Nosql => "NoSQL" end.

(** The tree after a new document has been placed under the name [stored]:
    the temporary file is gone, the document stands in its bucket, and the
    two records have been written, in this order. *)
Definition tree_after_placement (rt : runtime) (env : io_env) (a : analysis)
           (original data : string) (file_path : path) (stored : string)
           (fs : filesystem) : filesystem :=
  let bucket := bucket_dir (recommendation a) in
  write (schema_path_of stored) (dump_schema rt (schema_of env a original))
    (write (metadata_path_of bucket stored)
           (dump_metadata rt (metadata_of env a original data))
       (write (mkPath bucket stored) data (remove file_path fs))).

(** The documents of a bucket: its entries without the side-records, as
    the duplicate lookup selects them. *)
Definition documents_of (c : storage_class) (fs : filesystem) : list path :=
  filter (fun p => Str.endswith ".json" (name p)
                   && negb (Str.endswith ".meta.json" (name p)
                            || Str.endswith ".schema.json" (name p)))
         (listdir (bucket_dir c) fs).

(** The metadata records of a bucket and the schema records. *)
Definition metadata_records_of (c : storage_class) (fs : filesystem) : list path :=
  filter (fun p => Str.endswith ".meta.json" (name p)) (listdir (bucket_dir c) fs).

Definition schema_records (fs : filesystem) : list path :=
  filter (fun p => Str.endswith ".schema.json" (name p)) (listdir SchemaDir fs).

(** Whether the route answered with a result flagged as duplicate. *)
Definition answered_duplicate (response : http_response) : bool :=
  match response with
  | Ok200 details _ => is_duplicate details
  | HttpError _ _ => false
  | Unhandled _ => false
  end.

Definition answered_ok (response : http_response) : bool :=
  match response with
  | Ok200 _ _ => true
  | HttpError _ _ => false
  | Unhandled _ => false
  end.

(** A text of [w] decimal digits. *)
Definition digits_of_width (w : nat) (s : string) : bool :=
  (String.length s =? w)%nat && Str.all Str.is_digit s.

(* ===================================================================== *)
(** ** Sample data *)
(* ===================================================================== *)

(** A double quote, for writing JSON text. *)
Definition dq : string := String (ascii_of_nat 34) "".

(** A [json.load] that knows the documents of a table and rejects every
    other text. *)
Fixpoint table_load (table : list (string * json)) (text : string)
  : outcome json :=
  match table with
  | [] => Raise (JSONDecodeError "Expecting value: line 1 column 1 (char 0)")
  | (known, value) :: rest =>
      if String.eqb known text then Return value else table_load rest text
  end.

(** A runtime over such a table that lists a set in the order given by
    [order], and writes records as a line of text. *)
Definition table_runtime (table : list (string * json))
           (order : pyset -> list string)
           (order_perm : forall s, Permutation (order s) s) : runtime :=
  mkRuntime (table_load table) order order_perm
    (fun m => "{original_filename: " ++ m_original_filename m
              ++ ", analyzed_at: " ++ m_analyzed_at m ++ "}")
    (fun s => "{original_filename: " ++ s_original_filename s
              ++ ", storage_type: " ++ s_storage_type s
              ++ ", columns: [" ++ String.concat ", " (s_columns s) ++ "]}").

Definition keep_order (s : pyset) : list string := s.
Definition reverse_order (s : pyset) : list string := rev s.

(** A text of [n] copies of one character. *)
Definition filler (c : ascii) (n : N) : string :=
  N.iter n (String c) "".

(** The mapping [{"c0": 0, ..., "c<n-1>": n-1}]. *)
Definition flat_fields (n : nat) : list (string * json) :=
  map (fun i => ("c" ++ Str.of_nat i, JInt (Z.of_nat i))) (seq 0 n).

Definition id_document_text : string := "{" ++ dq ++ "id" ++ dq ++ ": 1}".
Definition id_document : json := JDict [("id", JInt 1)].

Definition sample_clock (s : N) : datetime := mkDatetime 2024 1 2 3 4 s 0.

(** The digest of [id_document_text], and the path of the temporary file
    the upload route writes for a file declared as [a.json]. *)
Definition id_digest : string := "f3e56c602771e9541aef61d502562b89".
Definition temp_a : path := mkPath TempDir "temp_a.json".

Definition sample_runtime : runtime :=
  table_runtime [(id_document_text, id_document)] keep_order
                (fun s => Permutation_refl s).

(** An entry of the sql bucket whose name holds the whole digest: the
    document was once declared under its own digest as a name. *)
Definition named_by_digest : path :=
  mkPath SqlDir
    "f3e56c602771e9541aef61d502562b89_20240102_030405_f3e56c60.json".

(** The nested mapping [{"id": 1, "meta": {"tags": ["x"]}}]. *)
Definition nested_fields : list (string * json) :=
  [("id", JInt 1); ("meta", JDict [("tags", JList [JStr "x"])])].

Definition nested_text : string :=
  "{" ++ dq ++ "id" ++ dq ++ ": 1, " ++ dq ++ "meta" ++ dq ++ ": {"
  ++ dq ++ "tags" ++ dq ++ ": [" ++ dq ++ "x" ++ dq ++ "]}}".

(** The rows [[{"id": 1, "v": "a"}, {"id": 2, "v": "b"}]]. *)
Definition two_rows : list json :=
  [JDict [("id", JInt 1); ("v", JStr "a")];
   JDict [("id", JInt 2); ("v", JStr "b")]].

(** A runtime whose sets list their elements last-inserted first. *)
Definition reversing_runtime : runtime :=
  table_runtime [(nested_text, JDict nested_fields)] reverse_order
                (fun s => Permutation_sym (Permutation_rev s)).

(** An environment in which the move into the bucket fails before the
    destination is opened. *)
Definition bucket_locked (now : datetime) : io_env :=
  mkEnv now now now (Some (mkFault "[Errno 13] Permission denied" None))
        None None None None.

(** An environment in which the move has to copy the payload and the disk
    is full: the destination is created and nothing can be written to
    it. *)
Definition disk_full (now : datetime) : io_env :=
  mkEnv now now now
        (Some (mkFault "[Errno 28] No space left on device" (Some 0)))
        None None None None.

Definition calm (now : datetime) : io_env :=
  mkEnv now now now None None None None None.

(* ===================================================================== *)
(** ** The routes that list and bulk-load documents (app/routers/json_routes.py) *)
(* ===================================================================== *)

(** A bound of a Python slice over a sequence of length [n]: a negative
    index counts from the end, and the result is clipped to [0, n]. *)
Definition slice_bound (n i : Z) : Z :=
  if (i <? 0)%Z then Z.max 0 (i + n) else Z.min i n.

(** [l[start:stop]] *)
Definition py_slice {A : Type} (l : list A) (start stop : Z) : list A :=
  let n := Z.of_nat (List.length l) in
  let s := slice_bound n start in
  let e := slice_bound n stop in
  firstn (Z.to_nat (e - s)) (skipn (Z.to_nat s) l).

(** An entry of the listing.  The time of last modification is whatever the
    file system reports for the path; its type is left open. *)
Record file_entry (mtime : Type) : Type := mkEntry {
  entry_filename : string;
  entry_size : N;
  entry_modified : mtime;
  entry_metadata : json
}.
Arguments mkEntry {mtime} _ _ _ _.
Arguments entry_filename {mtime} _.
Arguments entry_size {mtime} _.
Arguments entry_modified {mtime} _.
Arguments entry_metadata {mtime} _.

(** The body of the answer of [GET /json/files]. *)
Record listing (mtime : Type) : Type := mkListing {
  page_files : list (file_entry mtime);
  page_total : nat;
  page_limit : Z;
  page_offset : Z;
  page_has_more : bool;
  count_sql : nat;
  count_nosql : nat;
  count_total : nat
}.
Arguments mkListing {mtime} _ _ _ _ _ _ _ _.
Arguments page_files {mtime} _.
Arguments page_total {mtime} _.
Arguments page_limit {mtime} _.
Arguments page_offset {mtime} _.
Arguments page_has_more {mtime} _.
Arguments count_sql {mtime} _.
Arguments count_nosql {mtime} _.
Arguments count_total {mtime} _.

Inductive listing_response (mtime : Type) : Type :=
| Listed (body : listing mtime)
| ListingError (status : nat) (detail : string).
Arguments Listed {mtime} body.
Arguments ListingError {mtime} status detail.

(** What [process_single_file] returns: the result of the placement, or the
    dictionary of its own handler, which names the file. *)
Inductive single_result : Type :=
| Processed (result : store_result)
| NotProcessed (error : string) (filename : string).

Section Routes.

Variable rt : runtime.
Variable mtime : Type.
Variable st_mtime : path -> mtime.

(** [get_file_metadata(file_path)]: the parsed metadata record beside a
    document, or the empty mapping when there is none. *)
Definition get_file_metadata (file_path : path) : io json :=
  match PurePath.with_suffix (name file_path) ".meta.json" with
  | None => raise (Exception (path_str file_path ++ " has an empty name"))
  | Some meta_name =>
      fun fs =>
        match lookup fs (mkPath (parent file_path) meta_name) with
        | Some content => (json_load rt content, fs)
        | None => (Return (JDict []), fs)
        end
  end.

(** The loop of [list_json_files] over [d.glob("*.json")]: the names ending
    in [.json], without those ending in [.meta.json]. *)
Fixpoint scan_entries (files : list path) : io (list (file_entry mtime)) :=
  match files with
  | [] => ret []
  | file :: rest =>
      if negb (Str.endswith ".json" (name file)) then scan_entries rest
      else if Str.endswith ".meta.json" (name file) then scan_entries rest
      else
        metadata <- get_file_metadata file ;;
        size <- getsize file ;;
        entries <- scan_entries rest ;;
        ret (mkEntry (name file) size (st_mtime file) metadata :: entries)
  end.

Definition list_bucket (d : dir) : io (list (file_entry mtime)) :=
  files <- glob_star d ;; scan_entries files.

(** The part of [list_json_files] after the two scans: filtering by
    category, the page, and the counts. *)
Definition paginate (sql_files nosql_files : list (file_entry mtime))
           (category : option string) (limit offset : Z) : listing mtime :=
  let files :=
    match category with
    | Some c =>
        if String.eqb c "sql" then sql_files
        else if String.eqb c "nosql" then nosql_files
        else (sql_files ++ nosql_files)%list
    | None => (sql_files ++ nosql_files)%list
    end in
  let total_files := List.length files in
  let paginated_files := py_slice files offset (offset + limit) in
  mkListing paginated_files total_files limit offset
            (offset + limit <? Z.of_nat total_files)%Z
            (List.length sql_files) (List.length nosql_files) total_files.

(** [list_json_files(category, limit, offset)] *)
Definition list_json_files (category : option string) (limit offset : Z)
  : filesystem -> listing_response mtime * filesystem :=
  fun fs =>
    match (sql_files <- list_bucket SqlDir ;;
           nosql_files <- list_bucket NosqlDir ;;
           ret (paginate sql_files nosql_files category limit offset)) fs with
    | (Return body, fs') => (Listed body, fs')
    | (Raise e, fs') =>
        (ListingError 500 ("Error listing files: " ++ exn_msg e), fs')
    end.

(** [process_single_file(file)]: the steps of [upload_json] under the
    temporary name [bulk_<name>], with neither the test of the extension nor
    the test of the size; what is raised on the way is turned into a
    result, and the handler removes nothing. *)
Definition process_single_file (env : io_env) (filename content : string)
  : filesystem -> single_result * filesystem :=
  fun fs =>
    let temp_file := mkPath TempDir ("bulk_" ++ filename) in
    let body : io store_result :=
      (if Str.contains "/" filename
       then raise (file_not_found temp_file)
       else write_text (temp_fault env) temp_file content) ;;;
      a <- analyze_json_file rt temp_file ;;
      store_json_file rt env temp_file filename a in
    match body fs with
    | (Return result, fs') => (Processed result, fs')
    | (Raise e, fs') => (NotProcessed (exn_msg e) filename, fs')
    end.

End Routes.

Arguments scan_entries rt {mtime} st_mtime files.
Arguments list_bucket rt {mtime} st_mtime d.
Arguments paginate {mtime} sql_files nosql_files category limit offset.
Arguments list_json_files rt {mtime} st_mtime category limit offset.

(** The names the listing shows for a directory. *)
Definition listed_names (d : dir) (fs : filesystem) : list string :=
  map name
      (filter (fun p => Str.endswith ".json" (name p)
                        && negb (Str.endswith ".meta.json" (name p)))
              (listdir d fs)).

(** The [k]-th page of a walk through a list with a fixed page size. *)
Definition page_at {A : Type} (files : list A) (limit : Z) (k : nat) : list A :=
  py_slice files (Z.of_nat k * limit) (Z.of_nat k * limit + limit).

(** The entries the duplicate lookup can answer with: the documents of the
    bucket whose name holds the digest, in listing order. *)
Definition duplicate_candidates (digest : string) (c : storage_class)
           (fs : filesystem) : list path :=
  filter (fun p => Str.contains digest (name p)) (documents_of c fs).

(** A mapping none of whose values the depth routine descends into: no
    value is a mapping, and no sequence value starts with a mapping. *)
Definition shallow_value (value : json) : bool :=
  match value with
  | JDict _ => false
  | JList (JDict _ :: _) => false
  | _ => true
  end.

(** An environment in which writing the schema record fails once the
    record has been opened: an empty record is left. *)
Definition schema_write_fails (now : datetime) : io_env :=
  mkEnv now now now None None
        (Some (mkFault "[Errno 28] No space left on device" (Some 0))) None None.

(** Ten rows [{"id": i}], i = 0 .. 9. *)
Definition ten_rows : list json :=
  map (fun i => JDict [("id", JInt (Z.of_nat i))]) (seq 0 10).

(** The files [list_json_files] pages through, by category. *)
Definition select_category {A : Type} (sql_files nosql_files : list A)
           (category : option string) : list A :=
  match category with
  | Some c =>
      if String.eqb c "sql" then sql_files
      else if String.eqb c "nosql" then nosql_files
      else (sql_files ++ nosql_files)%list
  | None => (sql_files ++ nosql_files)%list
  end.

(** The entries of a directory the listing shows. *)
Definition listable (p : path) : bool :=
  Str.endswith ".json" (name p) && negb (Str.endswith ".meta.json" (name p)).

(** What reading the metadata record beside a document gives: the parsed
    record, the empty mapping when there is no record, or the error of the
    parser. *)
Definition metadata_reading (rt : runtime) (fs : filesystem) (file : path)
  : outcome json :=
  match lookup fs (metadata_path_of (parent file) (name file)) with
  | Some content => json_load rt content
  | None => Return (JDict [])
  end.

(** The entry of one document, and the entries of a list of documents up to
    the first record that fails to parse. *)
Definition read_entry (rt : runtime) {mtime : Type} (st_mtime : path -> mtime)
           (fs : filesystem) (file : path) : outcome (file_entry mtime) :=
  match metadata_reading rt fs file with
  | Raise e => Raise e
  | Return metadata =>
      match lookup fs file with
      | Some data =>
          Return (mkEntry (name file) (Str.size data) (st_mtime file) metadata)
      | None => Raise (file_not_found file)
      end
  end.

Fixpoint read_entries (rt : runtime) {mtime : Type} (st_mtime : path -> mtime)
         (fs : filesystem) (docs : list path)
  : outcome (list (file_entry mtime)) :=
  match docs with
  | [] => Return []
  | file :: rest =>
      match read_entry rt st_mtime fs file with
      | Raise e => Raise e
      | Return entry =>
          match read_entries rt st_mtime fs rest with
          | Raise e => Raise e
          | Return entries => Return (entry :: entries)
          end
      end
  end.

(** Whether a metadata record beside a listed document of a bucket fails
    to parse. *)
Definition corrupt_record (rt : runtime) (fs : filesystem) (d : dir) : Prop :=
  exists file content e,
    In file (listdir d fs) /\ listable file = true
    /\ lookup fs (metadata_path_of d (name file)) = Some content
    /\ json_load rt content = Raise e.

(** The verdict of [analyze_json_file] on a file that holds [text]. *)
Definition analysis_of_text (rt : runtime) (text : string) : analysis :=
  if (ten_megabytes <? Str.size text)%N then
    verdict Nosql "File too large for SQL optimization"
  else
    match json_load rt text with
    | Return (JList data) => analyze_array rt data
    | Return (JDict data) => analyze_object data
    | Return _ =>
        verdict Nosql "Simple scalar data type, best handled as NoSQL document"
    | Raise (JSONDecodeError msg) => verdict Nosql ("Invalid JSON: " ++ msg)
    | Raise (Exception msg) => verdict Nosql ("Analysis error: " ++ msg)
    end.

(** The two tests of [upload_json] before anything is written. *)
Definition accepted_upload (filename content : string) : bool :=
  Str.endswith ".json" (Str.lower filename)
  && (Str.size content <=? fifty_megabytes)%N.


(* ===================================================================== *)
(** ** The storage tree: facts about lookup, write and remove *)
(* ===================================================================== *)

Lemma dir_eqb_eq (a b : dir) : dir_eqb a b = true <-> a = b.
Proof. destruct a, b; simpl; split; intro H; try reflexivity; discriminate. Qed.

Lemma path_eqb_eq (p q : path) : path_eqb p q = true <-> p = q.
Proof.
  destruct p as [d n], q as [d' n']; unfold path_eqb; simpl.
  rewrite andb_true_iff, dir_eqb_eq, String.eqb_eq.
  split; [intros [-> ->]; reflexivity | intro H; inversion H; auto].
Qed.

Lemma path_eqb_refl (p : path) : path_eqb p p = true.
Proof. apply path_eqb_eq; reflexivity. Qed.

Lemma path_eqb_neq (p q : path) : p <> q -> path_eqb p q = false.
Proof.
  intro H; destruct (path_eqb p q) eqn:E; [|reflexivity].
  apply path_eqb_eq in E; contradiction.
Qed.

Lemma lookup_remove_same (fs : filesystem) (p : path) :
  lookup (remove p fs) p = None.
Proof.
  induction fs as [|[q d] fs IH]; simpl; [reflexivity|].
  destruct (path_eqb q p) eqn:E; simpl; [exact IH|].
  rewrite E; exact IH.
Qed.

Lemma lookup_remove_other (fs : filesystem) (p q : path) :
  p <> q -> lookup (remove p fs) q = lookup fs q.
Proof.
  intro Hne; induction fs as [|[r d] fs IH]; simpl; [reflexivity|].
  destruct (path_eqb r p) eqn:E; simpl.
  - apply path_eqb_eq in E; subst r.
    rewrite (path_eqb_neq p q Hne); exact IH.
  - destruct (path_eqb r q); [reflexivity | exact IH].
Qed.

Lemma lookup_write_same (fs : filesystem) (p : path) (d : string) :
  lookup (write p d fs) p = Some d.
Proof.
  induction fs as [|[q old] fs IH]; simpl.
  - rewrite path_eqb_refl; reflexivity.
  - destruct (path_eqb q p) eqn:E; simpl; rewrite E; [reflexivity | exact IH].
Qed.

Lemma lookup_write_other (fs : filesystem) (p q : path) (d : string) :
  p <> q -> lookup (write p d fs) q = lookup fs q.
Proof.
  intro Hne; induction fs as [|[r old] fs IH]; simpl.
  - rewrite (path_eqb_neq p q Hne); reflexivity.
  - destruct (path_eqb r p) eqn:E; simpl.
    + apply path_eqb_eq in E; subst r.
      rewrite (path_eqb_neq p q Hne); reflexivity.
    + destruct (path_eqb r q); [reflexivity | exact IH].
Qed.

Lemma lookup_partial_write_other (f : os_fault) (target q : path)
      (data : string) (fs : filesystem) :
  target <> q -> lookup (partial_write f target data fs) q = lookup fs q.
Proof.
  intro Hne; unfold partial_write.
  destruct (fault_written f); [apply lookup_write_other; exact Hne | reflexivity].
Qed.

Lemma lookup_partial_write_same (f : os_fault) (target : path) (data : string)
      (fs : filesystem) :
  lookup (partial_write f target data fs) target
  = match fault_written f with
    | None => lookup fs target
    | Some n => Some (Str.take n data)
    end.
Proof.
  unfold partial_write.
  destruct (fault_written f); [apply lookup_write_same | reflexivity].
Qed.

(** Removing a file leaves the listing of every other directory alone. *)
Lemma listdir_remove_other (fs : filesystem) (p : path) (d : dir) :
  parent p <> d -> listdir d (remove p fs) = listdir d fs.
Proof.
  intro Hne; unfold listdir, remove.
  induction fs as [|[q data] fs IH]; simpl; [reflexivity|].
  destruct (path_eqb q p) eqn:E; simpl.
  - apply path_eqb_eq in E; subst q.
    destruct (dir_eqb (parent p) d) eqn:D; [|exact IH].
    apply dir_eqb_eq in D; contradiction.
  - rewrite IH; reflexivity.
Qed.

Lemma size_filler (c : ascii) (n : N) : Str.size (filler c n) = n.
Proof.
  unfold filler; induction n as [|n IH] using N.peano_ind; [reflexivity|].
  rewrite N.iter_succ; simpl; rewrite IH; reflexivity.
Qed.

(* ===================================================================== *)
(** ** Analysis of a file *)
(* ===================================================================== *)

Lemma analyze_json_file_oversize (rt : runtime) (p : path) (fs : filesystem)
      (data : string) :
  lookup fs p = Some data ->
  (ten_megabytes < Str.size data)%N ->
  analyze_json_file rt p fs
  = (Return (verdict Nosql "File too large for SQL optimization"), fs).
Proof.
  intros Hfile Hsize.
  unfold analyze_json_file, try_except, analyze_body, getsize, bind, read_bytes.
  rewrite Hfile; simpl.
  apply N.ltb_lt in Hsize; rewrite Hsize; reflexivity.
Qed.

(** C10.  A file of more than 10 * 1024 * 1024 bytes gets the verdict nosql
    with the reason "File too large for SQL optimization", whatever it holds
    and whatever parsing it would give: the verdict mentions neither the
    content nor [json_load].  The threshold lies below the 50 megabytes the
    upload route accepts. *)
Theorem oversize_file_is_nosql :
  forall (rt : runtime) (file_path : path) (fs : filesystem) (data : string),
    lookup fs file_path = Some data ->
    (ten_megabytes < Str.size data)%N ->
    analyze_json_file rt file_path fs
    = (Return (verdict Nosql "File too large for SQL optimization"), fs)
    /\ (ten_megabytes < fifty_megabytes)%N.
Proof.
  intros rt file_path fs data Hfile Hsize.
  split; [|reflexivity].
  apply analyze_json_file_oversize with data; assumption.
Qed.

(** A file of 11 megabytes that holds a flat mapping as far as the parser
    is concerned. *)
Lemma oversize_file_is_nosql_witness :
  let big := filler "a" 11534336 in
  let p := mkPath TempDir "temp_big.json" in
  let rt := table_runtime [(big, id_document)] keep_order
                          (fun s => Permutation_refl s) in
  analyze_json_file rt p [(p, big)]
  = (Return (verdict Nosql "File too large for SQL optimization"), [(p, big)])
  /\ (ten_megabytes < fifty_megabytes)%N.
Proof.
  intros big p rt.
  apply (oversize_file_is_nosql rt p [(p, big)] big).
  - reflexivity.
  - unfold big; rewrite size_filler; reflexivity.
Defined.

Lemma analyze_array_reason (rt : runtime) (data : list json) :
  reason (analyze_array rt data) <> "".
Proof.
  unfold analyze_array; destruct data as [|x xs]; [discriminate|].
  destruct (negb _); [discriminate|].
  destruct (_ && _); discriminate.
Qed.

Lemma analyze_object_reason (data : list (string * json)) :
  reason (analyze_object data) <> "".
Proof.
  unfold analyze_object; destruct (nesting_loop _); discriminate.
Qed.

(** What [analyze_json_file] answers, branch by branch. *)
Lemma analyze_json_file_missing (rt : runtime) (p : path) (fs : filesystem) :
  lookup fs p = None ->
  analyze_json_file rt p fs
  = (Return (verdict Nosql ("Analysis error: " ++ exn_msg (file_not_found p))), fs).
Proof.
  intro H; unfold analyze_json_file, try_except, analyze_body, getsize, bind,
    read_bytes; rewrite H; reflexivity.
Qed.

Lemma analyze_json_file_loaded (rt : runtime) (p : path) (fs : filesystem)
      (text : string) :
  lookup fs p = Some text ->
  (Str.size text <= ten_megabytes)%N ->
  analyze_json_file rt p fs
  = (Return
       match json_load rt text with
       | Return (JList data) => analyze_array rt data
       | Return (JDict data) => analyze_object data
       | Return _ =>
           verdict Nosql "Simple scalar data type, best handled as NoSQL document"
       | Raise (JSONDecodeError msg) => verdict Nosql ("Invalid JSON: " ++ msg)
       | Raise (Exception msg) => verdict Nosql ("Analysis error: " ++ msg)
       end, fs).
Proof.
  intros H Hsize.
  unfold analyze_json_file, try_except, analyze_body, getsize, bind, read_bytes.
  rewrite H; simpl.
  assert (Hlt : (ten_megabytes <? Str.size text)%N = false)
    by (apply N.ltb_ge; exact Hsize).
  rewrite Hlt, H.
  destruct (json_load rt text) as [[]|[]]; reflexivity.
Qed.

(** C4.  Analysis is total: on every tree and every path, whatever the
    parser does, [analyze_json_file] returns a verdict and raises nothing; it
    leaves the tree as it was; the verdict carries a recommendation and a
    reason that is not empty; and when the file is missing or the parser
    raises (for malformed JSON or for any other cause) the verdict is nosql
    and its reason quotes the error. *)
Theorem analysis_never_raises :
  forall (rt : runtime) (file_path : path) (fs : filesystem),
  exists v : analysis,
    analyze_json_file rt file_path fs = (Return v, fs)
    /\ (recommendation v = Sql \/ recommendation v = Nosql)
    /\ reason v <> ""
    /\ (lookup fs file_path = None ->
        v = verdict Nosql ("Analysis error: " ++ exn_msg (file_not_found file_path)))
    /\ (forall text msg,
          lookup fs file_path = Some text ->
          (Str.size text <= ten_megabytes)%N ->
          (json_load rt text = Raise (JSONDecodeError msg) ->
           v = verdict Nosql ("Invalid JSON: " ++ msg))
          /\ (json_load rt text = Raise (Exception msg) ->
              v = verdict Nosql ("Analysis error: " ++ msg))).
Proof.
  intros rt p fs.
  destruct (lookup fs p) as [text|] eqn:Hfile.
  - destruct (N.lt_ge_cases ten_megabytes (Str.size text)) as [Hbig|Hsmall].
    + eexists; split; [apply (analyze_json_file_oversize rt p fs text Hfile Hbig)|].
      split; [right; reflexivity|].
      split; [discriminate|].
      split; [discriminate|].
      intros text' msg Heq Hle; injection Heq as <-.
      exfalso; apply (N.lt_irrefl ten_megabytes).
      apply N.lt_le_trans with (Str.size text); assumption.
    + eexists; split; [apply (analyze_json_file_loaded rt p fs text Hfile Hsmall)|].
      split; [destruct (recommendation _); auto|].
      split.
      * destruct (json_load rt text) as [[]|[]];
          try discriminate;
          [apply analyze_array_reason | apply analyze_object_reason].
      * split; [discriminate|].
        intros text' msg Heq _; injection Heq as <-.
        split; intro Hload; rewrite Hload; reflexivity.
  - eexists; split; [apply analyze_json_file_missing; exact Hfile|].
    split; [right; reflexivity|].
    split; [discriminate|].
    split; [reflexivity|].
    intros text msg Heq; discriminate.
Qed.

(* ===================================================================== *)
(** ** Strings and path names *)
(* ===================================================================== *)

Lemma startswith_empty (s : string) : Str.startswith "" s = true.
Proof. destruct s; reflexivity. Qed.

Lemma startswith_app (p s : string) : Str.startswith p (p ++ s) = true.
Proof.
  induction p as [|a p IH]; simpl; [reflexivity|].
  rewrite Ascii.eqb_refl; exact IH.
Qed.

Lemma contains_app_right (sub a b : string) :
  Str.contains sub b = true -> Str.contains sub (a ++ b) = true.
Proof.
  intro H; induction a as [|c a IH]; simpl; [exact H|].
  rewrite IH; apply orb_true_r.
Qed.

Lemma contains_here (sub b : string) : Str.contains sub (sub ++ b) = true.
Proof.
  destruct (sub ++ b) eqn:E; simpl; rewrite <- E, (startswith_app sub b);
    reflexivity.
Qed.

Lemma contains_middle (sub a b : string) :
  Str.contains sub (a ++ sub ++ b) = true.
Proof. apply contains_app_right, contains_here. Qed.

Lemma split_no_separator (c : ascii) (s : string) :
  Str.contains (String c "") s = false -> Str.split c s = [s].
Proof.
  induction s as [|a s IH]; simpl; [reflexivity|].
  rewrite andb_true_r.
  intro H; apply orb_false_iff in H; destruct H as [Hc Hs].
  rewrite Ascii.eqb_sym, Hc, (IH Hs); reflexivity.
Qed.

Lemma endswith_json_nonempty (n : string) :
  Str.endswith ".json" n = true ->
  String.eqb n "" = false /\ String.eqb n "." = false.
Proof.
  destruct n as [|a [|b n]]; simpl; intro H; try discriminate.
  - rewrite orb_false_r in H.
    destruct (Ascii.eqb a "."); simpl in H; discriminate.
  - split; [reflexivity|].
    destruct (Ascii.eqb a "."); reflexivity.
Qed.

(** The name of a file of the tree is recovered from its text form. *)
Lemma name_of_path_str (p : path) :
  Str.contains "/" (name p) = false ->
  String.eqb (name p) "" = false ->
  String.eqb (name p) "." = false ->
  PurePath.name (path_str p) = name p.
Proof.
  destruct p as [d n]; simpl; intros Hsep Hne Hdot.
  unfold PurePath.name, PurePath.components, path_str; simpl name; simpl parent.
  destruct d; simpl; rewrite (split_no_separator _ _ Hsep); simpl;
    rewrite Hne, Hdot; reflexivity.
Qed.

(* ===================================================================== *)
(** ** Placement: the duplicate path and the failure path *)
(* ===================================================================== *)

Arguments MD5.hexdigest : simpl never.
Arguments strftime_stamp : simpl never.
Arguments isoformat : simpl never.
Arguments PurePath.name : simpl never.
Arguments PurePath.stem : simpl never.
Arguments PurePath.suffix : simpl never.

Ltac unfold_io :=
  cbv beta delta [try_except bind ret raise get_file_hash read_bytes getsize
                  unlink_missing_ok glob_star].

Lemma check_duplicate_run (digest : string) (c : storage_class) (fs : filesystem) :
  check_duplicate digest c fs
  = (Return (scan_duplicates digest (listdir (bucket_dir c) fs)), fs).
Proof. destruct c; reflexivity. Qed.

(** What the scan answers, when it answers something, is the text form of
    an entry that passed its tests. *)
Lemma scan_duplicates_found (digest : string) (files : list path) :
  scan_duplicates digest files <> "" ->
  exists existing,
    In existing files
    /\ scan_duplicates digest files = path_str existing
    /\ Str.endswith ".json" (name existing) = true
    /\ Str.endswith ".meta.json" (name existing) = false
    /\ Str.contains digest (name existing) = true.
Proof.
  induction files as [|f files IH]; simpl; [intro H; contradiction H; reflexivity|].
  destruct (Str.endswith ".json" (name f)) eqn:Ejson; simpl.
  - destruct (Str.endswith ".meta.json" (name f)) eqn:Emeta; simpl.
    + intro H; destruct (IH H) as [e [Hin He]]; exists e; auto.
    + destruct (Str.endswith ".schema.json" (name f)) eqn:Eschema; simpl.
      * intro H; destruct (IH H) as [e [Hin He]]; exists e; auto.
      * destruct (Str.contains digest (name f)) eqn:Ehash.
        -- intros _; exists f; auto.
        -- intro H; destruct (IH H) as [e [Hin He]]; exists e; auto.
  - intro H; destruct (IH H) as [e [Hin He]]; exists e; auto.
Qed.

Lemma listdir_in (d : dir) (fs : filesystem) (p : path) :
  In p (listdir d fs) -> parent p = d /\ lookup fs p <> None.
Proof.
  unfold listdir; rewrite filter_In; intros [Hin Hd].
  split; [apply dir_eqb_eq; exact Hd|].
  induction fs as [|[q data] fs IH]; simpl in *; [contradiction|].
  destruct (path_eqb q p) eqn:E; [discriminate|].
  destruct Hin as [Heq|Hin]; [|exact (IH Hin)].
  subst q; rewrite path_eqb_refl in E; discriminate.
Qed.

Lemma store_json_file_duplicate (rt : runtime) (env : io_env) (p : path)
      (original : string) (a : analysis) (fs : filesystem)
      (data duplicate : string) :
  lookup fs p = Some data ->
  scan_duplicates (MD5.hexdigest data) (listdir (bucket_dir (recommendation a)) fs)
  = duplicate ->
  duplicate <> "" ->
  store_json_file rt env p original a fs
  = (Return (DuplicateFound
               (mkDuplicate original (PurePath.name duplicate)
                  (Str.upper (class_str (recommendation a)))
                  duplicate (reason a)
                  "File already exists (duplicate detected)")),
     remove p fs).
Proof.
  intros Hfile Hscan Hne.
  unfold store_json_file; unfold_io.
  rewrite Hfile; cbv beta iota.
  rewrite check_duplicate_run, Hscan.
  destruct (String.eqb duplicate "") eqn:E.
  - apply String.eqb_eq in E; contradiction.
  - reflexivity.
Qed.

Lemma store_json_file_move_fault (rt : runtime) (env : io_env) (p : path)
      (original : string) (a : analysis) (fs : filesystem)
      (data : string) (f : os_fault) :
  lookup fs p = Some data ->
  scan_duplicates (MD5.hexdigest data) (listdir (bucket_dir (recommendation a)) fs)
  = "" ->
  move_fault env = Some f ->
  store_json_file rt env p original a fs
  = (Return (Failed (fault_msg f)),
     remove p
       (partial_write f
          (mkPath (bucket_dir (recommendation a))
                  (new_name_of original (strftime_stamp (now_name env))
                               (MD5.hexdigest data)))
          data fs)).
Proof.
  intros Hfile Hscan Hfault.
  unfold store_json_file; unfold_io.
  rewrite Hfile; cbv beta iota.
  rewrite check_duplicate_run, Hscan.
  change (String.eqb "" "") with true; cbv beta iota delta [negb].
  destruct (recommendation a); cbn [class_eqb bucket_dir];
    unfold shutil_move; rewrite Hfile, Hfault; reflexivity.
Qed.

Lemma check_duplicate_answer (digest : string) (c : storage_class)
      (fs : filesystem) (answer : string) :
  check_duplicate digest c fs = (Return answer, fs) ->
  scan_duplicates digest (listdir (bucket_dir c) fs) = answer.
Proof. rewrite check_duplicate_run; intro H; injection H; auto. Qed.

(** C5.  When the duplicate lookup reports an entry for the digest of the
    incoming payload in the bucket of its storage class, placement deletes
    the temporary payload and returns a result with success = true and
    duplicate = true that carries the stored name and the path of that
    entry; the entry is a file of the bucket whose name holds the digest. No
    record is written: every file outside the temporary directory, and the
    listing of every other directory, is as before. *)
Theorem duplicate_is_reported_not_stored :
  forall (rt : runtime) (env : io_env) (file_path : path) (original : string)
         (a : analysis) (fs : filesystem) (data duplicate : string),
    parent file_path = TempDir ->
    lookup fs file_path = Some data ->
    check_duplicate (MD5.hexdigest data) (recommendation a) fs
    = (Return duplicate, fs) ->
    duplicate <> "" ->
    let result :=
      DuplicateFound
        (mkDuplicate original (PurePath.name duplicate)
           (Str.upper (class_str (recommendation a)))
           duplicate (reason a) "File already exists (duplicate detected)") in
    let fs' := remove file_path fs in
    store_json_file rt env file_path original a fs = (Return result, fs')
    /\ success result = true
    /\ is_duplicate result = true
    /\ lookup fs' file_path = None
    /\ (forall p, parent p <> TempDir -> lookup fs' p = lookup fs p)
    /\ (forall d, d <> TempDir -> listdir d fs' = listdir d fs)
    /\ exists existing,
         In existing (listdir (bucket_dir (recommendation a)) fs)
         /\ lookup fs existing <> None
         /\ Str.contains (MD5.hexdigest data) (name existing) = true
         /\ duplicate = path_str existing
         /\ (Str.contains "/" (name existing) = false ->
             PurePath.name duplicate = name existing).
Proof.
  intros rt env p original a fs data duplicate Htemp Hfile Hcheck Hne result fs'.
  apply check_duplicate_answer in Hcheck.
  split; [apply store_json_file_duplicate with data; assumption|].
  split; [reflexivity|].
  split; [reflexivity|].
  split; [apply lookup_remove_same|].
  split.
  { intros q Hq; apply lookup_remove_other; intro Heq; subst q; contradiction. }
  split.
  { intros d Hd; apply listdir_remove_other; rewrite Htemp; auto. }
  assert (Hfound : scan_duplicates (MD5.hexdigest data)
                     (listdir (bucket_dir (recommendation a)) fs) <> "")
    by (rewrite Hcheck; exact Hne).
  destruct (scan_duplicates_found _ _ Hfound)
    as [e [Hin [Hstr [Hjson [_ Hhash]]]]].
  exists e; split; [exact Hin|].
  split; [apply (listdir_in _ _ _ Hin)|].
  split; [exact Hhash|].
  split; [rewrite <- Hcheck; exact Hstr|].
  intro Hsep; rewrite <- Hcheck, Hstr.
  destruct (endswith_json_nonempty _ Hjson) as [H1 H2].
  apply name_of_path_str; assumption.
Qed.

(** The digest agrees with the test suite of RFC 1321 and, on texts that
    fill one block and two blocks, with [hashlib]. *)
Example md5_test_suite :
  MD5.hexdigest "" = "d41d8cd98f00b204e9800998ecf8427e"
  /\ MD5.hexdigest "a" = "0cc175b9c0f1b6a831c399e269772661"
  /\ MD5.hexdigest "abc" = "900150983cd24fb0d6963f7d28e17f72"
  /\ MD5.hexdigest "message digest" = "f96b697d7cb7938d525a2f31aaf161d0"
  /\ MD5.hexdigest "abcdefghijklmnopqrstuvwxyz"
     = "c3fcd3d76192e4007dfb496cca67e13b"
  /\ MD5.hexdigest (filler "x" 55) = "04364420e25c512fd958a70738aa8f72"
  /\ MD5.hexdigest (filler "x" 56) = "668a72d5ba17f08e62dabcafad6db14b"
  /\ MD5.hexdigest (filler "x" 64) = "c1bb4f81d892b2d57947682aeb252456"
  /\ MD5.hexdigest (filler "x" 120) = "fb98667f98096de92620b64f46e1c5b5".
Proof. repeat split; vm_compute; reflexivity. Qed.

Example md5_of_id_document : MD5.hexdigest id_document_text = id_digest.
Proof. vm_compute. reflexivity. Qed.

(** The same payload arrives again while the bucket holds an entry named by
    its digest. *)
Lemma duplicate_is_reported_not_stored_witness :
  store_json_file sample_runtime (calm (sample_clock 6)) temp_a "a.json"
    (analyze_object [("id", JInt 1)])
    [(named_by_digest, id_document_text); (temp_a, id_document_text)]
  = (Return (DuplicateFound
               (mkDuplicate "a.json" (name named_by_digest) "SQL"
                  (path_str named_by_digest)
                  "Flat structure, ideal for relational querying."
                  "File already exists (duplicate detected)")),
     [(named_by_digest, id_document_text)]).
Proof.
  exact (proj1 (duplicate_is_reported_not_stored
                  sample_runtime (calm (sample_clock 6)) temp_a "a.json"
                  (analyze_object [("id", JInt 1)])
                  [(named_by_digest, id_document_text); (temp_a, id_document_text)]
                  id_document_text (path_str named_by_digest)
                  eq_refl eq_refl
                  ltac:(vm_compute; reflexivity)
                  ltac:(discriminate))).
Defined.

(* ===================================================================== *)
(** ** The digest and the time stamp as texts *)
(* ===================================================================== *)

Lemma hex_char_is_hex (n : Z) : Str.is_hex_digit (MD5.hex_char n) = true.
Proof.
  unfold MD5.hex_char.
  assert (H : (Z.to_nat (n mod 16) < 16)%nat).
  { pose proof (Z.mod_pos_bound n 16 eq_refl) as B. lia. }
  remember (Z.to_nat (n mod 16)) as k eqn:E; clear E.
  do 16 (destruct k as [|k]; [reflexivity|]).
  lia.
Qed.

Lemma hex_of_bytes_length (bs : list Z) :
  String.length (MD5.hex_of_bytes bs) = 2 * List.length bs.
Proof. induction bs as [|b bs IH]; simpl; [reflexivity | rewrite IH; lia]. Qed.

Lemma hex_of_bytes_hex (bs : list Z) :
  Str.all Str.is_hex_digit (MD5.hex_of_bytes bs) = true.
Proof.
  induction bs as [|b bs IH]; [reflexivity|].
  cbn [MD5.hex_of_bytes Str.all].
  rewrite !hex_char_is_hex, IH; reflexivity.
Qed.

Lemma le_bytes_length (n : nat) (x : Z) : List.length (MD5.le_bytes n x) = n.
Proof. revert x; induction n as [|n IH]; intro x; simpl; [|rewrite IH]; reflexivity. Qed.

Lemma digest_length (s : string) : List.length (MD5.digest s) = 16.
Proof.
  unfold MD5.digest; destruct (MD5.digest_state s) as [[[a b] c] d].
  rewrite !length_app, !le_bytes_length; reflexivity.
Qed.

(** [hexdigest()] is a text of 32 lower-case hexadecimal digits. *)
Lemma hexdigest_length (s : string) : String.length (MD5.hexdigest s) = 32.
Proof. unfold MD5.hexdigest; rewrite hex_of_bytes_length, digest_length; reflexivity. Qed.

Lemma hexdigest_hex (s : string) : Str.all Str.is_hex_digit (MD5.hexdigest s) = true.
Proof. apply hex_of_bytes_hex. Qed.

Lemma take_length (n : nat) (s : string) :
  n <= String.length s -> String.length (Str.take n s) = n.
Proof.
  revert s; induction n as [|n IH]; intros [|a s] H; simpl in *;
    try reflexivity; try lia.
  rewrite IH; [reflexivity | lia].
Qed.

Lemma take_all (p : ascii -> bool) (n : nat) (s : string) :
  Str.all p s = true -> Str.all p (Str.take n s) = true.
Proof.
  revert s; induction n as [|n IH]; intros [|a s] H; simpl in *;
    try reflexivity.
  apply andb_true_iff in H; destruct H as [Ha Hs].
  rewrite Ha, (IH s Hs); reflexivity.
Qed.

Lemma take_app_drop (n : nat) (s : string) : Str.take n s ++ Str.drop n s = s.
Proof.
  revert s; induction n as [|n IH]; intros [|a s]; simpl; try reflexivity.
  rewrite IH; reflexivity.
Qed.

Lemma fingerprint_prefix (data : string) :
  String.length (Str.take 8 (MD5.hexdigest data)) = 8
  /\ Str.all Str.is_hex_digit (Str.take 8 (MD5.hexdigest data)) = true.
Proof.
  split.
  - apply take_length; rewrite hexdigest_length; lia.
  - apply take_all, hexdigest_hex.
Qed.

Lemma zfill_below (w : nat) (bound n : N) :
  forallb (fun k => digits_of_width w (Str.zfill w (N.of_nat k)))
          (seq 0 (N.to_nat bound))
  = true ->
  (n < bound)%N ->
  digits_of_width w (Str.zfill w n) = true.
Proof.
  intros Hall Hn.
  rewrite forallb_forall in Hall.
  rewrite <- (N2Nat.id n); apply Hall, in_seq; lia.
Qed.

Lemma zfill2_digits (n : N) :
  (n <= 99)%N -> digits_of_width 2 (Str.zfill 2 n) = true.
Proof.
  intro H; apply zfill_below with 100%N; [vm_compute; reflexivity | lia].
Qed.

Lemma zfill4_digits (n : N) :
  (n <= 9999)%N -> digits_of_width 4 (Str.zfill 4 n) = true.
Proof.
  intro H; apply zfill_below with 10000%N; [vm_compute; reflexivity | lia].
Qed.

Lemma stamp_of_parts (y m d h mi s : string) :
  digits_of_width 4 y = true -> digits_of_width 2 m = true ->
  digits_of_width 2 d = true -> digits_of_width 2 h = true ->
  digits_of_width 2 mi = true -> digits_of_width 2 s = true ->
  is_stamp (y ++ m ++ d ++ "_" ++ h ++ mi ++ s) = true.
Proof.
  unfold digits_of_width; intros Hy Hm Hd Hh Hmi Hs.
  destruct y as [|y1 [|y2 [|y3 [|y4 [|? ?]]]]]; try discriminate.
  destruct m as [|m1 [|m2 [|? ?]]]; try discriminate.
  destruct d as [|d1 [|d2 [|? ?]]]; try discriminate.
  destruct h as [|h1 [|h2 [|? ?]]]; try discriminate.
  destruct mi as [|i1 [|i2 [|? ?]]]; try discriminate.
  destruct s as [|s1 [|s2 [|? ?]]]; try discriminate.
  cbn [String.length Nat.eqb andb Str.all] in *.
  rewrite andb_true_r in *.
  repeat match goal with
         | H : _ && _ = true |- _ => apply andb_true_iff in H; destruct H
         end.
  unfold is_stamp; cbn [append String.length Nat.eqb Str.take Str.drop Str.all andb].
  repeat match goal with
         | H : Str.is_digit _ = true |- _ => rewrite H; clear H
         end.
  reflexivity.
Qed.

(** The stamp of a clock reading has the shape YYYYMMDD_HHMMSS. *)
Lemma strftime_stamp_shape (dt : datetime) :
  valid_datetime dt = true -> is_stamp (strftime_stamp dt) = true.
Proof.
  unfold valid_datetime; intro H.
  repeat match goal with
         | H : _ && _ = true |- _ => apply andb_true_iff in H; destruct H
         end.
  repeat match goal with
         | H : (_ <=? _)%N = true |- _ => apply N.leb_le in H
         end.
  unfold strftime_stamp.
  apply stamp_of_parts;
    first [apply zfill4_digits | apply zfill2_digits]; lia.
Qed.

(* ===================================================================== *)
(** ** Placement: a new document *)
(* ===================================================================== *)

Lemma new_name_nonempty (original stamp digest : string) :
  String.eqb (new_name_of original stamp digest) "" = false.
Proof.
  unfold new_name_of.
  destruct (PurePath.stem (PurePath.name original)); reflexivity.
Qed.

Lemma save_metadata_run (rt : runtime) (env : io_env) (final : path)
      (a : analysis) (original data : string) (fs : filesystem) :
  lookup fs final = Some data ->
  String.eqb (name final) "" = false ->
  meta_fault env = None ->
  schema_fault env = None ->
  save_metadata rt env final a original fs
  = (Return tt,
     write (schema_path_of (name final)) (dump_schema rt (schema_of env a original))
       (write (metadata_path_of (parent final) (name final))
              (dump_metadata rt (metadata_of env a original data)) fs)).
Proof.
  intros Hfile Hname Hmeta Hschema.
  unfold save_metadata, PurePath.with_suffix; unfold_io.
  rewrite Hfile, Hname; cbv beta iota.
  unfold write_text; rewrite Hmeta, Hschema; reflexivity.
Qed.

Lemma save_metadata_fault (rt : runtime) (env : io_env) (final : path)
      (a : analysis) (original : string) (fs : filesystem) :
  meta_fault env <> None \/ schema_fault env <> None ->
  exists e fs', save_metadata rt env final a original fs = (Raise e, fs').
Proof.
  intro Hfault.
  unfold save_metadata, PurePath.with_suffix; unfold_io.
  destruct (lookup fs final) as [data|]; [|eauto].
  cbv beta iota.
  destruct (String.eqb (name final) ""); [eauto|].
  unfold write_text.
  destruct (meta_fault env) as [m|]; [eauto|].
  destruct (schema_fault env) as [m|]; [eauto|].
  destruct Hfault as [H|H]; contradiction H; reflexivity.
Qed.

(** A placement that answers "stored" has gone through every step. *)
Lemma store_json_file_stored (rt : runtime) (env : io_env) (p : path)
      (original : string) (a : analysis) (fs fs' : filesystem) (r : stored_info) :
  store_json_file rt env p original a fs = (Return (Stored r), fs') ->
  exists data,
    lookup fs p = Some data
    /\ scan_duplicates (MD5.hexdigest data)
         (listdir (bucket_dir (recommendation a)) fs) = ""
    /\ r = mkStored original
             (new_name_of original (strftime_stamp (now_name env)) (MD5.hexdigest data))
             (kind_label (recommendation a))
             (path_str (mkPath (bucket_dir (recommendation a))
                          (new_name_of original (strftime_stamp (now_name env))
                                       (MD5.hexdigest data))))
             (reason a) (MD5.hexdigest data) (strftime_stamp (now_name env))
    /\ fs' = tree_after_placement rt env a original data p
               (new_name_of original (strftime_stamp (now_name env))
                            (MD5.hexdigest data)) fs.
Proof.
  unfold store_json_file; unfold_io.
  destruct (lookup fs p) as [data|] eqn:Hfile; [|intro H; discriminate].
  cbv beta iota.
  rewrite check_duplicate_run.
  destruct (String.eqb (scan_duplicates _ _) "") eqn:Hscan;
    [|intro H; discriminate].
  apply String.eqb_eq in Hscan.
  cbv beta iota delta [negb].
  set (stored := new_name_of original (strftime_stamp (now_name env))
                             (MD5.hexdigest data)).
  assert (Hmove : forall bucket,
             lookup (write (mkPath bucket stored) data (remove p fs))
                    (mkPath bucket stored) = Some data)
    by (intro; apply lookup_write_same).
  destruct (meta_fault env) as [m|] eqn:Hmeta.
  { intro H; exfalso; revert H.
    destruct (class_eqb (recommendation a) Sql); unfold shutil_move;
      rewrite Hfile; destruct (move_fault env); try discriminate;
      match goal with
      | |- context [save_metadata ?rt ?env ?f ?a ?o ?fs] =>
          destruct (save_metadata_fault rt env f a o fs) as [e [fs1 He]];
          [left; rewrite Hmeta; discriminate | rewrite He; discriminate]
      end. }
  destruct (schema_fault env) as [m|] eqn:Hschema.
  { intro H; exfalso; revert H.
    destruct (class_eqb (recommendation a) Sql); unfold shutil_move;
      rewrite Hfile; destruct (move_fault env); try discriminate;
      match goal with
      | |- context [save_metadata ?rt ?env ?f ?a ?o ?fs] =>
          destruct (save_metadata_fault rt env f a o fs) as [e [fs1 He]];
          [right; rewrite Hschema; discriminate | rewrite He; discriminate]
      end. }
  destruct (recommendation a) eqn:Hrec; cbn [class_eqb]; unfold shutil_move;
    rewrite Hfile;
    (destruct (move_fault env); [intro H; discriminate|]);
    match goal with
    | |- context [save_metadata ?rt ?env ?f ?a ?o ?fs] =>
        rewrite (save_metadata_run rt env f a o data fs
                   (Hmove _) (new_name_nonempty _ _ _) Hmeta Hschema)
    end;
    intro H; injection H as Hr Hfs; exists data;
    unfold tree_after_placement; rewrite Hrec; subst; auto.
Qed.

Lemma new_name_contains_prefix (original stamp digest : string) :
  Str.contains (Str.take 8 digest) (new_name_of original stamp digest) = true.
Proof.
  unfold new_name_of.
  do 4 apply contains_app_right.
  apply contains_here.
Qed.

(** C7.  The name of every newly stored document is the stem of the
    declared name, the stamp YYYYMMDD_HHMMSS of the clock, the first eight
    hexadecimal digits of the MD5 digest of the payload and the extension of
    the declared name, joined by underscores; so it holds that prefix.  The
    prefix depends on the bytes alone: any other placement of the same
    bytes, under whatever name, at whatever time and in whatever tree, gives
    a name that holds the same eight digits. *)
Theorem stored_name_embeds_fingerprint :
  forall (rt : runtime) (env : io_env) (file_path : path) (original : string)
         (a : analysis) (fs fs' : filesystem) (r : stored_info),
    valid_datetime (now_name env) = true ->
    store_json_file rt env file_path original a fs = (Return (Stored r), fs') ->
    exists data stamp prefix,
      lookup fs file_path = Some data
      /\ stamp = strftime_stamp (now_name env)
      /\ is_stamp stamp = true
      /\ prefix = Str.take 8 (MD5.hexdigest data)
      /\ String.length prefix = 8
      /\ Str.all Str.is_hex_digit prefix = true
      /\ stored_name r
         = PurePath.stem (PurePath.name original) ++ "_" ++ stamp ++ "_"
           ++ prefix ++ PurePath.suffix (PurePath.name original)
      /\ Str.contains prefix (stored_name r) = true
      /\ (forall rt2 env2 file_path2 original2 a2 fs2 fs2' r2,
            lookup fs2 file_path2 = Some data ->
            store_json_file rt2 env2 file_path2 original2 a2 fs2
            = (Return (Stored r2), fs2') ->
            Str.contains prefix (stored_name r2) = true).
Proof.
  intros rt env p original a fs fs' r Hclock Hrun.
  destruct (store_json_file_stored _ _ _ _ _ _ _ _ Hrun)
    as [data [Hfile [_ [Hr _]]]].
  exists data, (strftime_stamp (now_name env)), (Str.take 8 (MD5.hexdigest data)).
  destruct (fingerprint_prefix data) as [Hlen Hhex].
  repeat split; auto.
  - apply strftime_stamp_shape; exact Hclock.
  - subst r; reflexivity.
  - subst r; apply new_name_contains_prefix.
  - intros rt2 env2 p2 original2 a2 fs2 fs2' r2 Hfile2 Hrun2.
    destruct (store_json_file_stored _ _ _ _ _ _ _ _ Hrun2)
      as [data2 [Hfile2' [_ [Hr2 _]]]].
    rewrite Hfile2 in Hfile2'; injection Hfile2' as <-.
    subst r2; apply new_name_contains_prefix.
Qed.

(** The document [{"id": 1}] declared as [a.json] and placed on 2 January
    2024 at 03:04:05. *)
Lemma stored_name_embeds_fingerprint_witness :
  exists r fs',
    store_json_file sample_runtime (calm (sample_clock 5)) temp_a "a.json"
      (analyze_object [("id", JInt 1)]) [(temp_a, id_document_text)]
    = (Return (Stored r), fs')
    /\ stored_name r = "a_20240102_030405_f3e56c60.json"
    /\ Str.contains "f3e56c60" (stored_name r) = true.
Proof.
  assert (E : exists r fs',
             store_json_file sample_runtime (calm (sample_clock 5)) temp_a "a.json"
               (analyze_object [("id", JInt 1)]) [(temp_a, id_document_text)]
             = (Return (Stored r), fs'))
    by (eexists; eexists; vm_compute; reflexivity).
  destruct E as [r [fs' E]]; exists r, fs'.
  split; [exact E|].
  destruct (stored_name_embeds_fingerprint
              sample_runtime (calm (sample_clock 5)) temp_a "a.json"
              (analyze_object [("id", JInt 1)]) [(temp_a, id_document_text)]
              fs' r eq_refl E)
    as [data [stamp [prefix [Hfile [Hstamp [_ [Hprefix [_ [_ [Hname [Hholds _]]]]]]]]]]].
  injection Hfile as <-.
  subst stamp prefix.
  split; [rewrite Hname; vm_compute; reflexivity|].
  exact Hholds.
Defined.

(* ===================================================================== *)
(** ** Classification of a mapping *)
(* ===================================================================== *)

Lemma nested_value_spec (value : json) :
  (is_dict value && truthy value)
  || (is_list value && truthy value
      && existsb (fun item => is_dict item || is_list item)
                 (match value with JList items => items | _ => [] end)) = true
  <-> immediately_nested value.
Proof.
  unfold immediately_nested; destruct value as [| | | | |items|fields];
    cbn [is_dict is_list andb orb];
    try (split; [discriminate | intros [[f [H _]]|[i [H _]]]; discriminate]).
  - split.
    + intro H; right; exists items; split; [reflexivity|].
      apply andb_true_iff in H; destruct H as [_ H].
      apply existsb_exists in H; destruct H as [y [Hin Hy]].
      apply Exists_exists; exists y; split; [exact Hin|].
      apply orb_true_iff; exact Hy.
    + intros [[f [H _]]|[i [H Hex]]]; [discriminate|].
      injection H as <-.
      apply Exists_exists in Hex; destruct Hex as [y [Hin Hy]].
      apply andb_true_iff; split.
      * destruct items; [contradiction | reflexivity].
      * apply existsb_exists; exists y; split; [exact Hin|].
        apply orb_true_iff; exact Hy.
  - rewrite orb_false_r; split.
    + intro H; left; exists fields; split; [reflexivity|].
      destruct fields; discriminate.
    + intros [[f [H Hne]]|[i [H _]]]; [|discriminate].
      injection H as <-.
      destruct fields; [contradiction Hne; reflexivity | reflexivity].
Qed.

Lemma nesting_loop_spec (values : list json) :
  nesting_loop values = true <-> Exists immediately_nested values.
Proof.
  induction values as [|v vs IH]; simpl.
  - split; [discriminate | intro H; inversion H].
  - rewrite Exists_cons, <- IH, <- nested_value_spec.
    destruct (is_dict v && truthy v); simpl; [tauto|].
    destruct (is_list v && truthy v && _); simpl; [tauto|].
    split; [auto | intros [H|H]; [discriminate | exact H]].
Qed.

(** C2.  A mapping is classified nosql exactly when one of its first-level
    values is a non-empty mapping or a sequence with a mapping or sequence
    among its elements, and the verdict then reports the depth; every other
    mapping is classified sql, and the verdict lists its top-level keys in
    their order, which is what the schema record takes as columns.  No key
    count is looked at on this path: the flat mapping of sixty distinct keys
    c0 .. c59, none identifier-like, is classified sql, although the rule
    for sequences rejects that key set and a one-element sequence of the
    same mapping is classified nosql. *)
Theorem mapping_classification :
  (forall data : list (string * json),
      (recommendation (analyze_object data) = Nosql
       <-> Exists immediately_nested (map snd data))
      /\ (Exists immediately_nested (map snd data) ->
          analyze_object data
          = mkAnalysis Nosql
              ("Contains nested dictionary or list (depth: "
               ++ Str.of_nat (calculate_depth (JDict data) 0)
               ++ "), ideal for document storage.")
              None None (Some (calculate_depth (JDict data) 0)) None)
      /\ (~ Exists immediately_nested (map snd data) ->
          analyze_object data
          = mkAnalysis Sql "Flat structure, ideal for relational querying."
              None None None (Some (map fst data))
          /\ schema_columns (analyze_object data) = map fst data))
  /\ (let wide := flat_fields 60 in
      List.length (set_of (map fst wide)) = 60
      /\ existsb identifier_like (map fst wide) = false
      /\ recommendation (analyze_object wide) = Sql
      /\ keys (analyze_object wide) = Some (map fst wide)
      /\ is_sql_optimized [JDict wide] (set_of (map fst wide)) = false
      /\ forall rt, recommendation (analyze_array rt [JDict wide]) = Nosql).
Proof.
  split.
  - intro data.
    pose proof (nesting_loop_spec (map snd data)) as Hloop.
    unfold analyze_object.
    destruct (nesting_loop (map snd data)) eqn:E.
    + split; [split; [intros _; apply Hloop; reflexivity | reflexivity]|].
      split; [reflexivity|].
      intro Hn; contradiction Hn; apply Hloop; reflexivity.
    + assert (Hflat : ~ Exists immediately_nested (map snd data))
        by (intro H; apply Hloop in H; discriminate).
      split; [split; [discriminate | intro H; contradiction]|].
      split; [intro H; contradiction|].
      intros _; split; reflexivity.
  - repeat split; vm_compute; reflexivity.
Qed.

(* ===================================================================== *)
(** ** Classification of a sequence *)
(* ===================================================================== *)

Lemma set_mem_in (x : string) (s : pyset) : set_mem x s = true <-> In x s.
Proof.
  unfold set_mem; rewrite existsb_exists; split.
  - intros [y [Hin Hy]]; apply String.eqb_eq in Hy; subst; exact Hin.
  - intro H; exists x; split; [exact H | apply String.eqb_refl].
Qed.

Lemma set_eqb_same (a : list string) (b : pyset) :
  set_eqb (set_of a) b = true <-> same_keys a b.
Proof.
  unfold set_eqb, same_keys, set_of.
  rewrite andb_true_iff, !forallb_forall; split.
  - intros [Hab Hba] k; split; intro H.
    + apply set_mem_in, Hab, nodup_In; exact H.
    + apply (nodup_In string_dec), set_mem_in, Hba; exact H.
  - intro H; split; intros k Hk; apply set_mem_in.
    + apply H, (nodup_In string_dec); exact Hk.
    + apply nodup_In, H; exact Hk.
Qed.

Lemma existsb_orb {A} (f g : A -> bool) (l : list A) :
  existsb (fun x => f x || g x) l = existsb f l || existsb g l.
Proof.
  induction l as [|x l IH]; simpl; [reflexivity|].
  rewrite IH; destruct (f x), (g x), (existsb f l); reflexivity.
Qed.

(** [_is_sql_optimized] is the suitability rule over the program's notion
    of identifier-like key; it does not look at the sample. *)
Lemma is_sql_optimized_rule (sample : list json) (ks : pyset) :
  is_sql_optimized sample ks = sql_suitable identifier_like ks.
Proof.
  unfold is_sql_optimized, sql_suitable, identifier_like.
  rewrite existsb_orb, Nat.ltb_antisym.
  destruct (List.length ks <=? 50)%nat; reflexivity.
Qed.

Lemma analyze_array_nonempty (rt : runtime) (data : list json) :
  data <> [] ->
  analyze_array rt data
  = if negb (forallb is_dict (sample_of data)) then
      verdict Nosql "Array contains non-object items, lacks uniform structure"
    else if forallb (fun item => set_eqb (set_of (dict_keys item))
                                         (first_key_set data))
                    (sample_of data)
            && is_sql_optimized (sample_of data) (first_key_set data)
    then mkAnalysis Sql "Uniform structured data optimized for SQL"
                    (Some (List.length data))
                    (Some (list_of_set rt (first_key_set data))) None None
    else verdict Nosql
           "Variable structure or complex data, better for NoSQL batch insertion".
Proof. destruct data; [intro H; contradiction H; reflexivity | reflexivity]. Qed.

Lemma spec_sequence_class_nonempty (id_like : string -> bool) (data : list json) :
  data <> [] ->
  spec_sequence_class id_like data
  = if forallb is_dict (sample_of data)
       && forallb (fun item => set_eqb (set_of (dict_keys item))
                                       (first_key_set data))
                  (sample_of data)
       && sql_suitable id_like (first_key_set data)
    then Sql else Nosql.
Proof. destruct data; [intro H; contradiction H; reflexivity | reflexivity]. Qed.

Lemma relational_sequence_class (id_like : string -> bool) (data : list json) :
  relational_sequence id_like data <-> spec_sequence_class id_like data = Sql.
Proof.
  unfold relational_sequence.
  destruct data as [|x xs];
    [split; [intros [H _]; contradiction H; reflexivity | discriminate]|].
  rewrite spec_sequence_class_nonempty by discriminate.
  remember (x :: xs) as data eqn:Hdata.
  assert (H1 : Forall (fun item => is_dict item = true) (sample_of data)
               <-> forallb is_dict (sample_of data) = true)
    by (rewrite forallb_forall, Forall_forall; tauto).
  assert (H2 : Forall (fun item => same_keys (dict_keys item) (first_key_set data))
                      (sample_of data)
               <-> forallb (fun item => set_eqb (set_of (dict_keys item))
                                                (first_key_set data))
                           (sample_of data) = true).
  { rewrite forallb_forall, Forall_forall; split; intros H item Hin;
      apply set_eqb_same, H, Hin. }
  rewrite H1, H2.
  assert (Hne : data <> []) by (subst data; discriminate).
  destruct (forallb is_dict (sample_of data)),
           (forallb _ (sample_of data)),
           (sql_suitable id_like (first_key_set data)); simpl;
    split; try discriminate; try (intros [_ [? [? ?]]]; discriminate);
    intros _; auto.
Qed.

Lemma analyze_array_class (rt : runtime) (data : list json) :
  recommendation (analyze_array rt data)
  = spec_sequence_class identifier_like data.
Proof.
  destruct data as [|x xs]; [reflexivity|].
  rewrite analyze_array_nonempty by discriminate.
  unfold spec_sequence_class.
  rewrite is_sql_optimized_rule.
  destruct (forallb is_dict (sample_of (x :: xs))); cbn [negb andb];
    [|reflexivity].
  destruct (forallb _ (sample_of (x :: xs)) && sql_suitable _ _); reflexivity.
Qed.

Lemma analyze_array_nosql_fields (rt : runtime) (data : list json) :
  recommendation (analyze_array rt data) = Nosql ->
  columns (analyze_array rt data) = None
  /\ estimated_rows (analyze_array rt data) = None.
Proof.
  destruct data as [|x xs]; [split; reflexivity|].
  rewrite analyze_array_nonempty by discriminate.
  destruct (negb _); [split; reflexivity|].
  destruct (_ && _); [discriminate | split; reflexivity].
Qed.

Lemma identifier_like_spec (key : string) :
  identifier_like key = true
  <-> Str.lower key = "id" \/ Str.lower key = "_id"
      \/ Str.endswith "_id" key = true.
Proof.
  unfold identifier_like; cbn [existsb].
  rewrite orb_false_r, !orb_true_iff, !String.eqb_eq; tauto.
Qed.

Lemma sql_suitable_spec (id_like : string -> bool) (ks : pyset) :
  sql_suitable id_like ks = true
  <-> List.length ks <= 50
      /\ ((exists k, In k ks /\ id_like k = true) \/ List.length ks <= 20).
Proof.
  unfold sql_suitable.
  rewrite andb_true_iff, orb_true_iff, !Nat.leb_le, existsb_exists; tauto.
Qed.

(** C3, as the program has it.  The empty sequence is classified nosql; a
    sequence with a non-mapping among its first min(10, length) elements is
    classified nosql; a non-empty sequence whose sampled elements are all
    mappings with the key set of the first, when that key set is suitable,
    is classified sql with estimated_rows the length of the whole sequence
    and columns an arrangement of that key set; every other sequence is
    classified nosql and reports neither.  Suitable means at most 50 keys
    and either an identifier-like key or at most 20 keys, where a key is
    identifier-like when it is [id] or [_id] up to case or ends in [_id] as
    written. *)
Theorem sequence_classification :
  forall (rt : runtime) (data : list json),
    analyze_array rt [] = verdict Nosql "Empty array"
    /\ sample_of data = firstn (Nat.min 10 (List.length data)) data
    /\ (Exists (fun item => is_dict item = false) (sample_of data) ->
        analyze_array rt data
        = verdict Nosql "Array contains non-object items, lacks uniform structure")
    /\ (relational_sequence identifier_like data ->
        analyze_array rt data
        = mkAnalysis Sql "Uniform structured data optimized for SQL"
            (Some (List.length data))
            (Some (list_of_set rt (first_key_set data))) None None
        /\ Permutation (list_of_set rt (first_key_set data)) (first_key_set data)
        /\ same_keys (dict_keys (nth 0 data JNull))
                     (list_of_set rt (first_key_set data)))
    /\ (~ relational_sequence identifier_like data ->
        recommendation (analyze_array rt data) = Nosql
        /\ columns (analyze_array rt data) = None
        /\ estimated_rows (analyze_array rt data) = None)
    /\ (forall ks,
          sql_suitable identifier_like ks = true
          <-> List.length ks <= 50
              /\ ((exists k, In k ks /\ identifier_like k = true)
                  \/ List.length ks <= 20))
    /\ (forall key,
          identifier_like key = true
          <-> Str.lower key = "id" \/ Str.lower key = "_id"
              \/ Str.endswith "_id" key = true).
Proof.
  intros rt data.
  split; [reflexivity|].
  split; [reflexivity|].
  split.
  { intro Hex.
    assert (Hne : data <> []) by (intro; subst data; inversion Hex).
    rewrite analyze_array_nonempty by exact Hne.
    destruct (forallb is_dict (sample_of data)) eqn:E; [|reflexivity].
    rewrite forallb_forall in E; apply Exists_exists in Hex.
    destruct Hex as [item [Hin Hno]]; rewrite (E item Hin) in Hno; discriminate. }
  split.
  { intro Hrel.
    pose proof Hrel as [Hne [Hdicts [Hsame Hsuit]]].
    assert (E1 : forallb is_dict (sample_of data) = true)
      by (apply forallb_forall; rewrite Forall_forall in Hdicts; exact Hdicts).
    assert (E2 : forallb (fun item => set_eqb (set_of (dict_keys item))
                                              (first_key_set data))
                         (sample_of data) = true).
    { apply forallb_forall; intros item Hin; apply set_eqb_same.
      rewrite Forall_forall in Hsame; apply Hsame; exact Hin. }
    rewrite analyze_array_nonempty by exact Hne.
    rewrite E1, E2, is_sql_optimized_rule, Hsuit.
    split; [reflexivity|].
    split; [apply list_of_set_perm|].
    intro k.
    assert (Hfirst : nth 0 (sample_of data) JNull = nth 0 data JNull).
    { unfold sample_of; destruct data as [|x xs]; [reflexivity|].
      destruct xs; reflexivity. }
    unfold first_key_set, set_of; rewrite Hfirst.
    rewrite <- (nodup_In string_dec).
    split; intro Hk.
    - apply Permutation_in with (l := nodup string_dec (dict_keys (nth 0 data JNull)));
        [apply Permutation_sym, list_of_set_perm | exact Hk].
    - apply Permutation_in with (l := list_of_set rt (nodup string_dec (dict_keys (nth 0 data JNull))));
        [apply list_of_set_perm | exact Hk]. }
  split.
  { intro Hnot.
    assert (Hclass : recommendation (analyze_array rt data) = Nosql).
    { rewrite analyze_array_class.
      destruct (spec_sequence_class identifier_like data) eqn:E; [|reflexivity].
      apply relational_sequence_class in E; contradiction. }
    split; [exact Hclass | apply analyze_array_nosql_fields; exact Hclass]. }
  split; [intro ks; apply sql_suitable_spec | intro key; apply identifier_like_spec].
Qed.

(** The sequence rule as worded in the design document fails on two keys.
    A single mapping with the 21 keys [_ID], c0 .. c19 is classified sql by
    the program, since [_ID] is [_id] up to case; under the worded rule no
    key is [id] up to case or ends in [_id], and 21 exceeds 20.  Reading
    the ending up to case as well does not help: a single mapping with the
    21 keys [USER_ID], c0 .. c19 is classified nosql by the program and sql
    by that reading. *)
Lemma sequence_rule_counterexample :
  recommendation
    (analyze_array sample_runtime [JDict (("_ID", JInt 0) :: flat_fields 20)])
  = Sql
  /\ spec_sequence_class spec_identifier_like
       [JDict (("_ID", JInt 0) :: flat_fields 20)] = Nosql
  /\ recommendation
       (analyze_array sample_runtime [JDict (("USER_ID", JInt 0) :: flat_fields 20)])
     = Nosql
  /\ spec_sequence_class spec_identifier_like_nocase
       [JDict (("USER_ID", JInt 0) :: flat_fields 20)] = Sql.
Proof. repeat split; vm_compute; reflexivity. Qed.

(* ===================================================================== *)
(** ** The depth routine *)
(* ===================================================================== *)

(** The loop of [_calculate_depth] is a fold of [deepen]. *)
Lemma calculate_depth_dict (fields : list (string * json)) (d : nat) :
  calculate_depth (JDict fields) d = fold_left (deepen d) fields d.
Proof.
  cbn [calculate_depth].
  match goal with
  | |- ?loop fields d = _ =>
      assert (H : forall items acc, loop items acc = fold_left (deepen d) items acc)
  end.
  { induction items as [|[k v] items IH]; intro acc; [reflexivity|].
    cbn [fold_left]; rewrite <- IH.
    unfold deepen, child_depth; cbn [snd].
    destruct v as [| | | | |[|[] ?]|]; reflexivity. }
  apply H.
Qed.

Lemma calculate_depth_leaf (obj : json) (d : nat) :
  is_dict obj = false -> calculate_depth obj d = d.
Proof. destruct obj; try reflexivity; discriminate. Qed.

Lemma deepen_ge_acc (d : nat) (l : list (string * json)) (acc : nat) :
  acc <= fold_left (deepen d) l acc.
Proof.
  revert acc; induction l as [|item l IH]; intro acc; simpl; [lia|].
  specialize (IH (deepen d acc item)).
  unfold deepen in *; destruct (child_depth (snd item) d); lia.
Qed.

Lemma deepen_ge_child (d : nat) (l : list (string * json)) (acc : nat)
      (item : string * json) (n : nat) :
  In item l -> child_depth (snd item) d = Some n ->
  n <= fold_left (deepen d) l acc.
Proof.
  revert acc; induction l as [|x l IH]; intros acc Hin Hn; [contradiction|].
  simpl; destruct Hin as [->|Hin]; [|apply IH; assumption].
  pose proof (deepen_ge_acc d l (deepen d acc item)) as H.
  assert (Hstep : n <= deepen d acc item) by (unfold deepen; rewrite Hn; lia).
  lia.
Qed.

Lemma deepen_attained (d : nat) (l : list (string * json)) (acc : nat) :
  fold_left (deepen d) l acc = acc
  \/ exists item n,
       In item l /\ child_depth (snd item) d = Some n
       /\ fold_left (deepen d) l acc = n.
Proof.
  revert acc; induction l as [|x l IH]; intro acc; simpl; [left; reflexivity|].
  destruct (IH (deepen d acc x)) as [Heq|[item [n [Hin [Hn Heq]]]]].
  - rewrite Heq; unfold deepen.
    destruct (child_depth (snd x) d) as [n|] eqn:E; [|left; reflexivity].
    destruct (Nat.max_dec acc n) as [Hm|Hm]; rewrite Hm;
      [left; reflexivity | right; exists x, n; auto].
  - right; exists item, n; auto.
Qed.

(** The nodes the loop descends into are the children of the mapping. *)
Lemma child_depth_descends (fields : list (string * json))
      (item : string * json) (d n : nat) :
  In item fields -> child_depth (snd item) d = Some n ->
  exists child,
    descends (JDict fields) child /\ n = calculate_depth child (S d).
Proof.
  destruct item as [k v]; cbn [snd]; intros Hin Hn.
  destruct v as [| | | | |[|[| | | | | |sub] others]|sub]; try discriminate;
    injection Hn as <-.
  - exists (JDict sub); split; [eapply descend_first; exact Hin | reflexivity].
  - exists (JDict sub); split; [eapply descend_value; exact Hin | reflexivity].
Qed.

Lemma descends_child_depth (fields : list (string * json)) (child : json)
      (d : nat) :
  descends (JDict fields) child ->
  exists item,
    In item fields
    /\ child_depth (snd item) d = Some (calculate_depth child (S d)).
Proof.
  intro H; inversion H; subst.
  - exists (k, JDict sub); split; [assumption | reflexivity].
  - exists (k, JList (JDict sub :: others)); split; [assumption | reflexivity].
Qed.

Lemma descends_from_dict (node child : json) :
  descends node child -> is_dict node = true.
Proof. intro H; inversion H; reflexivity. Qed.

(** The depth routine returns the call depth plus the length of the longest
    chain of descents below the node. *)
Lemma depth_is_longest_descent (obj : json) :
  forall d,
    d <= calculate_depth obj d
    /\ descent obj (calculate_depth obj d - d)
    /\ forall n, descent obj n -> d + n <= calculate_depth obj d.
Proof.
  pose (P := fun obj => forall d,
                 d <= calculate_depth obj d
                 /\ descent obj (calculate_depth obj d - d)
                 /\ forall n, descent obj n -> d + n <= calculate_depth obj d).
  assert (Hleaf : forall node, is_dict node = false -> P node).
  { intros node Hnode d; rewrite (calculate_depth_leaf node d Hnode).
    split; [lia|].
    split; [rewrite Nat.sub_diag; constructor|].
    intros n Hn; inversion Hn as [|? child m Hstep _]; subst; [lia|].
    apply descends_from_dict in Hstep; rewrite Hstep in Hnode; discriminate. }
  cut (P obj /\ match obj with JList (x :: _) => P x | _ => True end);
    [intros [H _]; exact H|].
  induction obj as [| | | | |items IH|fields IH] using json_nested_ind;
    try (split; [apply Hleaf; reflexivity | exact I]).
  - split; [apply Hleaf; reflexivity|].
    destruct items as [|x items]; [exact I|].
    inversion IH as [|? ? [Hx _] _]; exact Hx.
  - split; [|exact I].
    assert (Hchild : forall child, descends (JDict fields) child -> P child).
    { intros child Hstep; rewrite Forall_forall in IH.
      inversion Hstep as [? k sub Hin|? k sub others Hin]; subst.
      - exact (proj1 (IH _ Hin)).
      - exact (proj2 (IH _ Hin)). }
    intro d; rewrite calculate_depth_dict.
    split; [apply deepen_ge_acc|].
    split.
    + destruct (deepen_attained d fields d) as [Heq|[item [n [Hin [Hn Heq]]]]];
        rewrite Heq; [rewrite Nat.sub_diag; constructor|].
      destruct (child_depth_descends _ _ _ _ Hin Hn) as [child [Hstep ->]].
      destruct (Hchild child Hstep (S d)) as [Hge [Hchain _]].
      replace (calculate_depth child (S d) - d)
        with (S (calculate_depth child (S d) - S d)) by lia.
      apply descent_step with child; assumption.
    + intros n Hn; inversion Hn as [|? child m Hstep Hrest]; subst.
      * pose proof (deepen_ge_acc d fields d); lia.
      * destruct (descends_child_depth fields child d Hstep) as [item [Hin Hd]].
        pose proof (deepen_ge_child d fields d item _ Hin Hd) as Hle.
        destruct (Hchild child Hstep (S d)) as [_ [_ Hmax]].
        specialize (Hmax m Hrest); lia.
Qed.

(** Only the first element of a sequence is looked at. *)
Lemma depth_ignores_later_elements (before after : list (string * json))
      (k : string) (x : json) (rest rest' : list json) (d : nat) :
  calculate_depth (JDict (before ++ (k, JList (x :: rest)) :: after)) d
  = calculate_depth (JDict (before ++ (k, JList (x :: rest')) :: after)) d.
Proof.
  rewrite !calculate_depth_dict, !fold_left_app; cbn [fold_left].
  replace (deepen d (fold_left (deepen d) before d) (k, JList (x :: rest)))
    with (deepen d (fold_left (deepen d) before d) (k, JList (x :: rest')));
    [reflexivity|].
  unfold deepen, child_depth; cbn [snd]; destruct x; reflexivity.
Qed.

(** C8.  The nesting depth reported for a nested mapping is what
    [_calculate_depth] returns at call depth 0.  At any call depth, the
    routine returns the call depth itself for a node that is not a mapping;
    for a mapping it keeps the maximum of the call depth and of what each
    value contributes, where a mapping value contributes its own depth one
    level down, and a sequence value contributes through its first element
    alone (replacing the later elements changes nothing).  In all, the
    result is the call depth plus the length of the longest chain of such
    descents below the node. *)
Theorem depth_follows_first_elements :
  forall (obj : json) (d : nat),
    (is_dict obj = false -> calculate_depth obj d = d)
    /\ (forall fields,
          obj = JDict fields ->
          calculate_depth obj d = fold_left (deepen d) fields d)
    /\ (forall sub, child_depth (JDict sub) d
                    = Some (calculate_depth (JDict sub) (S d)))
    /\ (forall first others,
          child_depth (JList (first :: others)) d
          = if is_dict first then Some (calculate_depth first (S d)) else None)
    /\ (forall before after k x rest rest',
          calculate_depth (JDict (before ++ (k, JList (x :: rest)) :: after)) d
          = calculate_depth (JDict (before ++ (k, JList (x :: rest')) :: after)) d)
    /\ d <= calculate_depth obj d
    /\ descent obj (calculate_depth obj d - d)
    /\ (forall n, descent obj n -> d + n <= calculate_depth obj d)
    /\ (forall data,
          Exists immediately_nested (map snd data) ->
          nesting_level (analyze_object data)
          = Some (calculate_depth (JDict data) 0)).
Proof.
  intros obj d.
  split; [apply calculate_depth_leaf|].
  split; [intros fields ->; apply calculate_depth_dict|].
  split; [reflexivity|].
  split; [intros first others; destruct first; reflexivity|].
  split; [intros; apply depth_ignores_later_elements|].
  destruct (depth_is_longest_descent obj d) as [H1 [H2 H3]].
  repeat (split; [assumption|]).
  intros data Hnested; apply nesting_loop_spec in Hnested.
  unfold analyze_object; rewrite Hnested; reflexivity.
Qed.

(* ===================================================================== *)
(** ** Placement: the side-records *)
(* ===================================================================== *)

Lemma append_length (a b : string) :
  String.length (a ++ b) = String.length a + String.length b.
Proof. induction a as [|c a IH]; simpl; [|rewrite IH]; reflexivity. Qed.

Lemma append_cancel (a x y : string) : a ++ x = a ++ y -> x = y.
Proof.
  induction a as [|c a IH]; simpl; intro H; [exact H|].
  injection H as H; exact (IH H).
Qed.

(** At the index [rfind] returns stands the last occurrence. *)
Lemma rfind_last (c : ascii) (s : string) (i : nat) :
  Str.rfind c s = Some i ->
  exists rest, Str.drop i s = String c rest /\ Str.rfind c rest = None.
Proof.
  revert i; induction s as [|a s IH]; intros i; simpl; [discriminate|].
  destruct (Str.rfind c s) as [j|] eqn:E.
  - intro H; injection H as <-; simpl; apply IH; reflexivity.
  - destruct (Ascii.eqb a c) eqn:Ea; [|discriminate].
    intro H; injection H as <-; apply Ascii.eqb_eq in Ea; subst a.
    exists s; split; [reflexivity | exact E].
Qed.

(** The metadata record never takes the name of its document. *)
Lemma stem_meta_neq (n : string) : PurePath.stem n ++ ".meta.json" <> n.
Proof.
  unfold PurePath.stem.
  assert (Hlong : n ++ ".meta.json" <> n).
  { intro H; apply (f_equal String.length) in H.
    rewrite append_length in H; simpl in H; lia. }
  destruct (Str.rfind "." n) as [i|] eqn:E; [|exact Hlong].
  destruct ((0 <? i) && (i <? String.length n - 1))%nat; [|exact Hlong].
  intro H.
  rewrite <- (take_app_drop i n) in H at 2.
  apply append_cancel in H.
  destruct (rfind_last _ _ _ E) as [rest [Hdrop Hnone]].
  rewrite Hdrop in H; injection H as <-.
  vm_compute in Hnone; discriminate.
Qed.

Lemma bucket_not_temp (c : storage_class) : bucket_dir c <> TempDir.
Proof. destruct c; discriminate. Qed.

Lemma bucket_not_schema (c : storage_class) : bucket_dir c <> SchemaDir.
Proof. destruct c; discriminate. Qed.

Lemma path_neq_parent (p q : path) : parent p <> parent q -> p <> q.
Proof. intros H Heq; subst q; contradiction H; reflexivity. Qed.

(** The four paths a placement touches are distinct. *)
Lemma placement_paths_distinct (c : storage_class) (p : path) (stored : string) :
  parent p = TempDir ->
  let final := mkPath (bucket_dir c) stored in
  let meta := metadata_path_of (bucket_dir c) stored in
  let schema := schema_path_of stored in
  final <> p /\ meta <> p /\ schema <> p
  /\ meta <> final /\ schema <> final /\ schema <> meta.
Proof.
  intros Htemp final meta schema.
  pose proof (bucket_not_temp c) as Ht.
  pose proof (bucket_not_schema c) as Hs.
  repeat split.
  - apply path_neq_parent; simpl; rewrite Htemp; exact Ht.
  - apply path_neq_parent; simpl; rewrite Htemp; exact Ht.
  - apply path_neq_parent; simpl; rewrite Htemp; discriminate.
  - intro H; injection H as H; exact (stem_meta_neq stored H).
  - apply path_neq_parent; simpl; auto.
  - apply path_neq_parent; simpl; auto.
Qed.

(** What a tree holds after a placement. *)
Lemma tree_after_placement_lookup (rt : runtime) (env : io_env) (a : analysis)
      (original data : string) (p : path) (stored : string) (fs : filesystem) :
  parent p = TempDir ->
  let bucket := bucket_dir (recommendation a) in
  let fs' := tree_after_placement rt env a original data p stored fs in
  lookup fs' p = None
  /\ lookup fs' (mkPath bucket stored) = Some data
  /\ lookup fs' (metadata_path_of bucket stored)
     = Some (dump_metadata rt (metadata_of env a original data))
  /\ lookup fs' (schema_path_of stored)
     = Some (dump_schema rt (schema_of env a original))
  /\ (forall q,
        q <> p -> q <> mkPath bucket stored ->
        q <> metadata_path_of bucket stored -> q <> schema_path_of stored ->
        lookup fs' q = lookup fs q).
Proof.
  intros Htemp bucket fs'.
  destruct (placement_paths_distinct (recommendation a) p stored Htemp)
    as [Hfp [Hmp [Hsp [Hmf [Hsf Hsm]]]]].
  unfold fs', tree_after_placement; fold bucket.
  split.
  { rewrite !lookup_write_other by assumption. apply lookup_remove_same. }
  split.
  { rewrite !lookup_write_other by assumption. apply lookup_write_same. }
  split.
  { rewrite lookup_write_other by assumption. apply lookup_write_same. }
  split; [apply lookup_write_same|].
  intros q Hqp Hqf Hqm Hqs.
  rewrite !lookup_write_other by (apply not_eq_sym; assumption).
  apply lookup_remove_other; apply not_eq_sym; assumption.
Qed.

(** C6.  When the relocation of a new payload into its bucket fails, the
    placement removes the temporary payload and returns a result with
    success = false that carries the error.  No record is written, and every
    file other than the temporary payload and the destination is as before.
    The destination is as before when the failure came before it was
    opened; otherwise it holds the bytes the failed copy had written, a
    truncated entry without records that the placement does not remove. *)
Theorem relocation_failure_cleans_up :
  forall (rt : runtime) (env : io_env) (file_path : path) (original : string)
         (a : analysis) (fs : filesystem) (data : string) (f : os_fault),
    parent file_path = TempDir ->
    lookup fs file_path = Some data ->
    check_duplicate (MD5.hexdigest data) (recommendation a) fs = (Return "", fs) ->
    move_fault env = Some f ->
    let bucket := bucket_dir (recommendation a) in
    let stored := new_name_of original (strftime_stamp (now_name env))
                              (MD5.hexdigest data) in
    let final := mkPath bucket stored in
    exists fs',
      store_json_file rt env file_path original a fs
      = (Return (Failed (fault_msg f)), fs')
      /\ success (Failed (fault_msg f)) = false
      /\ lookup fs' file_path = None
      /\ (forall p, p <> file_path -> p <> final -> lookup fs' p = lookup fs p)
      /\ lookup fs' (metadata_path_of bucket stored)
         = lookup fs (metadata_path_of bucket stored)
      /\ lookup fs' (schema_path_of stored) = lookup fs (schema_path_of stored)
      /\ lookup fs' final = match fault_written f with
                            | None => lookup fs final
                            | Some n => Some (Str.take n data)
                            end
      /\ (fault_written f = None -> fs' = remove file_path fs).
Proof.
  intros rt env p original a fs data f Htemp Hfile Hcheck Hfault
         bucket stored final.
  apply check_duplicate_answer in Hcheck.
  destruct (placement_paths_distinct (recommendation a) p stored Htemp)
    as [Hfp [Hmp [Hsp [Hmf [Hsf _]]]]];
    fold bucket in Hfp, Hmp, Hmf, Hsf; fold final in Hfp, Hmf, Hsf.
  eexists; split;
    [exact (store_json_file_move_fault rt env p original a fs data f
              Hfile Hcheck Hfault)|].
  fold bucket; fold stored; fold final.
  assert (Hframe : forall q, q <> p -> q <> final ->
            lookup (remove p (partial_write f final data fs)) q = lookup fs q).
  { intros q Hqp Hqf.
    rewrite lookup_remove_other by auto.
    apply lookup_partial_write_other; auto. }
  split; [reflexivity|].
  split; [apply lookup_remove_same|].
  split; [exact Hframe|].
  split; [apply Hframe; assumption|].
  split; [apply Hframe; assumption|].
  split.
  - rewrite lookup_remove_other by auto.
    apply lookup_partial_write_same.
  - intro Hnone; unfold partial_write; rewrite Hnone; reflexivity.
Qed.

(** The bucket cannot be written when the payload is to be moved. *)
Lemma relocation_failure_cleans_up_witness :
  store_json_file sample_runtime (bucket_locked (sample_clock 5)) temp_a "a.json"
    (analyze_object [("id", JInt 1)]) [(temp_a, id_document_text)]
  = (Return (Failed "[Errno 13] Permission denied"), []).
Proof.
  destruct (relocation_failure_cleans_up
              sample_runtime (bucket_locked (sample_clock 5)) temp_a "a.json"
              (analyze_object [("id", JInt 1)]) [(temp_a, id_document_text)]
              id_document_text (mkFault "[Errno 13] Permission denied" None)
              eq_refl eq_refl ltac:(vm_compute; reflexivity) eq_refl)
    as [fs' [Hrun [_ [_ [_ [_ [_ [_ Hsame]]]]]]]].
  rewrite Hrun, (Hsame eq_refl); reflexivity.
Defined.

(** A failed relocation can leave a partly written entry in the bucket.
    When the move of the payload [{"id": 1}] has to copy it and the disk is
    full, the placement answers with the failure and removes the temporary
    payload, and the bucket is left with an entry under the stored name that
    holds none of the nine bytes and has no record beside it. *)
Lemma failed_copy_counterexample :
  store_json_file sample_runtime (disk_full (sample_clock 5)) temp_a "a.json"
    (analyze_object [("id", JInt 1)]) [(temp_a, id_document_text)]
  = (Return (Failed "[Errno 28] No space left on device"),
     [(mkPath SqlDir "a_20240102_030405_f3e56c60.json", "")])
  /\ String.length id_document_text = 9.
Proof. split; vm_compute; reflexivity. Qed.

Lemma schema_columns_object (data : list (string * json)) :
  (~ Exists immediately_nested (map snd data) ->
   schema_columns (analyze_object data) = map fst data)
  /\ (Exists immediately_nested (map snd data) ->
      schema_columns (analyze_object data) = []).
Proof.
  pose proof (nesting_loop_spec (map snd data)) as Hloop.
  unfold analyze_object; destruct (nesting_loop (map snd data)).
  - split; [intro H; contradiction H; apply Hloop; reflexivity | reflexivity].
  - split; [reflexivity | intro H; apply Hloop in H; discriminate].
Qed.

Lemma schema_columns_array (rt : runtime) (items : list json) :
  (relational_sequence identifier_like items ->
   schema_columns (analyze_array rt items) = list_of_set rt (first_key_set items)
   /\ Permutation (schema_columns (analyze_array rt items)) (first_key_set items))
  /\ (~ relational_sequence identifier_like items ->
      schema_columns (analyze_array rt items) = []).
Proof.
  split.
  - intro Hrel.
    assert (Hclass : recommendation (analyze_array rt items) = Sql)
      by (rewrite analyze_array_class; apply relational_sequence_class; exact Hrel).
    destruct Hrel as [Hne _]; revert Hclass.
    rewrite analyze_array_nonempty by exact Hne.
    destruct (negb _); [discriminate|].
    destruct (_ && _); [|discriminate].
    intros _; split; [reflexivity | apply list_of_set_perm].
  - intro Hnot.
    assert (Hclass : recommendation (analyze_array rt items) = Nosql).
    { rewrite analyze_array_class.
      destruct (spec_sequence_class identifier_like items) eqn:E; [|reflexivity].
      apply relational_sequence_class in E; contradiction. }
    destruct (analyze_array_nosql_fields rt items Hclass) as [Hcols _].
    unfold schema_columns; rewrite Hcols.
    destruct items as [|x xs]; [reflexivity|].
    revert Hclass; rewrite analyze_array_nonempty by discriminate.
    destruct (negb _); [reflexivity|].
    destruct (_ && _); [discriminate | reflexivity].
Qed.

(** C9, as the program has it.  A placement that answers "stored" for a
    temporary payload has moved the payload into the bucket of its class and
    has written exactly two records: the metadata record beside the
    document, and the schema record in the schema directory, both named by
    the stem of the stored name; the temporary file is gone and every other
    file is as before.  The columns of the schema record are those of the
    verdict: for a flat mapping its top-level keys in their order; for a
    sequence classified sql the key set of its first element in the order
    the set lists it; for every verdict nosql the empty list. *)
Theorem placement_writes_both_records :
  forall (rt : runtime) (env : io_env) (file_path : path) (original : string)
         (a : analysis) (fs fs' : filesystem) (r : stored_info),
    parent file_path = TempDir ->
    store_json_file rt env file_path original a fs = (Return (Stored r), fs') ->
    let bucket := bucket_dir (recommendation a) in
    let final := mkPath bucket (stored_name r) in
    let meta := mkPath bucket (PurePath.stem (stored_name r) ++ ".meta.json") in
    let schema :=
      mkPath SchemaDir (PurePath.stem (stored_name r) ++ ".schema.json") in
    (exists data,
        lookup fs file_path = Some data
        /\ final_path r = path_str final
        /\ lookup fs' file_path = None
        /\ lookup fs' final = Some data
        /\ lookup fs' meta = Some (dump_metadata rt (metadata_of env a original data))
        /\ lookup fs' schema = Some (dump_schema rt (schema_of env a original))
        /\ (forall q,
              q <> file_path -> q <> final -> q <> meta -> q <> schema ->
              lookup fs' q = lookup fs q))
    /\ s_columns (schema_of env a original) = schema_columns a
    /\ (forall data,
          (~ Exists immediately_nested (map snd data) ->
           schema_columns (analyze_object data) = map fst data)
          /\ (Exists immediately_nested (map snd data) ->
              schema_columns (analyze_object data) = []))
    /\ (forall rt' items,
          (relational_sequence identifier_like items ->
           schema_columns (analyze_array rt' items)
           = list_of_set rt' (first_key_set items)
           /\ Permutation (schema_columns (analyze_array rt' items))
                          (first_key_set items))
          /\ (~ relational_sequence identifier_like items ->
              schema_columns (analyze_array rt' items) = []))
    /\ (forall why, schema_columns (verdict Nosql why) = []).
Proof.
  intros rt env p original a fs fs' r Htemp Hrun bucket final meta schema.
  destruct (store_json_file_stored _ _ _ _ _ _ _ _ Hrun)
    as [data [Hfile [_ [Hr Hfs]]]].
  split.
  { exists data.
    pose proof (tree_after_placement_lookup rt env a original data p
                  (stored_name r) fs Htemp) as Htree.
    assert (Hname : stored_name r
                    = new_name_of original (strftime_stamp (now_name env))
                                  (MD5.hexdigest data))
      by (rewrite Hr; reflexivity).
    rewrite <- Hname in Hfs; rewrite <- Hfs in Htree.
    destruct Htree as [H1 [H2 [H3 [H4 H5]]]].
    split; [exact Hfile|].
    split; [unfold final, bucket; rewrite Hr; reflexivity|].
    repeat (split; [assumption|]).
    exact H5. }
  split; [reflexivity|].
  split; [apply schema_columns_object|].
  split; [apply schema_columns_array|].
  reflexivity.
Qed.

(** The document [{"id": 1}] declared as [a.json]: its schema record lists
    the column [id]. *)
Lemma placement_writes_both_records_witness :
  exists r fs',
    store_json_file sample_runtime (calm (sample_clock 5)) temp_a "a.json"
      (analyze_object [("id", JInt 1)]) [(temp_a, id_document_text)]
    = (Return (Stored r), fs')
    /\ lookup fs' (mkPath SchemaDir (PurePath.stem (stored_name r) ++ ".schema.json"))
       = Some (dump_schema sample_runtime
                 (mkSchema "a.json" "sql" ["id"]
                    "Flat structure, ideal for relational querying."
                    "2024-01-02T03:04:05")).
Proof.
  assert (E : exists r fs',
             store_json_file sample_runtime (calm (sample_clock 5)) temp_a "a.json"
               (analyze_object [("id", JInt 1)]) [(temp_a, id_document_text)]
             = (Return (Stored r), fs'))
    by (eexists; eexists; vm_compute; reflexivity).
  destruct E as [r [fs' E]]; exists r, fs'.
  split; [exact E|].
  destruct (placement_writes_both_records
              sample_runtime (calm (sample_clock 5)) temp_a "a.json"
              (analyze_object [("id", JInt 1)]) [(temp_a, id_document_text)]
              fs' r eq_refl E)
    as [[data [_ [_ [_ [_ [_ [Hschema _]]]]]]] _].
  exact Hschema.
Defined.

(** The columns of the schema record are not always the field names of the
    document in their order.  The nested mapping
    [{"id": 1, "meta": {"tags": ["x"]}}] is stored with a schema record
    whose columns are empty, although its field names are [id], [meta]; and
    for the rows [[{"id": 1, "v": "a"}, {"id": 2, "v": "b"}]] a runtime whose
    sets list the last element first gives the columns [v], [id]. *)
Lemma schema_columns_counterexample :
  fst (store_json_file sample_runtime (calm (sample_clock 5)) temp_a "a.json"
         (analyze_object nested_fields) [(temp_a, nested_text)])
  = Return (Stored
              (mkStored "a.json" "a_20240102_030405_d9606f78.json" "NoSQL"
                 "app/storage/databases/nosql/a_20240102_030405_d9606f78.json"
                 "Contains nested dictionary or list (depth: 1), ideal for document storage."
                 "d9606f78a61a0430bcf964d86f19093e" "20240102_030405"))
  /\ lookup
       (snd (store_json_file sample_runtime (calm (sample_clock 5)) temp_a "a.json"
               (analyze_object nested_fields) [(temp_a, nested_text)]))
       (mkPath SchemaDir "a_20240102_030405_d9606f78.schema.json")
     = Some (dump_schema sample_runtime
               (mkSchema "a.json" "nosql" []
                  "Contains nested dictionary or list (depth: 1), ideal for document storage."
                  "2024-01-02T03:04:05"))
  /\ field_names (JDict nested_fields) = ["id"; "meta"]
  /\ recommendation (analyze_array reversing_runtime two_rows) = Sql
  /\ schema_columns (analyze_array reversing_runtime two_rows) = ["v"; "id"]
  /\ field_names (JList two_rows) = ["id"; "v"].
Proof. repeat split; vm_compute; reflexivity. Qed.

(* ===================================================================== *)
(** ** Two uploads of the same payload *)
(* ===================================================================== *)

(** C1 fails on the program.  The payload [{"id": 1}] is uploaded twice as
    [a.json] into an empty tree, one second apart.  The first upload stores
    it under a name that holds the first eight digits of its digest.  The
    lookup of the second upload searches the names for all 32 digits, finds
    none, and the payload is stored again: the answer is not flagged as
    duplicate, and the sql bucket ends with two documents, two metadata
    records and two schema records.  When both uploads fall into the same
    second the second one overwrites the first under the same name, and is
    not flagged as duplicate either. *)
Theorem second_upload_is_stored_again :
  let upload := upload_json sample_runtime in
  let first := upload (calm (sample_clock 5)) "a.json" id_document_text [] in
  let second := upload (calm (sample_clock 6)) "a.json" id_document_text (snd first) in
  let again := upload (calm (sample_clock 5)) "a.json" id_document_text (snd first) in
  answered_ok (fst first) = true
  /\ map name (documents_of Sql (snd first)) = ["a_20240102_030405_f3e56c60.json"]
  /\ MD5.hexdigest id_document_text = id_digest
  /\ Str.contains (Str.take 8 id_digest) "a_20240102_030405_f3e56c60.json" = true
  /\ Str.contains id_digest "a_20240102_030405_f3e56c60.json" = false
  /\ fst (check_duplicate id_digest Sql (snd first)) = Return ""
  /\ answered_ok (fst second) = true
  /\ answered_duplicate (fst second) = false
  /\ map name (documents_of Sql (snd second))
     = ["a_20240102_030405_f3e56c60.json"; "a_20240102_030406_f3e56c60.json"]
  /\ List.length (metadata_records_of Sql (snd second)) = 2
  /\ List.length (schema_records (snd second)) = 2
  /\ answered_ok (fst again) = true
  /\ answered_duplicate (fst again) = false
  /\ map name (documents_of Sql (snd again)) = ["a_20240102_030405_f3e56c60.json"].
Proof. repeat split; vm_compute; reflexivity. Qed.

(* ===================================================================== *)
(** ** Why the lookup misses what placement stored *)
(* ===================================================================== *)

Lemma append_assoc (a b c : string) : (a ++ b) ++ c = a ++ b ++ c.
Proof. induction a as [|x a IH]; simpl; [|rewrite IH]; reflexivity. Qed.

Lemma append_empty (a : string) : a ++ "" = a.
Proof. induction a as [|x a IH]; simpl; [|rewrite IH]; reflexivity. Qed.









Lemma suffix_shape (n : string) :
  PurePath.suffix n = "" \/ exists rest, PurePath.suffix n = String "." rest.
Proof.
  unfold PurePath.suffix.
  destruct (Str.rfind "." n) as [i|] eqn:E; [|left; reflexivity].
  destruct ((0 <? i) && (i <? String.length n - 1))%nat; [|left; reflexivity].
  destruct (rfind_last _ _ _ E) as [rest [Hdrop _]].
  right; exists rest; exact Hdrop.
Qed.





Lemma path_str_nonempty (p : path) : path_str p <> "".
Proof. destruct p as [[] n]; discriminate. Qed.


Lemma in_listdir (d : dir) (fs : filesystem) (f : path) :
  In f (listdir d fs) <-> In f (map fst fs) /\ parent f = d.
Proof. unfold listdir; rewrite filter_In, dir_eqb_eq; tauto. Qed.






(* ===================================================================== *)
(** ** Further properties of the duplicate lookup and of placement *)
(* ===================================================================== *)


Lemma scan_duplicates_filter (digest : string) (files : list path) :
  scan_duplicates digest files
  = match filter (fun p => Str.contains digest (name p))
                 (filter (fun p => Str.endswith ".json" (name p)
                                   && negb (Str.endswith ".meta.json" (name p)
                                            || Str.endswith ".schema.json" (name p)))
                         files) with
    | [] => ""
    | found :: _ => path_str found
    end.
Proof.
  induction files as [|f files IH]; [reflexivity|].
  cbn [scan_duplicates filter].
  destruct (Str.endswith ".json" (name f)
            && negb (Str.endswith ".meta.json" (name f)
                     || Str.endswith ".schema.json" (name f))); [|exact IH].
  cbn [filter]; destruct (Str.contains digest (name f)); [reflexivity | exact IH].
Qed.

(** The duplicate lookup answers with the first document of the bucket of
    the class, in listing order, whose name holds the digest, where a
    document is an entry whose name ends in [.json] but neither in
    [.meta.json] nor in [.schema.json]; it answers the empty text exactly
    when there is no such document; it leaves the tree as it is, and entries
    of the other bucket play no part. *)
Theorem duplicate_lookup_first_match :
  forall (digest : string) (c : storage_class) (fs : filesystem),
    check_duplicate digest c fs
    = (Return match duplicate_candidates digest c fs with
              | [] => ""
              | found :: _ => path_str found
              end, fs)
    /\ (fst (check_duplicate digest c fs) = Return ""
        <-> duplicate_candidates digest c fs = [])
    /\ (forall found,
          In found (duplicate_candidates digest c fs) ->
          parent found = bucket_dir c
          /\ lookup fs found <> None
          /\ Str.endswith ".json" (name found) = true
          /\ Str.contains digest (name found) = true)
    /\ (forall fs2,
          listdir (bucket_dir c) fs2 = listdir (bucket_dir c) fs ->
          fst (check_duplicate digest c fs2) = fst (check_duplicate digest c fs)).
Proof.
  intros digest c fs.
  assert (Hrun : check_duplicate digest c fs
                 = (Return match duplicate_candidates digest c fs with
                           | [] => ""
                           | found :: _ => path_str found
                           end, fs)).
  { rewrite check_duplicate_run, scan_duplicates_filter; reflexivity. }
  split; [exact Hrun|].
  split.
  { rewrite Hrun; cbn [fst].
    destruct (duplicate_candidates digest c fs) as [|found rest].
    - split; reflexivity.
    - split; [|discriminate].
      intro H; injection H as H; contradiction (path_str_nonempty found H). }
  split.
  { intros found Hin; unfold duplicate_candidates, documents_of in Hin.
    apply filter_In in Hin; destruct Hin as [Hin Hdigest].
    apply filter_In in Hin; destruct Hin as [Hin Hdoc].
    apply andb_true_iff in Hdoc; destruct Hdoc as [Hjson _].
    destruct (listdir_in _ _ _ Hin) as [Hparent Hfile].
    repeat split; assumption. }
  intros fs2 Hsame; rewrite !check_duplicate_run, Hsame; reflexivity.
Qed.

(** What [_save_metadata] does, by the errors met while it writes. *)
Lemma save_metadata_cases (rt : runtime) (env : io_env) (final : path)
      (a : analysis) (original data : string) (fs : filesystem) :
  lookup fs final = Some data ->
  String.eqb (name final) "" = false ->
  save_metadata rt env final a original fs
  = match meta_fault env, schema_fault env with
    | Some f, _ =>
        (Raise (Exception (fault_msg f)),
         partial_write f (metadata_path_of (parent final) (name final))
                       (dump_metadata rt (metadata_of env a original data)) fs)
    | None, Some f =>
        (Raise (Exception (fault_msg f)),
         partial_write f (schema_path_of (name final))
           (dump_schema rt (schema_of env a original))
           (write (metadata_path_of (parent final) (name final))
                  (dump_metadata rt (metadata_of env a original data)) fs))
    | None, None =>
        (Return tt,
         write (schema_path_of (name final))
               (dump_schema rt (schema_of env a original))
               (write (metadata_path_of (parent final) (name final))
                      (dump_metadata rt (metadata_of env a original data)) fs))
    end.
Proof.
  intros Hfile Hname.
  unfold save_metadata, PurePath.with_suffix; unfold_io.
  rewrite Hfile, Hname; cbv beta iota.
  unfold write_text.
  destruct (meta_fault env); [reflexivity|].
  destruct (schema_fault env); reflexivity.
Qed.

(** What a placement does once the payload has been moved into its
    bucket, by the errors met while the records are written. *)
Lemma store_json_file_moved (rt : runtime) (env : io_env) (p : path)
      (original : string) (a : analysis) (fs : filesystem) (data : string) :
  lookup fs p = Some data ->
  scan_duplicates (MD5.hexdigest data) (listdir (bucket_dir (recommendation a)) fs)
  = "" ->
  move_fault env = None ->
  let bucket := bucket_dir (recommendation a) in
  let stamp := strftime_stamp (now_name env) in
  let stored := new_name_of original stamp (MD5.hexdigest data) in
  let moved := write (mkPath bucket stored) data (remove p fs) in
  store_json_file rt env p original a fs
  = match meta_fault env, schema_fault env with
    | Some f, _ =>
        (Return (Failed (fault_msg f)),
         remove p (partial_write f (metadata_path_of bucket stored)
                     (dump_metadata rt (metadata_of env a original data))
                     moved))
    | None, Some f =>
        (Return (Failed (fault_msg f)),
         remove p (partial_write f (schema_path_of stored)
                     (dump_schema rt (schema_of env a original))
                     (write (metadata_path_of bucket stored)
                            (dump_metadata rt (metadata_of env a original data))
                            moved)))
    | None, None =>
        (Return (Stored (mkStored original stored (kind_label (recommendation a))
                           (path_str (mkPath bucket stored)) (reason a)
                           (MD5.hexdigest data) stamp)),
         tree_after_placement rt env a original data p stored fs)
    end.
Proof.
  intros Hfile Hscan Hmove; cbv zeta.
  unfold store_json_file, tree_after_placement; unfold_io.
  rewrite Hfile; cbv beta iota.
  rewrite check_duplicate_run, Hscan.
  change (String.eqb "" "") with true; cbv beta iota delta [negb].
  destruct (recommendation a) eqn:Hrec; cbn [class_eqb bucket_dir kind_label];
    unfold shutil_move; rewrite Hfile, Hmove;
    match goal with
    | |- context [save_metadata ?rt ?env ?f ?a ?o ?fs] =>
        rewrite (save_metadata_cases rt env f a o data fs
                   (lookup_write_same _ _ _) (new_name_nonempty _ _ _))
    end;
    cbn [name parent];
    destruct (meta_fault env); [reflexivity| |reflexivity|];
    destruct (schema_fault env); reflexivity.
Qed.

Lemma remove_absent (fs : filesystem) (p : path) :
  lookup fs p = None -> remove p fs = fs.
Proof.
  unfold remove; induction fs as [|[q d] fs IH]; simpl; [reflexivity|].
  destruct (path_eqb q p); [discriminate|].
  intro H; simpl; rewrite (IH H); reflexivity.
Qed.

Lemma store_json_file_missing (rt : runtime) (env : io_env) (p : path)
      (original : string) (a : analysis) (fs : filesystem) :
  lookup fs p = None ->
  store_json_file rt env p original a fs
  = (Return (Failed (exn_msg (file_not_found p))), fs).
Proof.
  intro Hfile; unfold store_json_file; unfold_io.
  rewrite Hfile; cbv beta iota.
  rewrite (remove_absent fs p Hfile); reflexivity.
Qed.

(** A file of the temporary directory other than [p] is not touched by
    what a placement of [p] writes and removes. *)
Lemma temp_lookup_write (fs : filesystem) (c : storage_class) (q : path)
      (nm x : string) :
  parent q = TempDir ->
  lookup (write (mkPath (bucket_dir c) nm) x fs) q = lookup fs q.
Proof.
  intro Hq; apply lookup_write_other, not_eq_sym, path_neq_parent.
  rewrite Hq; apply not_eq_sym, bucket_not_temp.
Qed.

Lemma temp_lookup_schema (fs : filesystem) (q : path) (nm x : string) :
  parent q = TempDir ->
  lookup (write (schema_path_of nm) x fs) q = lookup fs q.
Proof.
  intro Hq; apply lookup_write_other, not_eq_sym, path_neq_parent.
  rewrite Hq; discriminate.
Qed.

(** Nor by what a failed write leaves outside the temporary directory. *)
Lemma temp_lookup_partial (f : os_fault) (fs : filesystem) (target q : path)
      (x : string) :
  parent q = TempDir -> parent target <> TempDir ->
  lookup (partial_write f target x fs) q = lookup fs q.
Proof.
  intros Hq Ht; apply lookup_partial_write_other, path_neq_parent.
  rewrite Hq; exact Ht.
Qed.

Lemma store_json_file_cleans (rt : runtime) (env : io_env) (p : path)
      (original : string) (a : analysis) (fs : filesystem) :
  parent p = TempDir ->
  exists result fs',
    store_json_file rt env p original a fs = (Return result, fs')
    /\ lookup fs' p = None
    /\ (forall q, parent q = TempDir -> q <> p -> lookup fs' q = lookup fs q)
    /\ (lookup fs p = None ->
        result = Failed (exn_msg (file_not_found p)) /\ fs' = fs).
Proof.
  intros Htemp.
  destruct (lookup fs p) as [data|] eqn:Hfile.
  2:{ exists (Failed (exn_msg (file_not_found p))), fs.
      split; [apply store_json_file_missing; exact Hfile|].
      split; [exact Hfile|]. split; [reflexivity | auto]. }
  assert (Hrest : forall q fs0, q <> p -> lookup (remove p fs0) q = lookup fs0 q)
    by (intros q fs0 Hq; apply lookup_remove_other; auto).
  destruct (scan_duplicates (MD5.hexdigest data)
              (listdir (bucket_dir (recommendation a)) fs)) as [|c0 s0] eqn:Hscan.
  2:{ eexists; exists (remove p fs).
      split; [apply store_json_file_duplicate with data;
              [exact Hfile | exact Hscan | discriminate]|].
      split; [apply lookup_remove_same|].
      split; [intros q _ Hq; apply Hrest; exact Hq | intro H; discriminate]. }
  assert (Hbucket : forall nm,
            parent (mkPath (bucket_dir (recommendation a)) nm) <> TempDir)
    by (intro nm; apply bucket_not_temp).
  assert (Hschema : forall nm, parent (schema_path_of nm) <> TempDir)
    by (intro nm; discriminate).
  destruct (move_fault env) as [f|] eqn:Hmove.
  { eexists; eexists.
    split; [exact (store_json_file_move_fault rt env p original a fs data f
                     Hfile Hscan Hmove)|].
    split; [apply lookup_remove_same|].
    split; [|intro H; discriminate].
    intros q Hq Hne; rewrite Hrest by exact Hne.
    apply temp_lookup_partial; [exact Hq | apply Hbucket]. }
  pose proof (store_json_file_moved rt env p original a fs data Hfile Hscan Hmove)
    as Hrun; cbv zeta in Hrun.
  destruct (meta_fault env) as [f|]; [|destruct (schema_fault env) as [f|]];
    eexists; eexists; (split; [exact Hrun|]).
  - split; [apply lookup_remove_same|].
    split; [|intro H; discriminate].
    intros q Hq Hne; unfold metadata_path_of.
    rewrite Hrest, temp_lookup_partial, temp_lookup_write
      by first [assumption | apply Hbucket].
    apply Hrest; exact Hne.
  - split; [apply lookup_remove_same|].
    split; [|intro H; discriminate].
    intros q Hq Hne; unfold metadata_path_of.
    rewrite Hrest, temp_lookup_partial, !temp_lookup_write
      by first [assumption | apply Hschema].
    apply Hrest; exact Hne.
  - destruct (tree_after_placement_lookup rt env a original data p
                (new_name_of original (strftime_stamp (now_name env))
                             (MD5.hexdigest data)) fs Htemp) as [Hgone _].
    split; [exact Hgone|].
    split; [|intro H; discriminate].
    intros q Hq Hne; unfold tree_after_placement, metadata_path_of.
    rewrite temp_lookup_schema, !temp_lookup_write by assumption.
    apply Hrest; exact Hne.
Qed.

(** The placement never raises, and whatever it answers, the temporary
    payload is gone afterwards and no other file of the temporary directory
    has changed.  When the payload was not there to begin with, the answer
    is a failure that names the missing file and the tree is as before. *)
Theorem placement_always_cleans_up :
  forall (rt : runtime) (env : io_env) (file_path : path) (original : string)
         (a : analysis) (fs : filesystem),
    parent file_path = TempDir ->
    exists result fs',
      store_json_file rt env file_path original a fs = (Return result, fs')
      /\ lookup fs' file_path = None
      /\ (forall q, parent q = TempDir -> q <> file_path ->
                    lookup fs' q = lookup fs q)
      /\ (lookup fs file_path = None ->
          result = Failed (exn_msg (file_not_found file_path)) /\ fs' = fs).
Proof. intros; apply store_json_file_cleans; assumption. Qed.

(** Two payloads wait in the temporary directory; one is placed. *)
Lemma placement_always_cleans_up_witness :
  exists result fs',
    store_json_file sample_runtime (calm (sample_clock 5)) temp_a "a.json"
      (analyze_object [("id", JInt 1)])
      [(temp_a, id_document_text); (mkPath TempDir "temp_b.json", nested_text)]
    = (Return result, fs')
    /\ lookup fs' temp_a = None
    /\ lookup fs' (mkPath TempDir "temp_b.json") = Some nested_text.
Proof.
  destruct (placement_always_cleans_up
              sample_runtime (calm (sample_clock 5)) temp_a "a.json"
              (analyze_object [("id", JInt 1)])
              [(temp_a, id_document_text);
               (mkPath TempDir "temp_b.json", nested_text)] eq_refl)
    as [result [fs' [Hrun [Hgone [Hothers _]]]]].
  exists result, fs'.
  split; [exact Hrun|].
  split; [exact Hgone|].
  rewrite Hothers; [reflexivity | reflexivity | discriminate].
Defined.

(** When a record cannot be written after the payload has been moved, the
    placement answers with a failure that carries the error, but the document
    stays in its bucket and the temporary payload is gone: a failed
    placement is not an undone one.  The record that fails is left as it
    was when it could not be opened, and otherwise holds the bytes written
    before the error, a truncated record.  If the metadata record is the one
    that fails, the schema record is not touched; if the schema record
    fails, the metadata record has been written in full. *)
Theorem record_failure_leaves_document :
  forall (rt : runtime) (env : io_env) (file_path : path) (original : string)
         (a : analysis) (fs : filesystem) (data : string) (f : os_fault),
    parent file_path = TempDir ->
    lookup fs file_path = Some data ->
    check_duplicate (MD5.hexdigest data) (recommendation a) fs = (Return "", fs) ->
    move_fault env = None ->
    meta_fault env = Some f
    \/ (meta_fault env = None /\ schema_fault env = Some f) ->
    let bucket := bucket_dir (recommendation a) in
    let stored := new_name_of original (strftime_stamp (now_name env))
                              (MD5.hexdigest data) in
    let left := fun (text : string) (before : option string) =>
      match fault_written f with
      | None => before
      | Some n => Some (Str.take n text)
      end in
    exists fs',
      store_json_file rt env file_path original a fs
      = (Return (Failed (fault_msg f)), fs')
      /\ lookup fs' file_path = None
      /\ lookup fs' (mkPath bucket stored) = Some data
      /\ (meta_fault env = Some f ->
          lookup fs' (metadata_path_of bucket stored)
          = left (dump_metadata rt (metadata_of env a original data))
                 (lookup fs (metadata_path_of bucket stored))
          /\ lookup fs' (schema_path_of stored) = lookup fs (schema_path_of stored))
      /\ (meta_fault env = None ->
          lookup fs' (metadata_path_of bucket stored)
          = Some (dump_metadata rt (metadata_of env a original data))
          /\ lookup fs' (schema_path_of stored)
             = left (dump_schema rt (schema_of env a original))
                    (lookup fs (schema_path_of stored))).
Proof.
  intros rt env p original a fs data f Htemp Hfile Hcheck Hmove Hfault
         bucket stored left.
  apply check_duplicate_answer in Hcheck.
  pose proof (store_json_file_moved rt env p original a fs data Hfile Hcheck Hmove)
    as Hrun; cbv zeta in Hrun; fold bucket in Hrun; fold stored in Hrun.
  destruct (placement_paths_distinct (recommendation a) p stored Htemp)
    as [Hfp [Hmp [Hsp [Hmf [Hsf Hsm]]]]]; fold bucket in Hfp, Hmp, Hmf, Hsf, Hsm.
  destruct Hfault as [Hmeta|[Hmeta Hschema]].
  - rewrite Hmeta in Hrun; eexists; split; [exact Hrun|].
    split; [apply lookup_remove_same|].
    split.
    { rewrite lookup_remove_other, lookup_partial_write_other by auto.
      apply lookup_write_same. }
    split; [|intro H; rewrite Hmeta in H; discriminate].
    intros _; split.
    + rewrite lookup_remove_other, lookup_partial_write_same by auto.
      unfold left; destruct (fault_written f); [reflexivity|].
      rewrite lookup_write_other by auto.
      apply lookup_remove_other; auto.
    + rewrite lookup_remove_other, lookup_partial_write_other,
        lookup_write_other by auto.
      apply lookup_remove_other; auto.
  - rewrite Hmeta, Hschema in Hrun; eexists; split; [exact Hrun|].
    split; [apply lookup_remove_same|].
    split.
    { rewrite lookup_remove_other, lookup_partial_write_other,
        lookup_write_other by auto.
      apply lookup_write_same. }
    split; [intro H; rewrite Hmeta in H; discriminate|].
    intros _; split.
    + rewrite lookup_remove_other, lookup_partial_write_other by auto.
      apply lookup_write_same.
    + rewrite lookup_remove_other, lookup_partial_write_same by auto.
      unfold left; destruct (fault_written f); [reflexivity|].
      rewrite !lookup_write_other by auto.
      apply lookup_remove_other; auto.
Qed.

(** The disk fills up between the two records of [a.json]: the document
    and its metadata record stand, and the schema record is empty. *)
Lemma record_failure_leaves_document_witness :
  exists fs',
    store_json_file sample_runtime (schema_write_fails (sample_clock 5)) temp_a
      "a.json" (analyze_object [("id", JInt 1)]) [(temp_a, id_document_text)]
    = (Return (Failed "[Errno 28] No space left on device"), fs')
    /\ lookup fs' (mkPath SqlDir "a_20240102_030405_f3e56c60.json")
       = Some id_document_text
    /\ lookup fs' (mkPath SchemaDir "a_20240102_030405_f3e56c60.schema.json")
       = Some "".
Proof.
  destruct (record_failure_leaves_document
              sample_runtime (schema_write_fails (sample_clock 5)) temp_a "a.json"
              (analyze_object [("id", JInt 1)]) [(temp_a, id_document_text)]
              id_document_text
              (mkFault "[Errno 28] No space left on device" (Some 0))
              eq_refl eq_refl ltac:(vm_compute; reflexivity) eq_refl
              (or_intror (conj eq_refl eq_refl)))
    as [fs' [Hrun [_ [Hdoc [_ Hschema]]]]].
  exists fs'; split; [exact Hrun|].
  split; [exact Hdoc | exact (proj2 (Hschema eq_refl))].
Defined.

(* ===================================================================== *)
(** ** Further properties of the classifier *)
(* ===================================================================== *)

Lemma sample_of_long (head tail : list json) :
  List.length head = 10 -> sample_of (head ++ tail) = head.
Proof.
  intro Hlen; unfold sample_of.
  rewrite length_app, Hlen.
  replace (Nat.min 10 (10 + List.length tail)) with 10 by lia.
  rewrite firstn_app, Hlen, Nat.sub_diag, <- Hlen, firstn_all.
  apply app_nil_r.
Qed.

(** Only the first ten elements of a sequence are looked at.  Whatever
    follows them, of whatever type, changes neither the class nor the
    reason nor the columns; it only counts in [estimated_rows], which is the
    length of the whole sequence. *)
Theorem later_elements_are_not_sampled :
  forall (rt : runtime) (head tail : list json),
    List.length head = 10 ->
    recommendation (analyze_array rt (head ++ tail))
    = recommendation (analyze_array rt head)
    /\ reason (analyze_array rt (head ++ tail)) = reason (analyze_array rt head)
    /\ columns (analyze_array rt (head ++ tail)) = columns (analyze_array rt head)
    /\ estimated_rows (analyze_array rt (head ++ tail))
       = option_map (fun _ => List.length head + List.length tail)
                    (estimated_rows (analyze_array rt head)).
Proof.
  intros rt head tail Hlen.
  assert (Hhead : head <> []) by (intro; subst head; discriminate).
  assert (Hwhole : (head ++ tail)%list <> [])
    by (intro H; apply app_eq_nil in H; destruct H; contradiction).
  pose proof (sample_of_long head tail Hlen) as Hs1.
  pose proof (sample_of_long head [] Hlen) as Hs2; rewrite app_nil_r in Hs2.
  rewrite (analyze_array_nonempty rt _ Hwhole), (analyze_array_nonempty rt _ Hhead).
  unfold first_key_set; rewrite Hs1, Hs2, length_app.
  destruct (negb (forallb is_dict head)); [repeat split; reflexivity|].
  destruct (_ && _); repeat split; reflexivity.
Qed.

(** Ten rows with the key [id], followed by a number and a text: the
    sequence is classified sql with twelve estimated rows. *)
Lemma later_elements_are_not_sampled_witness :
  recommendation (analyze_array sample_runtime (ten_rows ++ [JInt 7; JStr "x"]))
  = Sql
  /\ estimated_rows (analyze_array sample_runtime (ten_rows ++ [JInt 7; JStr "x"]))
     = Some 12.
Proof.
  destruct (later_elements_are_not_sampled sample_runtime ten_rows
              [JInt 7; JStr "x"] eq_refl) as [Hclass [_ [_ Hrows]]].
  split; [rewrite Hclass | rewrite Hrows]; reflexivity.
Defined.

(** The depth below a node does not depend on the depth of the call. *)
Lemma calculate_depth_shift (obj : json) (d : nat) :
  calculate_depth obj d = d + calculate_depth obj 0.
Proof.
  destruct (depth_is_longest_descent obj d) as [Hge [Hchain Hmax]].
  destruct (depth_is_longest_descent obj 0) as [_ [Hchain0 Hmax0]].
  rewrite Nat.sub_0_r in Hchain0.
  specialize (Hmax _ Hchain0); specialize (Hmax0 _ Hchain); lia.
Qed.

Lemma shallow_no_descent (fields : list (string * json)) :
  forallb shallow_value (map snd fields) = true
  <-> forall child, ~ descends (JDict fields) child.
Proof.
  rewrite forallb_forall; split.
  - intros Hall child Hstep; inversion Hstep as [? k sub Hin|? k sub others Hin]; subst.
    + specialize (Hall (JDict sub) (in_map snd _ _ Hin)); discriminate.
    + specialize (Hall (JList (JDict sub :: others)) (in_map snd _ _ Hin));
        discriminate.
  - intros Hnone v Hin; apply in_map_iff in Hin.
    destruct Hin as [[k v'] [Hv Hin]]; simpl in Hv; subst v'.
    destruct v as [| | | | |[|[| | | | | |sub] others]|sub]; try reflexivity;
      exfalso.
    + apply (Hnone (JDict sub)); eapply descend_first; exact Hin.
    + apply (Hnone (JDict sub)); eapply descend_value; exact Hin.
Qed.

(** The depth routine adds the call depth to a depth that belongs to the
    node alone.  For a mapping that depth is 0 exactly when no value is a
    mapping and no sequence value starts with a mapping, and at least 1
    otherwise.  An empty mapping as a value counts as a level although it
    does not make the document nested, and a mapping judged nested only
    through sequences such as [[1]] or [1, {...}] reports the depth 0. *)
Theorem depth_counts_levels_below :
  forall (obj : json) (d : nat) (fields : list (string * json)),
    calculate_depth obj d = d + calculate_depth obj 0
    /\ (calculate_depth (JDict fields) 0 = 0
        <-> forallb shallow_value (map snd fields) = true)
    /\ (Exists immediately_nested (map snd fields) ->
        (nesting_level (analyze_object fields) = Some 0
         <-> forallb shallow_value (map snd fields) = true))
    /\ (forall k, recommendation (analyze_object [(k, JDict [])]) = Sql
                  /\ calculate_depth (JDict [(k, JDict [])]) 0 = 1)
    /\ (forall k, analyze_object [(k, JList [JList [JInt 1]])]
                  = mkAnalysis Nosql
                      "Contains nested dictionary or list (depth: 0), ideal for document storage."
                      None None (Some 0) None).
Proof.
  intros obj d fields.
  split; [apply calculate_depth_shift|].
  assert (Hzero : calculate_depth (JDict fields) 0 = 0
                  <-> forallb shallow_value (map snd fields) = true).
  { rewrite shallow_no_descent.
    destruct (depth_is_longest_descent (JDict fields) 0) as [_ [Hchain Hmax]].
    rewrite Nat.sub_0_r in Hchain.
    split.
    - intros H0 child Hstep.
      assert (Hone : descent (JDict fields) 1)
        by (apply descent_step with child; [exact Hstep | constructor]).
      specialize (Hmax 1 Hone); lia.
    - intro Hnone.
      destruct (calculate_depth (JDict fields) 0) as [|n]; [reflexivity|].
      inversion Hchain as [|? child m Hstep _]; subst.
      contradiction (Hnone child Hstep). }
  split; [exact Hzero|].
  split.
  { intro Hnested; apply nesting_loop_spec in Hnested.
    unfold analyze_object; rewrite Hnested; cbn [nesting_level].
    rewrite <- Hzero; split; intro H; [injection H as H; exact H | rewrite H; reflexivity]. }
  split; intro k; [split; reflexivity | reflexivity].
Qed.

(* ===================================================================== *)
(** ** The extension of a stored name *)
(* ===================================================================== *)

Lemma rfind_app_last (c : ascii) (a r : string) :
  Str.rfind c r = None -> Str.rfind c (a ++ String c r) = Some (String.length a).
Proof.
  intro Hr; induction a as [|x a IH]; simpl.
  - rewrite Hr, Ascii.eqb_refl; reflexivity.
  - rewrite IH; reflexivity.
Qed.

Lemma drop_length (i : nat) (s : string) :
  String.length (Str.drop i s) = String.length s - i.
Proof.
  revert s; induction i as [|i IH]; intros [|x s]; simpl; try reflexivity.
  apply IH.
Qed.

Lemma drop_app (a b : string) : Str.drop (String.length a) (a ++ b) = b.
Proof. induction a as [|x a IH]; simpl; [destruct b; reflexivity | exact IH]. Qed.

Lemma take_app (a b : string) : Str.take (String.length a) (a ++ b) = a.
Proof. induction a as [|x a IH]; simpl; [destruct b; reflexivity | rewrite IH; reflexivity]. Qed.

(** An extension is a dot followed by at least one character, none of them
    a dot. *)
Lemma suffix_extension (n : string) :
  PurePath.suffix n <> "" ->
  exists rest,
    PurePath.suffix n = String "." rest
    /\ Str.rfind "." rest = None /\ rest <> "".
Proof.
  unfold PurePath.suffix.
  destruct (Str.rfind "." n) as [i|] eqn:E; [|intro H; contradiction H; reflexivity].
  destruct ((0 <? i) && (i <? String.length n - 1))%nat eqn:B;
    [|intro H; contradiction H; reflexivity].
  intros _; destruct (rfind_last _ _ _ E) as [rest [Hdrop Hnone]].
  exists rest; split; [exact Hdrop|]; split; [exact Hnone|].
  apply andb_true_iff in B; destruct B as [_ B]; apply Nat.ltb_lt in B.
  intro Hrest; subst rest.
  apply (f_equal String.length) in Hdrop; rewrite drop_length in Hdrop.
  simpl in Hdrop; lia.
Qed.

(** The parts of a name that ends in an extension. *)
Lemma parts_of_extended (base rest : string) :
  base <> "" -> rest <> "" -> Str.rfind "." rest = None ->
  PurePath.suffix (base ++ String "." rest) = String "." rest
  /\ PurePath.stem (base ++ String "." rest) = base.
Proof.
  intros Hbase Hrest Hnone.
  unfold PurePath.suffix, PurePath.stem.
  rewrite (rfind_app_last "." base rest Hnone).
  assert (Hcond : ((0 <? String.length base)
                   && (String.length base
                       <? String.length (base ++ String "." rest) - 1))%nat = true).
  { rewrite append_length; simpl.
    destruct base; [contradiction Hbase; reflexivity|].
    destruct rest; [contradiction Hrest; reflexivity|].
    apply andb_true_iff; split; [reflexivity|].
    apply Nat.ltb_lt; simpl; lia. }
  rewrite Hcond; split; [apply drop_app | apply take_app].
Qed.

Lemma new_name_parts (original stamp digest : string) :
  new_name_of original stamp digest
  = (PurePath.stem (PurePath.name original) ++ "_" ++ stamp ++ "_"
     ++ Str.take 8 digest) ++ PurePath.suffix (PurePath.name original).
Proof. unfold new_name_of; rewrite !append_assoc; reflexivity. Qed.

(** A declared name with an extension keeps it when stored, and the stem of
    the stored name is the declared stem, the stamp and the digest prefix;
    so the two records of the document carry the stamp and the prefix in
    their names. *)
Theorem stored_name_keeps_extension :
  forall (original stamp digest : string) (bucket : dir),
    PurePath.suffix (PurePath.name original) <> "" ->
    let stored := new_name_of original stamp digest in
    let base := PurePath.stem (PurePath.name original) ++ "_" ++ stamp ++ "_"
                ++ Str.take 8 digest in
    PurePath.suffix stored = PurePath.suffix (PurePath.name original)
    /\ PurePath.stem stored = base
    /\ stored = base ++ PurePath.suffix (PurePath.name original)
    /\ name (metadata_path_of bucket stored) = base ++ ".meta.json"
    /\ name (schema_path_of stored) = base ++ ".schema.json".
Proof.
  intros original stamp digest bucket Hext stored base.
  destruct (suffix_extension _ Hext) as [rest [Hsuffix [Hnone Hrest]]].
  assert (Hstored : stored = base ++ String "." rest)
    by (unfold stored; rewrite new_name_parts, Hsuffix; reflexivity).
  assert (Hbase : base <> "")
    by (unfold base; destruct (PurePath.stem (PurePath.name original));
        discriminate).
  destruct (parts_of_extended base rest Hbase Hrest Hnone) as [Hs Ht].
  unfold metadata_path_of, schema_path_of; cbn [name].
  rewrite Hstored, Hs, Ht, Hsuffix; repeat split; reflexivity.
Qed.

Lemma stored_name_keeps_extension_witness :
  PurePath.suffix (new_name_of "report.v2.json" "20240102_030405" id_digest)
  = ".json"
  /\ PurePath.stem (new_name_of "report.v2.json" "20240102_030405" id_digest)
     = "report.v2_20240102_030405_f3e56c60".
Proof.
  destruct (stored_name_keeps_extension "report.v2.json" "20240102_030405"
              id_digest SqlDir ltac:(vm_compute; discriminate))
    as [Hs [Ht _]].
  split; [rewrite Hs | rewrite Ht]; vm_compute; reflexivity.
Defined.

(* ===================================================================== *)
(** ** Pages of the listing *)
(* ===================================================================== *)

Lemma firstn_min_length {A} (k : nat) (l : list A) :
  firstn (Nat.min k (List.length l)) l = firstn k l.
Proof.
  destruct (Nat.le_gt_cases k (List.length l)) as [H|H].
  - rewrite Nat.min_l by exact H; reflexivity.
  - rewrite Nat.min_r by lia.
    rewrite firstn_all, firstn_all2 by lia; reflexivity.
Qed.

(** A slice with bounds that are not negative takes [stop - start]
    elements after dropping [start]. *)
Lemma py_slice_nonneg {A} (l : list A) (offset limit : Z) :
  (0 <= offset)%Z -> (0 <= limit)%Z ->
  py_slice l offset (offset + limit)
  = firstn (Z.to_nat limit) (skipn (Z.to_nat offset) l).
Proof.
  intros Ho Hl; unfold py_slice, slice_bound.
  assert (E1 : (offset <? 0)%Z = false) by (apply Z.ltb_ge; exact Ho).
  assert (E2 : (offset + limit <? 0)%Z = false) by (apply Z.ltb_ge; lia).
  rewrite E1, E2.
  set (n := List.length l).
  destruct (Z.le_gt_cases (Z.of_nat n) offset) as [Hout|Hin].
  - rewrite (skipn_all2 l) by (fold n; lia).
    rewrite !Z.min_r by lia.
    rewrite (skipn_all2 l) by (fold n; lia).
    rewrite !firstn_nil; reflexivity.
  - rewrite (Z.min_l offset) by lia.
    rewrite <- (firstn_min_length (Z.to_nat limit)).
    f_equal; rewrite length_skipn; fold n; lia.
Qed.

Lemma firstn_skipn_add {A} (a b : nat) (l : list A) :
  (firstn a l ++ firstn b (skipn a l))%list = firstn (a + b) l.
Proof.
  revert l; induction a as [|a IH]; intros [|x l]; simpl;
    try reflexivity.
  - rewrite firstn_nil; reflexivity.
  - rewrite IH; reflexivity.
Qed.

Lemma paginate_selects {mtime} (sql_files nosql_files : list (file_entry mtime))
      (category : option string) (limit offset : Z) :
  let files := select_category sql_files nosql_files category in
  paginate sql_files nosql_files category limit offset
  = mkListing (py_slice files offset (offset + limit)) (List.length files)
              limit offset (offset + limit <? Z.of_nat (List.length files))%Z
              (List.length sql_files) (List.length nosql_files)
              (List.length files).
Proof. destruct category as [c|]; reflexivity. Qed.

(** The page of [list_json_files].  The files paged through are those of
    the category, both buckets for any category other than [sql] and
    [nosql].  A limit that is not negative bounds the page for every offset,
    negative ones included.  When neither is negative, the page is the
    [limit] files after the first [offset], the files split into what comes
    before the page, the page and what comes after it, and [has_more] says
    whether anything comes after it.  A negative limit does not bound the
    page: with offset 0 and limit -1 the page is everything but the last
    file. *)
Theorem listing_page :
  forall (mtime : Type) (sql_files nosql_files : list (file_entry mtime))
         (category : option string) (limit offset : Z),
    let files := select_category sql_files nosql_files category in
    let body := paginate sql_files nosql_files category limit offset in
    page_total body = List.length files
    /\ count_sql body = List.length sql_files
    /\ count_nosql body = List.length nosql_files
    /\ ((0 <= limit)%Z ->
        (Z.of_nat (List.length (page_files body)) <= limit)%Z)
    /\ ((0 <= limit)%Z -> (0 <= offset)%Z ->
        page_files body
        = firstn (Z.to_nat limit) (skipn (Z.to_nat offset) files)
        /\ files = (firstn (Z.to_nat offset) files ++ page_files body
                    ++ skipn (Z.to_nat (offset + limit)) files)%list
        /\ (page_has_more body = true
            <-> skipn (Z.to_nat (offset + limit)) files <> []))
    /\ page_files (paginate sql_files nosql_files category (-1) 0)
       = removelast files.
Proof.
  intros mtime sql_files nosql_files category limit offset files body.
  unfold body; rewrite paginate_selects; fold files.
  cbn [page_total count_sql count_nosql page_files page_has_more].
  split; [reflexivity|]. split; [reflexivity|]. split; [reflexivity|].
  split.
  { intro Hl; unfold py_slice.
    rewrite length_firstn, length_skipn.
    set (n := List.length files).
    unfold slice_bound.
    destruct (offset <? 0)%Z eqn:E1; destruct (offset + limit <? 0)%Z eqn:E2;
      try (apply Z.ltb_lt in E1); try (apply Z.ltb_ge in E1);
      try (apply Z.ltb_lt in E2); try (apply Z.ltb_ge in E2); lia. }
  split.
  { intros Hl Ho.
    rewrite (py_slice_nonneg files offset limit Ho Hl).
    split; [reflexivity|].
    split.
    - rewrite Z2Nat.inj_add by assumption.
      replace (skipn (Z.to_nat offset + Z.to_nat limit) files)
        with (skipn (Z.to_nat limit) (skipn (Z.to_nat offset) files))
        by (rewrite skipn_skipn; f_equal; lia).
      rewrite (firstn_skipn (Z.to_nat limit) (skipn (Z.to_nat offset) files)).
      symmetry; apply firstn_skipn.
    - rewrite Z.ltb_lt; split.
      + intros Hmore Hnil.
        apply (f_equal (@List.length _)) in Hnil.
        rewrite length_skipn in Hnil; simpl in Hnil; lia.
      + intro Hrest.
        destruct (Z.lt_ge_cases (offset + limit) (Z.of_nat (List.length files)))
          as [H|H]; [exact H|].
        contradiction Hrest; apply skipn_all2; lia. }
  rewrite paginate_selects; cbn [page_files]; fold files.
  change (0 + -1)%Z with (-1)%Z.
  unfold py_slice, slice_bound.
  change (0 <? 0)%Z with false; change (-1 <? 0)%Z with true; cbv iota.
  rewrite removelast_firstn_len.
  match goal with
  | |- firstn ?a (skipn ?b _) = _ =>
      replace a with (Nat.pred (List.length files)) by lia;
      replace b with 0 by lia
  end.
  reflexivity.
Qed.

Lemma page_files_at {mtime} (sql_files nosql_files : list (file_entry mtime))
      (category : option string) (limit : Z) (k : nat) :
  (0 < limit)%Z ->
  page_files (paginate sql_files nosql_files category limit (Z.of_nat k * limit))
  = firstn (Z.to_nat limit)
           (skipn (k * Z.to_nat limit)
                  (select_category sql_files nosql_files category)).
Proof.
  intro Hl; rewrite paginate_selects; cbn [page_files].
  rewrite py_slice_nonneg by nia.
  rewrite Z2Nat.inj_mul, Nat2Z.id by lia; reflexivity.
Qed.

(** Walking through the listing page by page, with a fixed positive limit
    and the offsets 0, limit, 2 * limit, ..., gives the files in order with
    none left out and none repeated: the first [k] pages put end to end are
    the first [k * limit] files.  [has_more] turns false on the first page
    that reaches the end, and the pages up to it make up the whole
    listing. *)
Theorem pages_cover_the_listing :
  forall (mtime : Type) (sql_files nosql_files : list (file_entry mtime))
         (category : option string) (limit : Z) (k : nat),
    (0 < limit)%Z ->
    let files := select_category sql_files nosql_files category in
    let page := fun i =>
      paginate sql_files nosql_files category limit (Z.of_nat i * limit) in
    page_files (page k) = page_at files limit k
    /\ List.concat (map (fun i => page_files (page i)) (seq 0 k))
       = firstn (k * Z.to_nat limit) files
    /\ (page_has_more (page k) = false
        <-> List.length files <= (k + 1) * Z.to_nat limit)
    /\ (page_has_more (page k) = false ->
        List.concat (map (fun i => page_files (page i)) (seq 0 (k + 1))) = files).
Proof.
  intros mtime sql_files nosql_files category limit k Hl files page.
  assert (Hwalk : forall n,
             List.concat (map (fun i => page_files (page i)) (seq 0 n))
             = firstn (n * Z.to_nat limit) files).
  { induction n as [|n IH]; [reflexivity|].
    rewrite seq_S, map_app, concat_app, IH; cbn [map List.concat Nat.add].
    unfold page; rewrite page_files_at by exact Hl; fold files.
    rewrite app_nil_r, firstn_skipn_add.
    f_equal; lia. }
  assert (Hmore : page_has_more (page k) = false
                  <-> List.length files <= (k + 1) * Z.to_nat limit).
  { unfold page; rewrite paginate_selects; cbn [page_has_more]; fold files.
    rewrite Z.ltb_ge; split; intro H; nia. }
  split; [unfold page; rewrite paginate_selects; reflexivity|].
  split; [apply Hwalk|].
  split; [exact Hmore|].
  intro Hlast; rewrite Hwalk; apply firstn_all2, Hmore, Hlast.
Qed.

Lemma pages_cover_the_listing_witness :
  let entries :=
    map (fun n => mkEntry (Str.of_nat n) 0%N 0%Z (JDict []))
        (seq 0 5) in
  List.concat (map (fun i => page_files (paginate entries [] (Some "sql") 2
                                             (Z.of_nat i * 2)))
              (seq 0 3))
  = entries.
Proof.
  intro entries.
  destruct (pages_cover_the_listing _ entries [] (Some "sql") 2 2 eq_refl)
    as [_ [_ [Hmore Hall]]].
  apply Hall, Hmore; vm_compute; lia.
Defined.

(* ===================================================================== *)
(** ** The listing and the tree *)
(* ===================================================================== *)

Lemma get_file_metadata_run (rt : runtime) (fs : filesystem) (file : path) :
  String.eqb (name file) "" = false ->
  get_file_metadata rt file fs = (metadata_reading rt fs file, fs).
Proof.
  intro Hname; unfold get_file_metadata, PurePath.with_suffix, metadata_reading,
    metadata_path_of.
  rewrite Hname; destruct (lookup fs _); reflexivity.
Qed.

(** The loop of the listing reads the listable entries in order and stops
    at the first error. *)
Lemma scan_entries_read (rt : runtime) {mtime : Type} (st_mtime : path -> mtime)
      (fs : filesystem) (files : list path) :
  scan_entries rt st_mtime files fs
  = (read_entries rt st_mtime fs (filter listable files), fs).
Proof.
  induction files as [|file files IH]; [reflexivity|].
  cbn [scan_entries filter]; unfold listable at 1.
  destruct (Str.endswith ".json" (name file)) eqn:Ejson; cbn [negb andb];
    [|exact IH].
  destruct (Str.endswith ".meta.json" (name file)); cbn [negb]; [exact IH|].
  destruct (endswith_json_nonempty _ Ejson) as [Hname _].
  cbn [read_entries]; unfold read_entry; unfold_io.
  rewrite (get_file_metadata_run rt fs file Hname).
  destruct (metadata_reading rt fs file) as [metadata|e]; [|reflexivity].
  destruct (lookup fs file) as [data|]; [|reflexivity].
  rewrite IH.
  destruct (read_entries rt st_mtime fs (filter listable files)); reflexivity.
Qed.

Lemma read_entries_spec (rt : runtime) {mtime : Type} (st_mtime : path -> mtime)
      (fs : filesystem) (docs : list path) :
  (forall f, In f docs -> lookup fs f <> None) ->
  match read_entries rt st_mtime fs docs with
  | Return entries =>
      map entry_filename entries = map name docs
      /\ Forall (fun f => exists j, metadata_reading rt fs f = Return j) docs
      /\ Forall2 (fun f entry =>
                    exists data,
                      lookup fs f = Some data
                      /\ entry_size entry = Str.size data
                      /\ entry_modified entry = st_mtime f
                      /\ metadata_reading rt fs f = Return (entry_metadata entry))
                 docs entries
  | Raise e => exists f, In f docs /\ metadata_reading rt fs f = Raise e
  end.
Proof.
  induction docs as [|f docs IH]; intro Hfiles.
  - cbn; repeat split; constructor.
  - cbn [read_entries]; unfold read_entry.
    assert (Hrest : forall g, In g docs -> lookup fs g <> None)
      by (intros g Hg; apply Hfiles; right; exact Hg).
    specialize (IH Hrest).
    destruct (metadata_reading rt fs f) as [j|e] eqn:Hmeta;
      [|exists f; split; [left; reflexivity | exact Hmeta]].
    destruct (lookup fs f) as [data|] eqn:Hdata;
      [|contradiction (Hfiles f (or_introl eq_refl) Hdata)].
    destruct (read_entries rt st_mtime fs docs) as [entries|e].
    + destruct IH as [Hnames [Hall Hentries]].
      split; [cbn; rewrite Hnames; reflexivity|].
      split; [constructor; [exists j; exact Hmeta | exact Hall]|].
      constructor; [|exact Hentries].
      exists data; repeat split; assumption.
    + destruct IH as [g [Hg He]]; exists g; split; [right; exact Hg | exact He].
Qed.

Lemma list_bucket_read (rt : runtime) {mtime : Type} (st_mtime : path -> mtime)
      (d : dir) (fs : filesystem) :
  list_bucket rt st_mtime d fs
  = (read_entries rt st_mtime fs (filter listable (listdir d fs)), fs).
Proof. unfold list_bucket; unfold_io; apply scan_entries_read. Qed.

Lemma read_entries_bucket (rt : runtime) {mtime : Type} (st_mtime : path -> mtime)
      (d : dir) (fs : filesystem) :
  match read_entries rt st_mtime fs (filter listable (listdir d fs)) with
  | Return entries =>
      map entry_filename entries = listed_names d fs /\ ~ corrupt_record rt fs d
  | Raise e => corrupt_record rt fs d
  end.
Proof.
  assert (Hfiles : forall f, In f (filter listable (listdir d fs)) ->
                             lookup fs f <> None).
  { intros f Hf; apply filter_In in Hf; apply (listdir_in d fs f (proj1 Hf)). }
  assert (Hcorrupt : forall f e,
             In f (filter listable (listdir d fs)) ->
             metadata_reading rt fs f = Raise e -> corrupt_record rt fs d).
  { intros f e Hf He; apply filter_In in Hf; destruct Hf as [Hin Hl].
    destruct (listdir_in d fs f Hin) as [Hparent _].
    unfold metadata_reading in He; rewrite Hparent in He.
    destruct (lookup fs (metadata_path_of d (name f))) as [content|] eqn:Hmeta;
      [|discriminate].
    exists f, content, e; auto. }
  pose proof (read_entries_spec rt st_mtime fs _ Hfiles) as Hspec.
  destruct (read_entries rt st_mtime fs (filter listable (listdir d fs)))
    as [entries|e].
  - destruct Hspec as [Hnames [Hall _]].
    split; [exact Hnames|].
    intros [f [content [e [Hin [Hl [Hmeta Hload]]]]]].
    rewrite Forall_forall in Hall.
    destruct (Hall f) as [j Hj]; [apply filter_In; auto|].
    destruct (listdir_in d fs f Hin) as [Hparent _].
    unfold metadata_reading in Hj; rewrite Hparent, Hmeta, Hload in Hj.
    discriminate.
  - destruct Hspec as [f [Hin He]]; exact (Hcorrupt f e Hin He).
Qed.

(** The listing reads the tree and leaves it as it is.  It answers with the
    error 500 exactly when, in either bucket, the metadata record beside a
    listed document does not parse, whatever the category, the limit and
    the offset asked for: one broken record hides every document.
    Otherwise it lists, for each bucket, the entries whose name ends in
    [.json] but not in [.meta.json], in listing order, and pages through
    them. *)
Theorem listing_reads_the_tree :
  forall (rt : runtime) (mtime : Type) (st_mtime : path -> mtime)
         (category : option string) (limit offset : Z) (fs : filesystem),
    let answer := list_json_files rt st_mtime category limit offset fs in
    snd answer = fs
    /\ ((exists detail, fst answer = ListingError 500 detail)
        <-> corrupt_record rt fs SqlDir \/ corrupt_record rt fs NosqlDir)
    /\ (forall body,
          fst answer = Listed body ->
          exists sql_files nosql_files,
            body = paginate sql_files nosql_files category limit offset
            /\ map entry_filename sql_files = listed_names SqlDir fs
            /\ map entry_filename nosql_files = listed_names NosqlDir fs
            /\ count_sql body = List.length (listed_names SqlDir fs)
            /\ count_nosql body = List.length (listed_names NosqlDir fs)).
Proof.
  intros rt mtime st_mtime category limit offset fs answer.
  unfold answer, list_json_files; unfold_io.
  rewrite (list_bucket_read rt st_mtime SqlDir fs).
  pose proof (read_entries_bucket rt st_mtime SqlDir fs) as Hsql.
  destruct (read_entries rt st_mtime fs (filter listable (listdir SqlDir fs)))
    as [sql_files|e].
  2:{ cbn [fst snd]; split; [reflexivity|].
      split; [split; [intros _; left; exact Hsql | intros _; eexists; reflexivity]|].
      intros body H; discriminate. }
  rewrite (list_bucket_read rt st_mtime NosqlDir fs).
  pose proof (read_entries_bucket rt st_mtime NosqlDir fs) as Hnosql.
  destruct (read_entries rt st_mtime fs (filter listable (listdir NosqlDir fs)))
    as [nosql_files|e].
  2:{ cbn [fst snd]; split; [reflexivity|].
      split; [split; [intros _; right; exact Hnosql | intros _; eexists; reflexivity]|].
      intros body H; discriminate. }
  destruct Hsql as [Hsql Hgood_sql]; destruct Hnosql as [Hnosql Hgood_nosql].
  cbn [fst snd]; split; [reflexivity|].
  split.
  { split; [intros [detail H]; discriminate | intros [H|H]; contradiction]. }
  intros body Hbody; injection Hbody as <-.
  exists sql_files, nosql_files.
  split; [reflexivity|]. split; [exact Hsql|]. split; [exact Hnosql|].
  rewrite paginate_selects; cbn [count_sql count_nosql].
  rewrite <- Hsql, <- Hnosql, !length_map; split; reflexivity.
Qed.

(* ===================================================================== *)
(** ** Which stored documents the listing and the lookup can see *)
(* ===================================================================== *)

Lemma endswith_refl (s : string) : Str.endswith s s = true.
Proof. destruct s; simpl; [reflexivity|]. rewrite Ascii.eqb_refl, String.eqb_refl; reflexivity. Qed.

Lemma endswith_iff (suf s : string) :
  Str.endswith suf s = true <-> exists pre, s = pre ++ suf.
Proof.
  split.
  - induction s as [|x s IH]; simpl.
    + rewrite orb_false_r; intro H.
      exists ""; destruct suf; [reflexivity | discriminate].
    + rewrite orb_true_iff; intros [H|H].
      * exists ""; simpl; symmetry.
        change (String.eqb (String x s) suf = true) in H.
        apply String.eqb_eq in H; symmetry; exact H.
      * destruct (IH H) as [pre Hpre]; exists (String x pre); simpl.
        rewrite Hpre; reflexivity.
  - intros [pre ->]; induction pre as [|x pre IH]; simpl.
    + apply endswith_refl.
    + change (String.eqb (String x (pre ++ suf)) suf
              || Str.endswith suf (pre ++ suf) = true).
      rewrite IH; apply orb_true_r.
Qed.

(** Two ways of cutting one text: one of the two ends is an end of the
    other. *)
Lemma append_ends (a b c d : string) :
  a ++ b = c ++ d ->
  (exists e, b = e ++ d) \/ (exists e, d = e ++ b).
Proof.
  revert c; induction a as [|x a IH]; intros c H; simpl in H.
  - left; exists c; exact H.
  - destruct c as [|y c]; simpl in H.
    + right; exists (String x a); symmetry; exact H.
    + injection H as _ H; exact (IH c H).
Qed.

Lemma append_cancel_end (a b c : string) : a ++ c = b ++ c -> a = b.
Proof.
  revert b; induction a as [|x a IH]; intros [|y b] H; simpl in H.
  - reflexivity.
  - apply (f_equal String.length) in H; simpl in H.
    rewrite append_length in H; lia.
  - apply (f_equal String.length) in H; simpl in H.
    rewrite append_length in H; lia.
  - injection H as -> H; rewrite (IH b H); reflexivity.
Qed.

Lemma all_append (p : ascii -> bool) (a b : string) :
  Str.all p (a ++ b) = Str.all p a && Str.all p b.
Proof.
  induction a as [|x a IH]; simpl; [reflexivity|].
  rewrite IH; apply andb_assoc.
Qed.

(** A text that ends in eight hexadecimal digits does not end in a text of
    at most eight characters that holds another character. *)
Lemma hex_end (front h ending pre : string) :
  String.length h = 8 -> Str.all Str.is_hex_digit h = true ->
  String.length ending <= 8 -> Str.all Str.is_hex_digit ending = false ->
  front ++ h = pre ++ ending -> False.
Proof.
  intros Hlen Hhex Hshort Hother Heq.
  destruct (append_ends _ _ _ _ Heq) as [[e He]|[e He]].
  - rewrite He, all_append, Hother, andb_false_r in Hhex; discriminate.
  - assert (e = "").
    { apply (f_equal String.length) in He; rewrite append_length in He.
      destruct e; [reflexivity | simpl in He; lia]. }
    subst e; simpl in He; subst ending; rewrite Hhex in Hother; discriminate.
Qed.

Lemma new_name_front (original stamp digest : string) :
  new_name_of original stamp digest
  = ((PurePath.stem (PurePath.name original) ++ "_" ++ stamp ++ "_")
     ++ Str.take 8 digest) ++ PurePath.suffix (PurePath.name original).
Proof. unfold new_name_of; rewrite !append_assoc; reflexivity. Qed.

(** A stored name ends in [.json] exactly when the declared name has the
    extension [.json], in these very letters. *)
Lemma stored_name_json (original stamp data : string) :
  Str.endswith ".json" (new_name_of original stamp (MD5.hexdigest data)) = true
  <-> PurePath.suffix (PurePath.name original) = ".json".
Proof.
  destruct (fingerprint_prefix data) as [Hlen Hhex].
  rewrite new_name_front; split.
  - intro H; apply endswith_iff in H; destruct H as [pre Hpre].
    destruct (suffix_shape (PurePath.name original)) as [Hext|[rest Hext]].
    + exfalso; rewrite Hext, append_empty in Hpre.
      exact (hex_end _ _ ".json" _ Hlen Hhex ltac:(simpl; lia) eq_refl Hpre).
    + assert (Hnone : Str.rfind "." rest = None).
      { assert (Hne : PurePath.suffix (PurePath.name original) <> "")
          by (rewrite Hext; discriminate).
        destruct (suffix_extension _ Hne) as [rest' [Hs [Hn _]]].
        rewrite Hext in Hs; injection Hs as ->; exact Hn. }
      rewrite Hext in Hpre |- *.
      destruct (append_ends _ _ _ _ Hpre) as [[e He]|[e He]].
      * destruct e as [|x e]; [exact He|].
        exfalso; simpl in He; injection He as _ He.
        change (e ++ ".json") with (e ++ String "." "json") in He.
        rewrite He, (rfind_app_last "." e "json" eq_refl) in Hnone; discriminate.
      * destruct e as [|x e]; [symmetry; exact He|].
        exfalso; simpl in He; injection He as _ He.
        apply (f_equal (Str.rfind ".")) in He.
        rewrite (rfind_app_last "." e rest Hnone) in He; discriminate.
  - intros ->; apply endswith_iff; eexists; reflexivity.
Qed.

Lemma stored_name_not_record (original stamp data : string) :
  Str.endswith ".meta.json" (new_name_of original stamp (MD5.hexdigest data))
  = false
  /\ Str.endswith ".schema.json" (new_name_of original stamp (MD5.hexdigest data))
     = false.
Proof.
  destruct (fingerprint_prefix data) as [Hlen Hhex].
  assert (Hjson : forall ending,
             Str.endswith (ending ++ ".json")
               (new_name_of original stamp (MD5.hexdigest data)) = true ->
             Str.endswith ".json"
               (new_name_of original stamp (MD5.hexdigest data)) = true).
  { intros ending H; apply endswith_iff in H; destruct H as [pre Hpre].
    apply endswith_iff; exists (pre ++ ending).
    rewrite Hpre, append_assoc; reflexivity. }
  assert (Hno : forall ending,
             String.length ending <= 8 ->
             Str.all Str.is_hex_digit ending = false ->
             Str.endswith (ending ++ ".json")
               (new_name_of original stamp (MD5.hexdigest data)) = false).
  { intros ending Hshort Hother.
    destruct (Str.endswith (ending ++ ".json") _) eqn:E; [exfalso | reflexivity].
    pose proof (proj1 (stored_name_json original stamp data) (Hjson _ E)) as Hext.
    apply endswith_iff in E; destruct E as [pre Hpre].
    rewrite new_name_front, Hext in Hpre.
    rewrite <- (append_assoc pre ending ".json") in Hpre.
    apply append_cancel_end in Hpre.
    exact (hex_end _ _ _ _ Hlen Hhex Hshort Hother Hpre). }
  split; [apply (Hno ".meta") | apply (Hno ".schema")];
    first [simpl; lia | reflexivity].
Qed.

Lemma lookup_in (fs : filesystem) (q : path) (x : string) :
  lookup fs q = Some x -> In q (map fst fs).
Proof.
  induction fs as [|[r d] fs IH]; simpl; [discriminate|].
  destruct (path_eqb r q) eqn:E; [|intro H; right; exact (IH H)].
  intros _; left; apply path_eqb_eq; exact E.
Qed.

(** A stored document can be seen by the listing and by the duplicate
    lookup only if its declared name has the extension [.json] in lower
    case.  The upload routes accept the extension in any case, so a
    document declared as [a.JSON] is stored, with both records, and is then
    neither listed nor ever found as a duplicate. *)
Theorem only_json_extension_is_visible :
  forall (rt : runtime) (env : io_env) (file_path : path) (original : string)
         (a : analysis) (fs fs' : filesystem) (r : stored_info),
    parent file_path = TempDir ->
    store_json_file rt env file_path original a fs = (Return (Stored r), fs') ->
    let c := recommendation a in
    let stored_path := mkPath (bucket_dir c) (stored_name r) in
    lookup fs' stored_path <> None
    /\ (In stored_path (documents_of c fs')
        <-> PurePath.suffix (PurePath.name original) = ".json")
    /\ (In (stored_name r) (listed_names (bucket_dir c) fs')
        <-> PurePath.suffix (PurePath.name original) = ".json")
    /\ (PurePath.suffix (PurePath.name original) <> ".json" ->
        forall digest, ~ In stored_path (duplicate_candidates digest c fs')).
Proof.
  intros rt env p original a fs fs' r Htemp Hrun c stored_path.
  destruct (store_json_file_stored _ _ _ _ _ _ _ _ Hrun)
    as [data [Hfile [_ [Hr Hfs]]]].
  assert (Hname : stored_name r
                  = new_name_of original (strftime_stamp (now_name env))
                                (MD5.hexdigest data))
    by (rewrite Hr; reflexivity).
  pose proof (stored_name_json original (strftime_stamp (now_name env)) data)
    as Hjson.
  destruct (stored_name_not_record original (strftime_stamp (now_name env)) data)
    as [Hmeta Hschema].
  rewrite <- Hname in Hjson, Hmeta, Hschema.
  destruct (tree_after_placement_lookup rt env a original data p
              (stored_name r) fs Htemp) as [_ [Hdoc _]].
  rewrite <- Hname in Hfs; rewrite <- Hfs in Hdoc; fold c in Hdoc.
  fold stored_path in Hdoc.
  assert (Hlisted : In stored_path (listdir (bucket_dir c) fs'))
    by (apply in_listdir; split; [exact (lookup_in _ _ _ Hdoc) | reflexivity]).
  assert (Hdocs : In stored_path (documents_of c fs')
                  <-> PurePath.suffix (PurePath.name original) = ".json").
  { unfold documents_of; rewrite filter_In; cbn [name stored_path].
    rewrite Hmeta, Hschema; cbn [orb negb]; rewrite andb_true_r.
    rewrite <- Hjson; tauto. }
  split; [rewrite Hdoc; discriminate|].
  split; [exact Hdocs|].
  split.
  { unfold listed_names; rewrite in_map_iff; split.
    - intros [q [Hq Hin]]; apply filter_In in Hin; destruct Hin as [_ Hl].
      apply andb_true_iff in Hl; destruct Hl as [Hl _].
      rewrite Hq in Hl; apply Hjson; exact Hl.
    - intro Hext; exists stored_path; split; [reflexivity|].
      apply filter_In; split; [exact Hlisted|].
      cbn [name stored_path]; rewrite Hmeta, (proj2 Hjson Hext); reflexivity. }
  intros Hext digest Hin; unfold duplicate_candidates in Hin.
  apply filter_In in Hin; destruct Hin as [Hin _].
  apply Hext, Hdocs; exact Hin.
Qed.

(** The document [{"id": 1}] declared as [a.JSON]. *)
Lemma only_json_extension_is_visible_witness :
  exists r fs',
    store_json_file sample_runtime (calm (sample_clock 5))
      (mkPath TempDir "temp_a.JSON") "a.JSON"
      (analyze_object [("id", JInt 1)])
      [(mkPath TempDir "temp_a.JSON", id_document_text)]
    = (Return (Stored r), fs')
    /\ lookup fs' (mkPath SqlDir (stored_name r)) <> None
    /\ ~ In (stored_name r) (listed_names SqlDir fs').
Proof.
  assert (E : exists r fs',
             store_json_file sample_runtime (calm (sample_clock 5))
               (mkPath TempDir "temp_a.JSON") "a.JSON"
               (analyze_object [("id", JInt 1)])
               [(mkPath TempDir "temp_a.JSON", id_document_text)]
             = (Return (Stored r), fs'))
    by (eexists; eexists; vm_compute; reflexivity).
  destruct E as [r [fs' E]]; exists r, fs'.
  split; [exact E|].
  destruct (only_json_extension_is_visible
              sample_runtime (calm (sample_clock 5))
              (mkPath TempDir "temp_a.JSON") "a.JSON"
              (analyze_object [("id", JInt 1)])
              [(mkPath TempDir "temp_a.JSON", id_document_text)]
              fs' r eq_refl E) as [Hstored [_ [Hlist _]]].
  split; [exact Hstored|].
  intro Hin; apply Hlist in Hin; vm_compute in Hin; discriminate.
Defined.

(* ===================================================================== *)
(** ** The upload routes *)
(* ===================================================================== *)

Lemma analyze_json_file_text (rt : runtime) (p : path) (fs : filesystem)
      (text : string) :
  lookup fs p = Some text ->
  analyze_json_file rt p fs = (Return (analysis_of_text rt text), fs).
Proof.
  intro Hfile; unfold analysis_of_text.
  destruct (ten_megabytes <? Str.size text)%N eqn:Hsize.
  - apply (analyze_json_file_oversize rt p fs text Hfile).
    apply N.ltb_lt; exact Hsize.
  - apply (analyze_json_file_loaded rt p fs text Hfile).
    apply N.ltb_ge; exact Hsize.
Qed.





(** The steps the two upload routes share: the payload is written under its
    temporary name, analysed and placed. *)
Lemma ingest_run (rt : runtime) (env : io_env) (p : path)
      (filename content : string) (fs : filesystem) :
  (write_text (temp_fault env) p content ;;;
   a <- analyze_json_file rt p ;;
   store_json_file rt env p filename a) fs
  = match temp_fault env with
    | Some f => (Raise (Exception (fault_msg f)), partial_write f p content fs)
    | None =>
        store_json_file rt env p filename (analysis_of_text rt content)
          (write p content fs)
    end.
Proof.
  unfold bind at 1, write_text.
  destruct (temp_fault env); [reflexivity|].
  unfold bind.
  rewrite (analyze_json_file_text rt p _ content (lookup_write_same _ _ _)).
  reflexivity.
Qed.

(** [upload_json] by cases: the two tests, the name with a separator, the
    writing of the temporary file, and then what the placement of the
    written payload answers. *)
Lemma upload_json_cases (rt : runtime) (env : io_env) (filename content : string)
      (fs : filesystem) :
  let temp := mkPath TempDir ("temp_" ++ filename) in
  upload_json rt env filename content fs
  = if negb (Str.endswith ".json" (Str.lower filename)) then
      (HttpError 400 "Only JSON files are allowed", fs)
    else if (fifty_megabytes <? Str.size content)%N then
      (HttpError 413 "File too large. Maximum size is 50MB", fs)
    else if Str.contains "/" filename then
      upload_failed env temp (file_not_found temp) fs
    else
      match temp_fault env with
      | Some f =>
          upload_failed env temp (Exception (fault_msg f))
                        (partial_write f temp content fs)
      | None =>
          match store_json_file rt env temp filename (analysis_of_text rt content)
                  (write temp content fs) with
          | (Return (Failed error), fs') =>
              upload_failed env temp (Exception ("500: " ++ error)) fs'
          | (Return result, fs') =>
              (Ok200 result (analysis_of_text rt content), fs')
          | (Raise e, fs') => upload_failed env temp e fs'
          end
      end.
Proof.
  cbv zeta; unfold upload_json.
  destruct (negb (Str.endswith ".json" (Str.lower filename))); [reflexivity|].
  destruct (fifty_megabytes <? Str.size content)%N; [reflexivity|].
  destruct (Str.contains "/" filename); [reflexivity|].
  unfold bind at 1, write_text.
  destruct (temp_fault env); [reflexivity|].
  unfold bind.
  rewrite (analyze_json_file_text rt _ _ content (lookup_write_same _ _ _)).
  destruct (store_json_file rt env _ filename _ _) as [[[r|r|error]|e] fs'];
    reflexivity.
Qed.

(** What the handler of [upload_json] answers and leaves. *)
Lemma upload_failed_spec (env : io_env) (temp : path) (e : exn)
      (fs : filesystem) :
  let answer := upload_failed env temp e fs in
  (forall q, q <> temp -> lookup (snd answer) q = lookup fs q)
  /\ ((forall e', fst answer <> Unhandled e') -> lookup (snd answer) temp = None)
  /\ ((fst answer = HttpError 500 ("Processing failed: " ++ exn_msg e)
       /\ cleanup_fault env = None)
      \/ (exists msg,
            fst answer = Unhandled (Exception msg)
            /\ cleanup_fault env = Some msg)).
Proof.
  cbv zeta; unfold upload_failed.
  destruct (cleanup_fault env) as [msg|]; cbn [fst snd].
  - split; [reflexivity|].
    split; [intro H; exfalso; apply (H (Exception msg)); reflexivity|].
    right; exists msg; split; reflexivity.
  - split; [intros q Hq; apply lookup_remove_other; auto|].
    split; [intros _; apply lookup_remove_same|].
    left; split; reflexivity.
Qed.

(** What the upload route leaves behind.  A name that does not end in
    [.json] (in any case of letters) or a payload above 50 MB is refused
    with 400 or 413 before anything is written.  Every other upload touches
    no file of the temporary directory but its own.  It answers 200 only
    with a successful result and the verdict on the payload, and then
    nothing stands under its temporary name; it answers 500 with the text
    of the error otherwise, unless the look of its handler at the temporary
    file raises, in which case that exception leaves the route.  Whenever
    the route answers 200 or 500, no file is left under its temporary name,
    also when one was there before or when the writing of the temporary
    file had failed halfway. *)
Theorem upload_leaves_no_temporary_file :
  forall (rt : runtime) (env : io_env) (filename content : string)
         (fs : filesystem),
    let temp := mkPath TempDir ("temp_" ++ filename) in
    let answer := upload_json rt env filename content fs in
    (accepted_upload filename content = false ->
     snd answer = fs
     /\ (fst answer = HttpError 400 "Only JSON files are allowed"
         \/ fst answer = HttpError 413 "File too large. Maximum size is 50MB"))
    /\ (accepted_upload filename content = true ->
        (forall q, parent q = TempDir -> q <> temp ->
                   lookup (snd answer) q = lookup fs q)
        /\ ((forall e, fst answer <> Unhandled e) ->
            lookup (snd answer) temp = None)
        /\ ((exists details,
               fst answer = Ok200 details (analysis_of_text rt content)
               /\ success details = true
               /\ Str.contains "/" filename = false
               /\ temp_fault env = None)
            \/ (exists detail,
                  fst answer = HttpError 500 ("Processing failed: " ++ detail)
                  /\ cleanup_fault env = None)
            \/ (exists msg,
                  fst answer = Unhandled (Exception msg)
                  /\ cleanup_fault env = Some msg))).
Proof.
  intros rt env filename content fs; cbv zeta.
  rewrite upload_json_cases; cbv zeta.
  unfold accepted_upload.
  destruct (Str.endswith ".json" (Str.lower filename)) eqn:Hext; cbn [negb andb].
  2: { split; [|discriminate].
       intros _; split; [reflexivity | left; reflexivity]. }
  destruct (N.ltb_spec fifty_megabytes (Str.size content)) as [Hbig|Hsmall].
  { assert (Hleb : (Str.size content <=? fifty_megabytes)%N = false)
      by (apply N.leb_gt; exact Hbig).
    rewrite Hleb; split; [|discriminate].
    intros _; split; [reflexivity | right; reflexivity]. }
  assert (Hleb : (Str.size content <=? fifty_megabytes)%N = true)
    by (apply N.leb_le; exact Hsmall).
  rewrite Hleb; split; [discriminate|]; intros _.
  set (temp := mkPath TempDir ("temp_" ++ filename)).
  assert (Hhandler : forall e fs0,
            (forall q, parent q = TempDir -> q <> temp ->
                       lookup fs0 q = lookup fs q) ->
            let answer := upload_failed env temp e fs0 in
            (forall q, parent q = TempDir -> q <> temp ->
                       lookup (snd answer) q = lookup fs q)
            /\ ((forall e', fst answer <> Unhandled e') ->
                lookup (snd answer) temp = None)
            /\ ((exists details,
                   fst answer = Ok200 details (analysis_of_text rt content)
                   /\ success details = true
                   /\ Str.contains "/" filename = false
                   /\ temp_fault env = None)
                \/ (exists detail,
                      fst answer = HttpError 500 ("Processing failed: " ++ detail)
                      /\ cleanup_fault env = None)
                \/ (exists msg,
                      fst answer = Unhandled (Exception msg)
                      /\ cleanup_fault env = Some msg))).
  { intros e fs0 Hkept answer.
    destruct (upload_failed_spec env temp e fs0) as [Hothers [Hgone Hkind]].
    split.
    { intros q Hq Hne; unfold answer; rewrite Hothers by exact Hne.
      apply Hkept; assumption. }
    split; [exact Hgone|].
    right; destruct Hkind as [[Hanswer Hcalm]|Hraised];
      [left; eexists; split; [exact Hanswer | exact Hcalm] | right; exact Hraised]. }
  destruct (Str.contains "/" filename) eqn:Hslash.
  { apply Hhandler; reflexivity. }
  destruct (temp_fault env) as [f|] eqn:Htemp.
  { apply Hhandler; intros q Hq Hne.
    apply lookup_partial_write_other; auto. }
  destruct (store_json_file_cleans rt env temp filename
              (analysis_of_text rt content) (write temp content fs) eq_refl)
    as [result [fs' [Hrun [Hgone [Hothers _]]]]].
  rewrite Hrun.
  assert (Hkept : forall q, parent q = TempDir -> q <> temp ->
                            lookup fs' q = lookup fs q).
  { intros q Hq Hne; rewrite Hothers by assumption.
    apply lookup_write_other; auto. }
  destruct result as [r|r|error]; [| |apply Hhandler; exact Hkept];
    cbn [fst snd];
    (split; [exact Hkept|]; split; [intros _; exact Hgone|];
     left; eexists; repeat split; reflexivity).
Qed.






(** The bulk path neither tests the name nor the size, and its handler
    removes nothing.  For every name without a separator and every payload:
    when the temporary file cannot be written, [process_single_file]
    returns the error with the name, and what the failed write has left
    under the temporary name stays there; otherwise it returns the result
    of placing the payload under the verdict on it, leaves no file under
    its temporary name and touches no other temporary file, and when the
    result is a new placement, the payload stands in the bucket of the
    verdict's class, which is nosql whenever the payload is above 10 MB,
    also above the 50 MB at which the single route refuses. *)
Theorem bulk_file_is_placed_unchecked :
  forall (rt : runtime) (env : io_env) (filename content : string)
         (fs : filesystem),
    let temp := mkPath TempDir ("bulk_" ++ filename) in
    let a := analysis_of_text rt content in
    Str.contains "/" filename = false ->
    (forall f, temp_fault env = Some f ->
       process_single_file rt env filename content fs
       = (NotProcessed (fault_msg f) filename, partial_write f temp content fs))
    /\ (temp_fault env = None ->
        exists result fs',
          process_single_file rt env filename content fs = (Processed result, fs')
          /\ store_json_file rt env temp filename a (write temp content fs)
             = (Return result, fs')
          /\ lookup fs' temp = None
          /\ (forall q, parent q = TempDir -> q <> temp ->
                        lookup fs' q = lookup fs q)
          /\ (forall r, result = Stored r ->
                lookup fs' (mkPath (bucket_dir (recommendation a)) (stored_name r))
                = Some content
                /\ file_hash r = MD5.hexdigest content
                /\ ((ten_megabytes < Str.size content)%N ->
                    storage_type r = "NoSQL"))).
Proof.
  intros rt env filename content fs temp a Hslash.
  split.
  { intros f Hfault; unfold process_single_file.
    rewrite Hslash, ingest_run, Hfault; reflexivity. }
  intro Hcalm.
  destruct (store_json_file_cleans rt env temp filename a (write temp content fs)
              eq_refl)
    as [result [fs' [Hrun [Hgone [Hothers _]]]]].
  exists result, fs'.
  split.
  { unfold process_single_file; rewrite Hslash, ingest_run, Hcalm.
    fold temp; fold a; rewrite Hrun; reflexivity. }
  split; [exact Hrun|]; split; [exact Hgone|].
  split.
  { intros q Hq Hne; rewrite Hothers by assumption.
    apply lookup_write_other; auto. }
  intros r Hr; subst result.
  destruct (store_json_file_stored _ _ _ _ _ _ _ _ Hrun)
    as [data [Hfile [_ [Hstored Hfs]]]].
  rewrite lookup_write_same in Hfile; injection Hfile as <-.
  destruct (tree_after_placement_lookup rt env a filename content temp
              (new_name_of filename (strftime_stamp (now_name env))
                           (MD5.hexdigest content))
              (write temp content fs) eq_refl)
    as [_ [Hdoc _]].
  rewrite Hstored; cbn [stored_name file_hash storage_type].
  split; [rewrite Hfs; exact Hdoc|].
  split; [reflexivity|].
  intro Hbig; unfold a, analysis_of_text.
  apply N.ltb_lt in Hbig; rewrite Hbig; reflexivity.
Qed.

(** The document [{"id": 1}] sent as [notes.txt] through the bulk path. *)
Lemma bulk_file_is_placed_unchecked_witness :
  exists result fs',
    process_single_file sample_runtime (calm (sample_clock 5)) "notes.txt"
      id_document_text []
    = (Processed result, fs')
    /\ lookup fs' (mkPath TempDir "bulk_notes.txt") = None.
Proof.
  destruct (bulk_file_is_placed_unchecked sample_runtime (calm (sample_clock 5))
              "notes.txt" id_document_text [] ltac:(vm_compute; reflexivity))
    as [_ Hplaced].
  destruct (Hplaced eq_refl) as [result [fs' [Hrun [_ [Hgone _]]]]].
  exists result, fs'; split; [exact Hrun | exact Hgone].
Defined.
